(** * Azure Search sample diagnostics: a shallow embedding and its properties

    The repository is a set of stand-alone Python scripts that load a
    configuration, call a cloud SDK once or twice and print diagnostics.
    This development embeds the scripts that carry logic of their own:

    - [Quickstart/setup_environment.py]       (module [SetupEnvironment])
    - [Quickstart/validate_connection.py]     (module [ValidateConnection])
    - [Quickstart-Agentic-Retrieval/check_azure_region.py] ([CheckAzureRegion])
    - [Quickstart-Agentic-Retrieval/check_region.py]       ([CheckRegion])
    - [Quickstart-Agentic-Retrieval/check_responses_api.py] ([CheckResponsesApi])
    - [Quickstart-Document-Permissions-Pull-API/check_adls_permissions.py]
      ([CheckAdlsPermissions])
    - [Quickstart-Agentic-Retrieval/fix_responses_api.py] ([FixResponsesApi])
    - [Quickstart-Agentic-Retrieval/fix_notebook.py]      ([FixNotebook])
    - [cmk-example/validate_search_service_access.py]
      ([ValidateSearchServiceAccess])
    - the decoding of the access token in
      [Quickstart-Document-Permissions-Pull-API/verify_storage_permissions.py]
      ([VerifyStoragePermissions])

    Conventions of the embedding.

    - A Python [str] is a Rocq [string], one [ascii] per character, so the
      strings the scripts receive (environment values, region names, error
      texts) range over the code points below 256.  Glyphs outside that
      range occur only inside the literal messages the scripts print; they
      are spelled by their UTF-8 bytes and are never measured or sliced.
    - A script runs in a process [proc]: its environment variables, the
      files of the working directory, the lines printed so far and the
      calls made to the outside world (network requests, subprocesses).
    - Code is written in the monad [M]: a computation returns, raises a
      Python exception, or leaves the process through [sys.exit].
    - What the outside world answers (the Azure services, the [az] command
      line) is a Section variable of the script's module: the theorems hold
      for every behaviour of the remote side.

    The file has three parts: the embedding of the scripts, the vocabulary
    of the statements (module [Config] and those after it), and the
    properties, each stated for an arbitrary process and remote side and
    followed by a run on a concrete one. *)

From Stdlib Require Import ZArith Ascii String List Bool Lia.
From stdpp Require Import base decidable option list strings pretty gmap.

Import ListNotations.
Local Open Scope string_scope.
Local Open Scope Z_scope.

(** ** Python primitives *)

Module Py.

(** *** Strings *)

Definition ord (c : ascii) : Z := Z.of_N (N_of_ascii c).
Definition chr (n : Z) : ascii := ascii_of_N (Z.to_N n).

(** [len(s)] *)
Definition len (s : string) : Z := Z.of_nat (String.length s).

(** Truth value of a string: [if s:] holds for the non-empty ones. *)
Definition truthy (s : string) : bool :=
  match s with EmptyString => false | String _ _ => true end.

(** Truth value of what [os.getenv] returns: [None] and [''] are false. *)
Definition truthy_opt (o : option string) : bool :=
  match o with None => false | Some s => truthy s end.

(** [s.startswith(p)] *)
Fixpoint startswith (p s : string) : bool :=
  match p, s with
  | EmptyString, _ => true
  | String _ _, EmptyString => false
  | String a p', String b s' => if Ascii.eqb a b then startswith p' s' else false
  end.

(** [needle in hay]: [needle] occurs in [hay] as a contiguous run. *)
Fixpoint str_in (needle hay : string) : bool :=
  startswith needle hay ||
  match hay with
  | EmptyString => false
  | String _ hay' => str_in needle hay'
  end.

(** [c.lower()] on the code points below 256: A-Z and the accented
    capitals 0xC0-0xDE (the multiplication sign 0xD7 apart) move up by 32. *)
Definition chr_lower (c : ascii) : ascii :=
  let n := ord c in
  if ((65 <=? n) && (n <=? 90)) || ((192 <=? n) && (n <=? 222) && negb (n =? 215))
  then chr (n + 32) else c.

(** [s.lower()] *)
Fixpoint str_lower (s : string) : string :=
  match s with
  | EmptyString => EmptyString
  | String c s' => String (chr_lower c) (str_lower s')
  end.

(** [s.replace(old, new)] for a non-empty [old] (the scripts only replace
    the literal scheme prefix): occurrences are replaced left to right and
    do not overlap.  [skip] counts the characters of a matched occurrence
    that are still to be dropped. *)
Fixpoint replace_from (old new : string) (skip : nat) (s : string) : string :=
  match s with
  | EmptyString => EmptyString
  | String c s' =>
      match skip with
      | S k => replace_from old new k s'
      | O =>
          if startswith old s
          then new +:+ replace_from old new (Nat.pred (String.length old)) s'
          else String c (replace_from old new O s')
      end
  end.

Definition str_replace (old new s : string) : string := replace_from old new O s.

(** [s.split(sep)] for a one-character separator; the result is never
    empty, so [s.split(sep)[0]] always exists. *)
Fixpoint str_split (sep : ascii) (s : string) : list string :=
  match s with
  | EmptyString => [EmptyString]
  | String c s' =>
      let rest := str_split sep s' in
      if Ascii.eqb c sep then EmptyString :: rest
      else match rest with
           | h :: t => String c h :: t
           | [] => [String c EmptyString]
           end
  end.

(** [parts[0]] of a split. *)
Definition first_part (parts : list string) : string :=
  match parts with h :: _ => h | [] => EmptyString end.

(** [c.isspace()] on the code points below 256. *)
Definition chr_isspace (c : ascii) : bool :=
  let n := ord c in
  ((9 <=? n) && (n <=? 13)) || ((28 <=? n) && (n <=? 32)) || (n =? 133) || (n =? 160).

Fixpoint lstrip (s : string) : string :=
  match s with
  | EmptyString => EmptyString
  | String c s' => if chr_isspace c then lstrip s' else s
  end.

(** [rstrip]: a character is kept when it is not blank or when something
    is kept after it. *)
Fixpoint rstrip (s : string) : string :=
  match s with
  | EmptyString => EmptyString
  | String c s' =>
      match rstrip s' with
      | EmptyString => if chr_isspace c then EmptyString else String c EmptyString
      | r => String c r
      end
  end.

(** [s.strip()] *)
Definition str_strip (s : string) : string := rstrip (lstrip s).

(** [c * n] for a one-character string [c]: empty when [n <= 0]. *)
Definition str_mul (c : ascii) (n : Z) : string :=
  string_of_list_ascii (repeat c (Z.to_nat n)).

Fixpoint str_drop (n : nat) (s : string) : string :=
  match n, s with
  | O, _ => s
  | S _, EmptyString => EmptyString
  | S n', String _ s' => str_drop n' s'
  end.

(** [s[i:]]: a negative [i] counts from the end, and the start is clamped
    to the string. *)
Definition slice_from (s : string) (i : Z) : string :=
  let start := if i <? 0 then Z.max 0 (len s + i) else Z.min i (len s) in
  str_drop (Z.to_nat start) s.

(** [x in xs] for a list of strings. *)
Definition list_in (x : string) (xs : list string) : bool :=
  bool_decide (x ∈ xs).

End Py.

(** ** Processes and the script monad *)

Module Proc.

(** The exception classes the scripts tell apart in their handlers.  An
    exception of any other class is an [OtherError]; every class here
    derives from Python's [Exception]. *)
Inductive exn_class :=
| KeyError | NameError | TypeError
| ServiceRequestError | HttpResponseError
| OtherError.

(** An exception: its class and [str(e)]. *)
Record exn := Exn { exn_cls : exn_class; exn_str : string }.

(** A running script.  A file of the working directory is represented by
    the bindings python-dotenv reads from it (its [dotenv_values]); the
    parent directories python-dotenv would also search are not modelled.
    [globals] holds the module-level variables of a script that runs at
    module level (a name is bound from its first assignment on); a value
    is [None] or a string, and an SDK object is represented by the name or
    path it stands for.
    [calls] lists the calls the script makes to the outside world, oldest
    first: one entry for each operation of an SDK it invokes, each HTTP
    call of its own and each subprocess it starts.  What an SDK does
    inside one operation (fetching a token, sending a request again
    after a failure) is not code of the scripts and is not listed. *)
Record proc := Proc {
  environ : gmap string string;
  files : gmap string (gmap string string);
  globals : gmap string (option string);
  stdout : list string;
  calls : list string
}.

Inductive outcome (A : Type) :=
| Ret (a : A)
| Raise (e : exn)
| Exit (code : Z).
Arguments Ret {A} a.
Arguments Raise {A} e.
Arguments Exit {A} code.

Definition M (A : Type) : Type := proc -> outcome A * proc.

Definition ret {A} (a : A) : M A := fun p => (Ret a, p).

Definition bind {A B} (m : M A) (k : A -> M B) : M B :=
  fun p =>
    match m p with
    | (Ret a, p') => k a p'
    | (Raise e, p') => (Raise e, p')
    | (Exit c, p') => (Exit c, p')
    end.

#[global] Instance M_ret : MRet M := @ret.
#[global] Instance M_bind : MBind M := fun A B k m => bind m k.

(** [x <- m ;; k] runs [m], names its result and goes on with [k];
    [m ;; k] (stdpp's notation, through the instances above) drops it. *)
Notation "x <- m ;; k" := (bind m (fun x => k))
  (at level 100, m at level 99, k at level 200, right associativity, only parsing).

(** [raise e] *)
Definition throw {A} (e : exn) : M A := fun p => (Raise e, p).

Definition raise {A} (cls : exn_class) (msg : string) : M A :=
  throw (Exn cls msg).

(** [sys.exit(code)] *)
Definition sys_exit {A} (code : Z) : M A := fun p => (Exit code, p).

(** [try: body / except Exception as e: handler e].  [SystemExit] is not
    an [Exception] and passes through. *)
Definition try_except {A} (body : M A) (handler : exn -> M A) : M A :=
  fun p =>
    match body p with
    | (Raise e, p') => handler e p'
    | r => r
    end.

(** [print(s)]: one more line on standard output. *)
Definition print (s : string) : M unit :=
  fun p => (Ret tt, Proc (environ p) (files p) (globals p) (stdout p ++ [s]) (calls p)).

(** The script calls the outside world: an operation of an SDK, an HTTP
    call of its own, a subprocess. *)
Definition call_out (what : string) : M unit :=
  fun p => (Ret tt, Proc (environ p) (files p) (globals p) (stdout p) (calls p ++ [what])).

(** How many calls have left the process so far. *)
Definition calls_made : M nat := fun p => (Ret (length (calls p)), p).

(** [os.getenv(k)] and [os.environ.get(k)] *)
Definition getenv (k : string) : M (option string) :=
  fun p => (Ret (environ p !! k), p).

(** [os.getenv(k, d)] *)
Definition getenv_default (k d : string) : M string :=
  fun p => (Ret (match environ p !! k with Some v => v | None => d end), p).

(** [repr(k)] of a plain key, which is what [str(KeyError(k))] shows. *)
Definition repr_key (k : string) : string := "'" +:+ k +:+ "'".

(** [os.environ[k]] *)
Definition environ_item (k : string) : M string :=
  fun p =>
    match environ p !! k with
    | Some v => (Ret v, p)
    | None => (Raise (Exn KeyError (repr_key k)), p)
    end.

(** [Path(f).exists()] *)
Definition path_exists (f : string) : M bool :=
  fun p => (Ret (bool_decide (is_Some (files p !! f))), p).

(** [load_dotenv(override=...)]: the bindings of [.env] enter the
    environment; a variable that is already set keeps its value unless
    [override] is given.  Without a [.env] file nothing changes. *)
Definition load_dotenv (override : bool) : M unit :=
  fun p =>
    match files p !! ".env" with
    | None => (Ret tt, p)
    | Some b =>
        (Ret tt,
         Proc (if override then b ∪ environ p else environ p ∪ b)
              (files p) (globals p) (stdout p) (calls p))
    end.

(** [shutil.copy(src, dst)].  [os_error] is what the operating system
    answers to the copy: [None] when it goes through. *)
Definition shutil_copy (os_error : option string) (src dst : string) : M unit :=
  fun p =>
    match os_error, files p !! src with
    | Some e, _ => (Raise (Exn OtherError e), p)
    | None, None => (Raise (Exn OtherError "No such file or directory"), p)
    | None, Some c => (Ret tt, Proc (environ p) (<[dst := c]> (files p)) (globals p) (stdout p) (calls p))
    end.

(** [name = value] at module level. *)
Definition assign (name : string) (value : option string) : M unit :=
  fun p => (Ret tt, Proc (environ p) (files p) (<[name := value]> (globals p)) (stdout p) (calls p)).

(** Reading a module-level variable: a name that was never assigned is a
    [NameError]. *)
Definition global (name : string) : M (option string) :=
  fun p =>
    match globals p !! name with
    | Some v => (Ret v, p)
    | None => (Raise (Exn NameError ("name '" +:+ name +:+ "' is not defined")), p)
    end.

(** [for x in xs: body x] *)
Fixpoint for_each {A} (xs : list A) (body : A -> M unit) : M unit :=
  match xs with
  | [] => ret tt
  | x :: xs' => bind (body x) (fun _ => for_each xs' body)
  end.

(** The line feed, for the messages that start with a blank line. *)
Definition LF : string := String (Py.chr 10) EmptyString.

(** [str(x)] of an optional string: [None] prints as its name. *)
Definition str_of (o : option string) : string :=
  match o with
  | Some s => s
  | None => "None"
  end.

(** A freshly started process. *)
Definition start (env : gmap string string) (fs : gmap string (gmap string string)) : proc :=
  Proc env fs ∅ [] [].

End Proc.

(** ** Quickstart/setup_environment.py *)

Module SetupEnvironment.
Import Proc.

(** The placeholder values of [sample.env], as the script spells them. *)
Definition endpoint_placeholder : string := "https://your-service-name.search.windows.net".
Definition api_key_placeholder : string := "your-admin-api-key-here".

(** The expression the script prints in place of the key:
    ['*' * (len(key) - 4) + key[-4:]]. *)
Definition masked (key : string) : string :=
  Py.str_mul "*" (Py.len key - 4) +:+ Py.slice_from key (-4).

(** The same expression on what [os.getenv] returned: [len(None)] is a
    [TypeError]. *)
Definition masked_opt (key : option string) : M string :=
  match key with
  | Some k => ret (masked k)
  | None => raise TypeError "object of type 'NoneType' has no len()"
  end.

Definition check_env_file : M bool :=
  env_file_exists <- path_exists ".env";;
  if negb env_file_exists then
    print "❌ No .env file found!";;
    print (LF +:+ "To fix this issue:");;
    print "1. Copy sample.env to .env:";;
    print "   cp sample.env .env";;
    print "2. Edit .env with your actual Azure Search service details";;
    print "3. Run this script again to validate";;
    mret false
  else
    load_dotenv false;;
    search_endpoint <- getenv "SEARCH-ENDPOINT";;
    search_api_key <- getenv "SEARCH-API-KEY";;
    print "🔍 Checking environment variables...";;
    if negb (Py.truthy_opt search_endpoint) then
      print "❌ SEARCH-ENDPOINT is not set";;
      mret false
    else if bool_decide (search_endpoint = Some endpoint_placeholder) then
      print "❌ SEARCH-ENDPOINT still has the placeholder value";;
      mret false
    else
      print ("✅ SEARCH-ENDPOINT: " +:+ str_of search_endpoint);;
      if negb (Py.truthy_opt search_api_key) then
        print "❌ SEARCH-API-KEY is not set";;
        mret false
      else if bool_decide (search_api_key = Some api_key_placeholder) then
        print "❌ SEARCH-API-KEY still has the placeholder value";;
        mret false
      else
        shown <- masked_opt search_api_key;;
        print ("✅ SEARCH-API-KEY: " +:+ shown);;
        mret true.

Section Copy.
(** What the operating system answers when [shutil.copy] writes [.env]. *)
Variable os_error : option string.

Definition create_env_file : M bool :=
  sample_exists <- path_exists "sample.env";;
  if negb sample_exists then
    print "❌ sample.env file not found!";;
    mret false
  else
    env_exists <- path_exists ".env";;
    if env_exists then
      print "⚠️  .env file already exists. Skipping creation.";;
      mret true
    else
      try_except
        (shutil_copy os_error "sample.env" ".env";;
         print "✅ Created .env file from sample.env";;
         print "📝 Please edit .env with your actual Azure Search service details";;
         mret true)
        (fun e =>
           print ("❌ Failed to create .env file: " +:+ exn_str e);;
           mret false).

Definition main : M unit :=
  print "🚀 Azure AI Search Quickstart Environment Setup";;
  print (Py.str_mul "=" 50);;
  notebook_exists <- path_exists "azure-search-quickstart.ipynb";;
  if negb notebook_exists then
    print "❌ Please run this script from the Quickstart directory"
  else
    env_exists <- path_exists ".env";;
    created <- (if negb env_exists then
                 print "📁 Creating .env file...";;
                 create_env_file
               else mret true);;
    if negb created then mret tt
    else
      ok <- check_env_file;;
      if ok then
        print (LF +:+ "🎉 Environment is properly configured!");;
        print "You can now run the Azure Search quickstart notebook."
      else
        print (LF +:+ "❌ Environment is not properly configured.");;
        print "Please fix the issues above and run this script again.".

End Copy.
End SetupEnvironment.

(** ** Quickstart/validate_connection.py *)

Module ValidateConnection.
Import Proc.

(** What the search service answers to [list_indexes]. *)
Inductive listing :=
| Indexes (names : list string)
| Failed (e : exn).

Section Service.
(** [new_client endpoint key]: the exception the constructors
    [AzureKeyCredential] and [SearchIndexClient] raise, if any; they do not
    reach the network. *)
Variable new_client : string -> string -> option exn.
(** [list_indexes endpoint key]: the answer of the service. *)
Variable list_indexes : string -> string -> listing.

(** The body of the [try] block. *)
Definition probe (search_endpoint search_api_key : string) : M bool :=
  match new_client search_endpoint search_api_key with
  | Some e => throw e
  | None =>
      print (LF +:+ "🔄 Testing connection...");;
      call_out ("list_indexes " +:+ search_endpoint);;
      match list_indexes search_endpoint search_api_key with
      | Failed e => throw e
      | Indexes indexes =>
          print "✅ Connection successful!";;
          print ("📊 Found " +:+ pretty (length indexes) +:+ " existing indexes:");;
          for_each indexes (fun name => print ("   - " +:+ name));;
          mret true
      end
  end.

(** The three [except] clauses, tried in the order they are written. *)
Definition handler (e : exn) : M bool :=
  match exn_cls e with
  | ServiceRequestError =>
      print ("❌ Connection failed: " +:+ exn_str e);;
      print (LF +:+ "Possible causes:");;
      print "- Invalid endpoint URL";;
      print "- Network connectivity issues";;
      print "- DNS resolution problems";;
      mret false
  | HttpResponseError =>
      print ("❌ Authentication failed: " +:+ exn_str e);;
      print (LF +:+ "Possible causes:");;
      print "- Invalid API key";;
      print "- Insufficient permissions";;
      print "- Service not found";;
      mret false
  | _ =>
      print ("❌ Unexpected error: " +:+ exn_str e);;
      mret false
  end.

Definition validate_connection : M bool :=
  print "🔍 Validating Azure Search connection...";;
  load_dotenv false;;
  search_endpoint <- getenv "SEARCH-ENDPOINT";;
  search_api_key <- getenv "SEARCH-API-KEY";;
  if negb (Py.truthy_opt search_endpoint) || negb (Py.truthy_opt search_api_key) then
    print "❌ Missing environment variables!";;
    print "Please ensure SEARCH-ENDPOINT and SEARCH-API-KEY are set in your .env file";;
    mret false
  else
    print ("📍 Endpoint: " +:+ str_of search_endpoint);;
    shown <- SetupEnvironment.masked_opt search_api_key;;
    print ("🔑 API Key: " +:+ shown);;
    try_except (probe (str_of search_endpoint) (str_of search_api_key)) handler.

Definition main : M unit :=
  print "🚀 Azure AI Search Connection Validator";;
  print (Py.str_mul "=" 40);;
  ok <- validate_connection;;
  if ok then
    print (LF +:+ "🎉 Your Azure Search service is ready to use!");;
    print "You can now run the quickstart notebook."
  else
    print (LF +:+ "❌ Connection validation failed.");;
    print "Please check your configuration and try again.".

End Service.
End ValidateConnection.

(** ** Quickstart-Agentic-Retrieval/check_azure_region.py *)

Module CheckAzureRegion.
Import Proc.

(** The regions [check_supported_regions] lists, and its mapping from
    short host tokens to region names, in the order the dict is written
    (the order in which [items()] yields it). *)
Definition supported_regions : list string :=
  ["East US"; "West US 2"; "North Europe"; "West Europe";
   "UK South"; "Australia East"; "Canada East"].

Definition region_mappings : list (string * string) :=
  [("eastus", "East US");
   ("westus2", "West US 2");
   ("northeurope", "North Europe");
   ("westeurope", "West Europe");
   ("uksouth", "UK South");
   ("australiaeast", "Australia East");
   ("canadaeast", "Canada East")].

(** What [subprocess.run] yields: a completed process, or an exception. *)
Inductive run_reply :=
| Completed (returncode : Z) (out err : string)
| RunFailed (e : exn).

(** [endpoint.replace("https://", "").split(".")[0]] *)
Definition service_name (endpoint : string) : string :=
  Py.first_part (Py.str_split "." (Py.str_replace "https://" "" endpoint)).

Definition az_command (name : string) : string :=
  "az cognitiveservices account show --name " +:+ name +:+
  " --resource-group * --query 'location' --output tsv".

Definition check_supported_regions : M (list string * list (string * string)) :=
  print (LF +:+ "📋 CHECKING RESPONSES API SUPPORT");;
  print (Py.str_mul "=" 50);;
  mret (supported_regions, region_mappings).

(** The loop of [check_region_support] over [region_mappings.items()]:
    [true] when the function returned [True] from inside the loop, [false]
    when the loop ran to its end. *)
Fixpoint mapped_loop (supported : list string) (items : list (string * string))
    (region_lower : string) : M bool :=
  match items with
  | [] => mret false
  | (pattern, mapped_region) :: rest =>
      if Py.str_in pattern region_lower || Py.str_in region_lower pattern then
        if Py.list_in mapped_region supported then
          print ("✅ This region (" +:+ mapped_region +:+ ") supports the Responses API!");;
          mret true
        else mapped_loop supported rest region_lower
      else mapped_loop supported rest region_lower
  end.

Definition check_region_support (region : string) : M bool :=
  tables <- check_supported_regions;;
  let '(supported, mappings) := tables in
  print ("Checking region: " +:+ region);;
  if Py.list_in region supported then
    print "✅ This region supports the Responses API!";;
    mret true
  else
    let region_lower := Py.str_lower region in
    returned <- mapped_loop supported mappings region_lower;;
    if returned then mret true
    else
      print "❌ This region does NOT support the Responses API.";;
      mret false.

Definition show_european_options : M unit :=
  print (LF +:+ "🌍 EUROPEAN REGION OPTIONS");;
  print (Py.str_mul "=" 50);;
  let european_regions := ["North Europe"; "West Europe"; "UK South"] in
  print "European regions that support Responses API:";;
  for_each european_regions (fun region => print ("  • " +:+ region));;
  print (LF +:+ "If you're in a different European region, you can:");;
  print "1. Create a new Azure OpenAI service in North Europe or West Europe";;
  print "2. Contact Azure support to request Responses API in your region";;
  print "3. Use Chat Completions API as an alternative".

Section Cli.
(** The answer of the shell to a command line. *)
Variable subprocess_run : string -> run_reply.

Definition check_with_azure_cli : M (option string) :=
  print "🔍 CHECKING REGION WITH AZURE CLI";;
  print (Py.str_mul "=" 50);;
  try_except
    (azure_openai_endpoint <- getenv "AZURE_OPENAI_ENDPOINT";;
     if negb (Py.truthy_opt azure_openai_endpoint) then
       print "❌ AZURE_OPENAI_ENDPOINT not found";;
       mret None
     else
       let name := service_name (str_of azure_openai_endpoint) in
       print ("Service Name: " +:+ name);;
       let cmd := az_command name in
       call_out cmd;;
       match subprocess_run cmd with
       | RunFailed e => throw e
       | Completed returncode out err =>
           if returncode =? 0 then
             let region := Py.str_strip out in
             print ("✅ Region: " +:+ region);;
             mret (Some region)
           else
             print ("❌ Azure CLI error: " +:+ err);;
             mret None
       end)
    (fun e =>
       print ("❌ Error running Azure CLI: " +:+ exn_str e);;
       mret None).

(** The script: [load_dotenv(override=True)] at import, then [main()]. *)
Definition main : M unit :=
  load_dotenv true;;
  print "🚀 AZURE OPENAI REGION DETECTOR";;
  print (Py.str_mul "=" 60);;
  region <- check_with_azure_cli;;
  (if Py.truthy_opt region then
     supports_responses <- check_region_support (str_of region);;
     if negb supports_responses then show_european_options else mret tt
   else
     print (LF +:+ "⚠️  Could not determine region automatically.");;
     print "Please check manually in Azure Portal:";;
     print "1. Go to https://portal.azure.com";;
     print "2. Find your Azure OpenAI service (kor-ai-hub-3)";;
     print "3. Check the 'Location' field in the Overview";;
     print "4. Compare with supported regions below:";;
     tables <- check_supported_regions;;
     print (LF +:+ "Supported regions for Responses API:");;
     for_each (fst tables) (fun region => print ("  • " +:+ region)));;
  print (LF +:+ Py.str_mul "=" 60);;
  print "NEXT STEPS:";;
  print (Py.str_mul "=" 60);;
  print "If your region doesn't support Responses API:";;
  print "1. Create new service in North Europe or West Europe";;
  print "2. Deploy your model in the new service";;
  print "3. Update your .env file";;
  print "4. Test with: python check_responses_api.py".

End Cli.
End CheckAzureRegion.

(** ** Quickstart-Agentic-Retrieval/check_region.py *)

Module CheckRegion.
Import Proc.

(** [region_patterns], in the order the dict is written. *)
Definition region_patterns : list (string * string) :=
  [("eastus", "East US");
   ("westus2", "West US 2");
   ("northeurope", "North Europe");
   ("westeurope", "West Europe");
   ("uksouth", "UK South");
   ("australiaeast", "Australia East");
   ("canadaeast", "Canada East");
   ("centralus", "Central US");
   ("southcentralus", "South Central US");
   ("westus", "West US");
   ("eastus2", "East US 2");
   ("brazilsouth", "Brazil South");
   ("japaneast", "Japan East");
   ("southeastasia", "Southeast Asia");
   ("koreacentral", "Korea Central")].

Definition supported_regions : list string :=
  ["East US"; "West US 2"; "North Europe"; "West Europe";
   "UK South"; "Australia East"; "Canada East"].

(** The loop that sets [found_region]: the first entry whose pattern
    occurs in the lowered service name, then [break]. *)
Fixpoint found_region (patterns : list (string * string)) (service_lower : string)
    : option string :=
  match patterns with
  | [] => None
  | (pattern, region_name) :: rest =>
      if Py.str_in pattern service_lower then Some region_name
      else found_region rest service_lower
  end.

Definition check_service_region : M unit :=
  print "🌍 CHECKING AZURE OPENAI SERVICE REGION";;
  print (Py.str_mul "=" 50);;
  azure_openai_endpoint <- getenv "AZURE_OPENAI_ENDPOINT";;
  if negb (Py.truthy_opt azure_openai_endpoint) then
    print "❌ AZURE_OPENAI_ENDPOINT not found in .env file"
  else
    let endpoint := str_of azure_openai_endpoint in
    print ("Endpoint: " +:+ endpoint);;
    if Py.str_in "openai.azure.com" endpoint then
      let name := CheckAzureRegion.service_name endpoint in
      print ("Service Name: " +:+ name);;
      let service_lower := Py.str_lower name in
      match found_region region_patterns service_lower with
      | Some region =>
          print ("Detected Region: " +:+ region);;
          if Py.list_in region supported_regions then
            print "✅ This region supports the Responses API!";;
            print "The issue might be with your service configuration."
          else
            print "❌ This region does NOT support the Responses API.";;
            print "You need to create a new service in a supported region."
      | None =>
          print "⚠️  Could not determine region from service name.";;
          print "Check your Azure portal for the exact region."
      end
    else
      print "⚠️  Endpoint doesn't match expected Azure OpenAI format.".

Definition show_supported_regions : M unit :=
  print (LF +:+ "📋 RESPONSES API SUPPORTED REGIONS");;
  print (Py.str_mul "=" 50);;
  print "The Responses API is available in these regions:";;
  for_each supported_regions (fun region => print ("  • " +:+ region));;
  print (LF +:+ "To use client.responses.create(), you need:");;
  print "1. Azure OpenAI service in one of the above regions";;
  print "2. API version 2025-05-01-Preview or later";;
  print "3. Supported model deployment (gpt-4o, gpt-4o-mini, etc.)".

(** The script: [load_dotenv(override=True)] at import, then [main()]. *)
Definition main : M unit :=
  load_dotenv true;;
  print "🚀 AZURE OPENAI REGION CHECKER";;
  print (Py.str_mul "=" 60);;
  check_service_region;;
  show_supported_regions;;
  print (LF +:+ Py.str_mul "=" 60);;
  print "NEXT STEPS:";;
  print (Py.str_mul "=" 60);;
  print "If your region doesn't support Responses API:";;
  print "1. Create a new Azure OpenAI service in a supported region";;
  print "2. Deploy your model in the new service";;
  print "3. Update your .env file with the new endpoint";;
  print "4. Test with: python check_responses_api.py".

End CheckRegion.

(** ** Quickstart-Agentic-Retrieval/check_responses_api.py *)

Module CheckResponsesApi.
Import Proc.

(** What the service answers to [client.responses.create]. *)
Inductive api_reply :=
| Output (output_text : string)
| ApiError (e : exn).

Definition check_azure_openai_service : M bool :=
  print "🔍 DIAGNOSING AZURE OPENAI SERVICE";;
  print (Py.str_mul "=" 50);;
  azure_openai_endpoint <- getenv "AZURE_OPENAI_ENDPOINT";;
  azure_openai_api_version <- getenv_default "AZURE_OPENAI_API_VERSION" "2025-05-01-Preview";;
  if negb (Py.truthy_opt azure_openai_endpoint) then
    print "❌ AZURE_OPENAI_ENDPOINT not found in .env file";;
    mret false
  else
    let endpoint := str_of azure_openai_endpoint in
    print ("✅ Endpoint: " +:+ endpoint);;
    print ("✅ API Version: " +:+ azure_openai_api_version);;
    (if Py.str_in "openai.azure.com" endpoint then
       let parts := Py.str_split "." (Py.str_replace "https://" "" endpoint) in
       if (2 <=? Z.of_nat (length parts))%Z then
         print ("✅ Service Name: " +:+ Py.first_part parts)
       else
         print "⚠️  Could not extract service name from endpoint"
     else
       print "⚠️  Endpoint doesn't match expected Azure OpenAI format");;
    mret true.

Definition check_alternative_solutions : M unit :=
  print (LF +:+ "💡 ALTERNATIVE SOLUTIONS");;
  print (Py.str_mul "=" 50);;
  print "If Responses API is not available, you can:";;
  print "1. Use Chat Completions API (works everywhere)";;
  print "2. Contact Azure support to enable Responses API";;
  print "3. Create a new Azure OpenAI service in a supported region";;
  print "4. Wait for Responses API to be available in your region".

Section Remote.
(** [new_client endpoint]: the exception raised while the credential, the
    token provider and the client object are built, if any. *)
Variable new_client : string -> option exn.
(** [responses_create n model api_version]: the answer of the service to
    the request sent when [n] calls have already left the process.  A
    second attempt may be answered differently from the first. *)
Variable responses_create : nat -> string -> string -> api_reply.

(** The [except Exception as e] clause. *)
Definition guidance (e : exn) : M bool :=
  print ("❌ Responses API failed: " +:+ exn_str e);;
  (if Py.str_in "404" (exn_str e) then
     print (LF +:+ "🔧 TROUBLESHOOTING 404 ERROR:");;
     print "1. Check if your Azure OpenAI service is in a supported region:";;
     print "   - East US, West US 2, North Europe, West Europe";;
     print "   - UK South, Australia East, Canada East";;
     print "2. Verify you're using the latest API version: 2025-05-01-Preview";;
     print "3. Make sure your model deployment supports the Responses API";;
     print "4. Check if your Azure OpenAI service was created recently"
   else if Py.str_in "401" (exn_str e) then
     print (LF +:+ "🔧 TROUBLESHOOTING 401 ERROR:");;
     print "1. Check your authentication credentials";;
     print "2. Verify you have the correct permissions"
   else if Py.str_in "400" (exn_str e) then
     print (LF +:+ "🔧 TROUBLESHOOTING 400 ERROR:");;
     print "1. Check your model deployment name";;
     print "2. Verify the model supports the Responses API"
   else mret tt);;
  mret false.

Definition test_responses_api_availability : M bool :=
  print (LF +:+ "🧪 TESTING RESPONSES API AVAILABILITY");;
  print (Py.str_mul "=" 50);;
  try_except
    (azure_openai_endpoint <- environ_item "AZURE_OPENAI_ENDPOINT";;
     azure_openai_api_version <- getenv_default "AZURE_OPENAI_API_VERSION" "2025-05-01-Preview";;
     answer_model <- getenv_default "ANSWER_MODEL" "gpt-4o";;
     match new_client azure_openai_endpoint with
     | Some e => throw e
     | None =>
         print ("Testing with model: " +:+ answer_model);;
         print ("Testing with API version: " +:+ azure_openai_api_version);;
         sent <- calls_made;;
         call_out ("responses.create " +:+ answer_model);;
         match responses_create sent answer_model azure_openai_api_version with
         | ApiError e => throw e
         | Output output_text =>
             print "✅ SUCCESS! Responses API is available!";;
             print ("Response: " +:+ output_text);;
             mret true
         end
     end)
    guidance.

(** The script: [load_dotenv(override=True)] at import, then [main()]. *)
Definition main : M unit :=
  load_dotenv true;;
  print "🚀 AZURE OPENAI RESPONSES API DIAGNOSTIC";;
  print (Py.str_mul "=" 60);;
  configured <- check_azure_openai_service;;
  if negb configured then mret tt
  else
    success <- test_responses_api_availability;;
    (if negb success then check_alternative_solutions else mret tt);;
    print (LF +:+ Py.str_mul "=" 60);;
    print "SUMMARY:";;
    print (Py.str_mul "=" 60);;
    if success then
      print "✅ Your Azure OpenAI service supports the Responses API!";;
      print "You can use client.responses.create() in your notebook."
    else
      print "❌ Responses API is not available in your current setup.";;
      print "Consider using Chat Completions API as an alternative.".

End Remote.
End CheckResponsesApi.

(** ** Quickstart-Document-Permissions-Pull-API/check_adls_permissions.py *)

Module CheckAdlsPermissions.
Import Proc.

Definition graph_scope : string := "https://graph.microsoft.com/.default".
Definition member_of_url : string :=
  "https://graph.microsoft.com/v1.0/me/memberOf?$select=id,displayName".
Definition oregon_url : string :=
  "https://raw.githubusercontent.com/Azure-Samples/azure-search-sample-data/refs/heads/main/state-parks/Oregon/oregon_state_parks.csv".
Definition washington_url : string :=
  "https://raw.githubusercontent.com/Azure-Samples/azure-search-sample-data/refs/heads/main/state-parks/Washington/washington_state_parks.csv".

(** [f"group:{group_id}:rwx"] *)
Definition group_acl (group_id : option string) : string :=
  "group:" +:+ str_of group_id +:+ ":rwx".

Section Azure.
(** [raises done what]: the exception the operation [what] raises, if any,
    when the operations [done] came before it.  It covers the SDK, the
    HTTP library and the services behind them. *)
Variable raises : list string -> string -> option exn.
(** The ids of the groups Microsoft Graph returns, in order. *)
Variable groups : list string.
(** The answer of [container.exists()]. *)
Variable container_exists : bool.

(** One operation on the SDK or the network: it is recorded, then it
    returns or raises. *)
Definition sdk (what : string) : M unit :=
  done <- (fun p => (Ret (calls p), p));;
  call_out what;;
  match raises done what with
  | Some e => throw e
  | None => mret tt
  end.

Definition step1 : M unit :=
  print "--- Step 1: Load environment variables ---";;
  load_dotenv true;;
  try_except
    (endpoint <- environ_item "AZURE_SEARCH_ENDPOINT";;
     assign "endpoint" (Some endpoint);;
     adls_gen2_connection_string <- environ_item "AZURE_STORAGE_CONNECTION_STRING";;
     assign "adls_gen2_connection_string" (Some adls_gen2_connection_string);;
     adls_gen2_account_name <- getenv "AZURE_STORAGE_ACCOUNT_NAME";;
     assign "adls_gen2_account_name" adls_gen2_account_name;;
     adls_gen2_container_name <- getenv "AZURE_STORAGE_CONTAINER_NAME";;
     assign "adls_gen2_container_name" adls_gen2_container_name;;
     adls_gen2_resource_id <- environ_item "AZURE_STORAGE_RESOURCE_ID";;
     assign "adls_gen2_resource_id" (Some adls_gen2_resource_id);;
     print "Environment variables loaded successfully.";;
     print ("  endpoint: " +:+ endpoint);;
     print ("  adls_gen2_account_name: " +:+ str_of adls_gen2_account_name);;
     print ("  adls_gen2_container_name: " +:+ str_of adls_gen2_container_name))
    (fun e =>
       print ("Failed to load environment variables: " +:+ exn_str e);;
       sys_exit 1).

Definition step2 : M unit :=
  print (LF +:+ "--- Step 2: Authenticate with Azure ---");;
  try_except
    (sdk "DefaultAzureCredential";;
     assign "credential" (Some "DefaultAzureCredential");;
     sdk "get_bearer_token_provider https://search.azure.com/.default";;
     assign "token_provider" (Some "https://search.azure.com/.default");;
     print "Azure authentication successful.")
    (fun e =>
       print ("Azure authentication failed: " +:+ exn_str e);;
       sys_exit 1).

Definition step3 : M unit :=
  print (LF +:+ "--- Step 3: Retrieve group IDs from Microsoft Graph ---");;
  try_except
    (sdk ("get_token " +:+ graph_scope);;
     sdk ("GET " +:+ member_of_url);;
     sdk "response.json";;
     match groups with
     | first :: rest =>
         assign "first_group_id" (Some first);;
         match rest with
         | second :: _ =>
             assign "second_group_id" (Some second);;
             print ("First group ID: " +:+ first);;
             print ("Second group ID: " +:+ second)
         | [] => raise OtherError "list index out of range"
         end
     | [] => raise OtherError "list index out of range"
     end)
    (fun e =>
       print ("Failed to retrieve group IDs: " +:+ exn_str e);;
       sys_exit 1).

Definition step4 : M unit :=
  print (LF +:+ "--- Step 4: Connect to ADLS Gen2 and create container if needed ---");;
  try_except
    (sdk "DataLakeServiceClient.from_connection_string";;
     adls_gen2_container_name <- global "adls_gen2_container_name";;
     sdk ("get_file_system_client " +:+ str_of adls_gen2_container_name);;
     assign "container" adls_gen2_container_name;;
     sdk "exists";;
     if negb container_exists then
       sdk "create_file_system";;
       print "Container created."
     else
       print "Container exists.")
    (fun e =>
       print ("Failed to connect to or create container: " +:+ exn_str e);;
       sys_exit 1).

Definition step5 : M unit :=
  print (LF +:+ "--- Step 5: Create 'state-parks' directory ---");;
  try_except
    (sdk "get_directory_client state-parks";;
     assign "state_parks_dir_client" (Some "state-parks");;
     sdk "create_directory state-parks";;
     print "'state-parks' directory created.")
    (fun e => print ("Failed to create 'state-parks' directory: " +:+ exn_str e)).

Definition step6 : M unit :=
  print (LF +:+ "--- Step 6: Set ACLs on root directory ---");;
  try_except
    (sdk "get_directory_client /";;
     first_group_id <- global "first_group_id";;
     sdk ("update_access_control_recursive / " +:+ group_acl first_group_id);;
     print ("Root ACL set for first group: " +:+ str_of first_group_id);;
     second_group_id <- global "second_group_id";;
     sdk ("update_access_control_recursive / " +:+ group_acl second_group_id);;
     print ("Root ACL set for second group: " +:+ str_of second_group_id))
    (fun e => print ("Failed to set root ACLs: " +:+ exn_str e)).

(** Steps 7 and 8 share their shape: a sub-directory of 'state-parks', one
    file downloaded into it, and an ACL for one group. *)
Definition upload_step (state csv url group_var : string) : M unit :=
  state_parks_dir_client <- global "state_parks_dir_client";;
  let dir := str_of state_parks_dir_client +:+ "/" +:+ state in
  sdk ("create_sub_directory " +:+ dir);;
  sdk ("create_directory " +:+ dir);;
  sdk ("create_file " +:+ dir +:+ "/" +:+ csv);;
  assign "file_client" (Some (dir +:+ "/" +:+ csv));;
  sdk ("GET " +:+ url);;
  sdk "decode utf-8";;
  sdk ("upload_data " +:+ dir +:+ "/" +:+ csv);;
  group_id <- global group_var;;
  sdk ("update_access_control_recursive " +:+ dir +:+ " " +:+ group_acl group_id);;
  print ("'" +:+ state +:+ "' subdirectory and file created, ACL set.").

Definition step7 : M unit :=
  print (LF +:+ "--- Step 7: Create and upload to 'oregon' subdirectory ---");;
  try_except
    (upload_step "oregon" "oregon_state_parks.csv" oregon_url "first_group_id")
    (fun e => print ("Failed with 'oregon' subdirectory or file: " +:+ exn_str e)).

Definition step8 : M unit :=
  print (LF +:+ "--- Step 8: Create and upload to 'washington' subdirectory ---");;
  try_except
    (upload_step "washington" "washington_state_parks.csv" washington_url "second_group_id")
    (fun e => print ("Failed with 'washington' subdirectory or file: " +:+ exn_str e)).

(** The steps after authentication and container set-up. *)
Definition sweep : M unit := step5;; step6;; step7;; step8.

(** The whole script, top to bottom. *)
Definition script : M unit := step1;; step2;; step3;; step4;; sweep.

End Azure.
End CheckAdlsPermissions.

(** ** Quickstart-Agentic-Retrieval/fix_responses_api.py *)

Module FixResponsesApi.
Import Proc.

(** What the service answers to [client.chat.completions.create]: the
    [message.content] of each choice, or an exception. *)
Inductive chat_reply :=
| Choices (contents : list (option string))
| ChatError (e : exn).

Section Remote.
(** [new_client endpoint]: the exception raised while the credential, the
    token provider and the client object are built, if any. *)
Variable new_client : string -> option exn.
(** The answers of the service to a request for a model. *)
Variable responses_create : string -> CheckResponsesApi.api_reply.
Variable chat_create : string -> chat_reply.

(** The statements at module level, before [main()] is called. *)
Definition module_level : M unit :=
  load_dotenv true;;
  azure_openai_endpoint <- environ_item "AZURE_OPENAI_ENDPOINT";;
  assign "azure_openai_endpoint" (Some azure_openai_endpoint);;
  azure_openai_api_version <- getenv_default "AZURE_OPENAI_API_VERSION" "2025-03-01-preview";;
  assign "azure_openai_api_version" (Some azure_openai_api_version);;
  answer_model <- getenv_default "ANSWER_MODEL" "gpt-4o";;
  assign "answer_model" (Some answer_model);;
  match new_client azure_openai_endpoint with
  | Some e => throw e
  | None => assign "client" (Some azure_openai_endpoint)
  end.

Definition try_responses_api : M bool :=
  try_except
    (print "Attempting to use Responses API...";;
     client <- global "client";;
     answer_model <- global "answer_model";;
     call_out ("responses.create " +:+ str_of answer_model);;
     match responses_create (str_of answer_model) with
     | CheckResponsesApi.ApiError e => throw e
     | CheckResponsesApi.Output output_text =>
         print "✅ Responses API worked!";;
         print ("Response: " +:+ output_text);;
         mret true
     end)
    (fun e =>
       print ("❌ Responses API failed: " +:+ exn_str e);;
       mret false).

Definition use_chat_completions_api : M bool :=
  try_except
    (print "Using Chat Completions API...";;
     client <- global "client";;
     answer_model <- global "answer_model";;
     call_out ("chat.completions.create " +:+ str_of answer_model);;
     match chat_create (str_of answer_model) with
     | ChatError e => throw e
     | Choices contents =>
         print "✅ Chat Completions API worked!";;
         match contents with
         | [] => raise OtherError "list index out of range"
         | content :: _ =>
             print ("Response: " +:+ str_of content);;
             mret true
         end
     end)
    (fun e =>
       print ("❌ Chat Completions API failed: " +:+ exn_str e);;
       mret false).

Definition main : M unit :=
  print "Testing Azure OpenAI API endpoints...";;
  azure_openai_endpoint <- global "azure_openai_endpoint";;
  print ("Endpoint: " +:+ str_of azure_openai_endpoint);;
  azure_openai_api_version <- global "azure_openai_api_version";;
  print ("API Version: " +:+ str_of azure_openai_api_version);;
  answer_model <- global "answer_model";;
  print ("Model: " +:+ str_of answer_model);;
  print (Py.str_mul "-" 50);;
  worked <- try_responses_api;;
  (if negb worked then
     print (LF +:+ "Falling back to Chat Completions API...");;
     _ <- use_chat_completions_api;;
     mret tt
   else mret tt);;
  print (LF +:+ Py.str_mul "=" 50);;
  print "RECOMMENDATION:";;
  print "Use the Chat Completions API for maximum compatibility.";;
  print "Replace client.responses.create() with client.chat.completions.create()";;
  print "Replace response.output_text with response.choices[0].message.content".

(** The script, top to bottom. *)
Definition script : M unit := module_level;; main.

End Remote.
End FixResponsesApi.

(** ** Quickstart-Agentic-Retrieval/fix_notebook.py *)

Module FixNotebook.
Import Proc.

(** [s[:n]] for a natural [n]. *)
Fixpoint str_head (n : nat) (s : string) : string :=
  match n, s with
  | O, _ => EmptyString
  | S _, EmptyString => EmptyString
  | S n', String c s' => String c (str_head n' s')
  end.

Section Remote.
Variable new_client : string -> option exn.
Variable responses_create : string -> CheckResponsesApi.api_reply.
Variable chat_create : string -> FixResponsesApi.chat_reply.

(** The statements at module level, before [main()] is called. *)
Definition module_level : M unit :=
  load_dotenv true;;
  azure_openai_endpoint <- environ_item "AZURE_OPENAI_ENDPOINT";;
  assign "azure_openai_endpoint" (Some azure_openai_endpoint);;
  azure_openai_api_version <- getenv_default "AZURE_OPENAI_API_VERSION" "2025-05-01-Preview";;
  assign "azure_openai_api_version" (Some azure_openai_api_version);;
  answer_model <- getenv_default "ANSWER_MODEL" "gpt-4o";;
  assign "answer_model" (Some answer_model);;
  match new_client azure_openai_endpoint with
  | Some e => throw e
  | None => assign "client" (Some azure_openai_endpoint)
  end.

Definition test_responses_api : M (option string) :=
  try_except
    (print "Testing Responses API...";;
     client <- global "client";;
     answer_model <- global "answer_model";;
     call_out ("responses.create " +:+ str_of answer_model);;
     match responses_create (str_of answer_model) with
     | CheckResponsesApi.ApiError e => throw e
     | CheckResponsesApi.Output output_text =>
         print "✅ Responses API works!";;
         mret (Some output_text)
     end)
    (fun e =>
       print ("❌ Responses API failed: " +:+ exn_str e);;
       mret None).

Definition test_chat_completions_api : M (option string) :=
  try_except
    (print "Testing Chat Completions API...";;
     client <- global "client";;
     answer_model <- global "answer_model";;
     call_out ("chat.completions.create " +:+ str_of answer_model);;
     match chat_create (str_of answer_model) with
     | FixResponsesApi.ChatError e => throw e
     | FixResponsesApi.Choices contents =>
         print "✅ Chat Completions API works!";;
         match contents with
         | [] => raise OtherError "list index out of range"
         | content :: _ => mret content
         end
     end)
    (fun e =>
       print ("❌ Chat Completions API failed: " +:+ exn_str e);;
       mret None).

Definition main : M unit :=
  print (Py.str_mul "=" 60);;
  print "FIXING THE RESPONSES API 404 ERROR";;
  print (Py.str_mul "=" 60);;
  azure_openai_endpoint <- global "azure_openai_endpoint";;
  print ("Endpoint: " +:+ str_of azure_openai_endpoint);;
  azure_openai_api_version <- global "azure_openai_api_version";;
  print ("API Version: " +:+ str_of azure_openai_api_version);;
  answer_model <- global "answer_model";;
  print ("Model: " +:+ str_of answer_model);;
  print "";;
  responses_result <- test_responses_api;;
  print "";;
  chat_result <- test_chat_completions_api;;
  print (LF +:+ Py.str_mul "=" 60);;
  print "SOLUTION:";;
  print (Py.str_mul "=" 60);;
  if Py.truthy_opt chat_result then
    print "✅ Use Chat Completions API - it works!";;
    print (LF +:+ "Replace this code in your notebook:");;
    print "❌ PROBLEMATIC CODE:";;
    print "response = client.responses.create(";;
    print "    model=answer_model,";;
    print "    input=messages";;
    print ")";;
    print "wrapped = textwrap.fill(response.output_text, width=100)";;
    print (LF +:+ "✅ WITH THIS WORKING CODE:");;
    print "response = client.chat.completions.create(";;
    print "    model=answer_model,";;
    print "    messages=messages";;
    print ")";;
    print "wrapped = textwrap.fill(response.choices[0].message.content, width=100)";;
    print (LF +:+ "Sample response: " +:+ str_head 100 (str_of chat_result) +:+ "...")
  else
    print "❌ Both APIs failed. Check your configuration.".

(** The script, top to bottom. *)
Definition script : M unit := module_level;; main.

End Remote.
End FixNotebook.

(** ** cmk-example/validate_search_service_access.py *)

Module ValidateSearchServiceAccess.
Import Proc.

Section Azure.
(** [raises done what]: the exception the operation [what] raises, if any,
    when the operations [done] came before it. *)
Variable raises : list string -> string -> option exn.
(** The names of the indexes the service lists. *)
Variable indexes : list string.
(** [e.message] of an [HttpResponseError]. *)
Variable message : exn -> string.

(** The two [except] clauses, tried in the order they are written. *)
Definition handler (e : exn) : M unit :=
  match exn_cls e with
  | HttpResponseError => print ("HTTP error: " +:+ message e)
  | _ => print ("Error: " +:+ exn_str e)
  end.

(** The script, top to bottom. *)
Definition script : M unit :=
  load_dotenv false;;
  SEARCH_SERVICE_ENDPOINT <- getenv "AZURE_SEARCH_SERVICE";;
  SEARCH_INDEX_NAME <- getenv "AZURE_SEARCH_INDEX_NAME";;
  print ("SEARCH_SERVICE_ENDPOINT: " +:+ str_of SEARCH_SERVICE_ENDPOINT);;
  print ("SEARCH_INDEX_NAME: " +:+ str_of SEARCH_INDEX_NAME);;
  (if negb (Py.truthy_opt SEARCH_SERVICE_ENDPOINT) then
     print "ERROR: AZURE_SEARCH_SERVICE_ENDPOINT is not set in the .env file.";;
     sys_exit 1
   else mret tt);;
  CheckAdlsPermissions.sdk raises "DefaultAzureCredential";;
  try_except
    (CheckAdlsPermissions.sdk raises ("SearchIndexClient " +:+ str_of SEARCH_SERVICE_ENDPOINT);;
     print "Connected to Azure AI Search service.";;
     CheckAdlsPermissions.sdk raises "list_indexes";;
     print ("Found " +:+ pretty (length indexes) +:+ " indexes:");;
     for_each indexes (fun name => print (" - " +:+ name));;
     (if Py.truthy_opt SEARCH_INDEX_NAME then
        CheckAdlsPermissions.sdk raises ("get_index " +:+ str_of SEARCH_INDEX_NAME);;
        print ("Index '" +:+ str_of SEARCH_INDEX_NAME +:+ "' retrieved successfully.")
      else
        print "No index name specified in .env (AZURE_SEARCH_INDEX_NAME). Skipping index retrieval.");;
     print "Validation successful: Access to Azure AI Search service is working!")
    handler.

End Azure.
End ValidateSearchServiceAccess.

(** ** Quickstart-Document-Permissions-Pull-API/verify_storage_permissions.py *)

Module VerifyStoragePermissions.

(** [token.split(".")[1]]: the second part of the token; [None] stands for
    the [IndexError] of a token without a full stop. *)
Definition token_payload (token : string) : option string :=
  match Py.str_split "." token with
  | _ :: payload :: _ => Some payload
  | _ => None
  end.

(** ['=' * (-len(payload) % 4)] *)
Definition padding (payload : string) : string :=
  Py.str_mul "=" ((- Py.len payload) mod 4).

End VerifyStoragePermissions.

(** * Properties *)

(** ** Vocabulary of the statements *)

Module Config.
Import Proc.

(** How a required key stands after the configuration is loaded. *)
Inductive verdict := Unset | Placeholder | Configured.

Definition classify (placeholder : string) (value : option string) : verdict :=
  match value with
  | None => Unset
  | Some v =>
      if negb (Py.truthy v) then Unset
      else if bool_decide (v = placeholder) then Placeholder
      else Configured
  end.

Definition is_configured (v : verdict) : bool :=
  match v with Configured => true | _ => false end.

(** The environment once [load_dotenv()] has run: the variables of the
    process, then those of [.env] that the process did not set. *)
Definition loaded (p : proc) : gmap string string :=
  match files p !! ".env" with
  | Some b => environ p ∪ b
  | None => environ p
  end.

Definition endpoint_verdict (p : proc) : verdict :=
  classify SetupEnvironment.endpoint_placeholder (loaded p !! "SEARCH-ENDPOINT").

Definition api_key_verdict (p : proc) : verdict :=
  classify SetupEnvironment.api_key_placeholder (loaded p !! "SEARCH-API-KEY").

(** The line that reports one key; each names the key it is about. *)
Definition key_report (name : string) (shown : option string) (v : verdict) : string :=
  match v with
  | Unset => "❌ " +:+ name +:+ " is not set"
  | Placeholder => "❌ " +:+ name +:+ " still has the placeholder value"
  | Configured => "✅ " +:+ name +:+ ": " +:+ str_of shown
  end.

(** What [check_env_file] prints when [.env] exists: the keys are reported
    in order and the report stops at the first one that is not configured. *)
Definition env_report (p : proc) : list string :=
  "🔍 Checking environment variables..." ::
  key_report "SEARCH-ENDPOINT" (loaded p !! "SEARCH-ENDPOINT") (endpoint_verdict p) ::
  (if is_configured (endpoint_verdict p)
   then [key_report "SEARCH-API-KEY"
           (SetupEnvironment.masked <$> loaded p !! "SEARCH-API-KEY")
           (api_key_verdict p)]
   else []).

(** What it prints when there is no [.env]. *)
Definition no_env_file_help : list string :=
  ["❌ No .env file found!";
   LF +:+ "To fix this issue:";
   "1. Copy sample.env to .env:";
   "   cp sample.env .env";
   "2. Edit .env with your actual Azure Search service details";
   "3. Run this script again to validate"].

(** The files after the set-up script: [.env] is created as a copy of
    [sample.env] when the notebook is there, [.env] is not, [sample.env]
    is, and the copy goes through. *)
Definition setup_files (os_error : option string) (p : proc)
    : gmap string (gmap string string) :=
  match files p !! "azure-search-quickstart.ipynb", files p !! ".env",
        files p !! "sample.env", os_error with
  | Some _, None, Some c, None => <[".env" := c]> (files p)
  | _, _, _, _ => files p
  end.

(** [validate_connection] only asks whether both keys are set. *)
Definition both_set (p : proc) : bool :=
  Py.truthy_opt (loaded p !! "SEARCH-ENDPOINT") && Py.truthy_opt (loaded p !! "SEARCH-API-KEY").

Definition missing_variables : list string :=
  ["🔍 Validating Azure Search connection...";
   "❌ Missing environment variables!";
   "Please ensure SEARCH-ENDPOINT and SEARCH-API-KEY are set in your .env file"].

(** The first [n] characters of a string. *)
Fixpoint str_take (n : nat) (s : string) : string :=
  match n, s with
  | O, _ => EmptyString
  | S _, EmptyString => EmptyString
  | S n', String c s' => String c (str_take n' s')
  end.

(** The [.env] that [sample.env] gives when it is copied unchanged. *)
Definition sample_env : gmap string string :=
  {[ "SEARCH-ENDPOINT" := SetupEnvironment.endpoint_placeholder;
     "SEARCH-API-KEY" := SetupEnvironment.api_key_placeholder ]}.

(** A filled-in [.env] whose key was left at the placeholder. *)
Definition key_left_env : gmap string string :=
  {[ "SEARCH-ENDPOINT" := "https://contoso.search.windows.net";
     "SEARCH-API-KEY" := SetupEnvironment.api_key_placeholder ]}.

(** A filled-in [.env]. *)
Definition filled_env : gmap string string :=
  {[ "SEARCH-ENDPOINT" := "https://contoso.search.windows.net";
     "SEARCH-API-KEY" := "0123456789abcdef" ]}.


Definition no_client_error (endpoint key : string) : option exn := None.

End Config.

(** *** Regions *)

Module Regions.
Import Proc.

(** The first entry of the mapping that [check_region_support] accepts
    for a lowered region: one of the two names occurs in the other and the
    mapped region is supported. *)
Fixpoint first_mapped (supported : list string) (items : list (string * string))
    (region_lower : string) : option string :=
  match items with
  | [] => None
  | (pattern, mapped_region) :: rest =>
      if (Py.str_in pattern region_lower || Py.str_in region_lower pattern)
         && Py.list_in mapped_region supported
      then Some mapped_region
      else first_mapped supported rest region_lower
  end.

(** The verdict line of [check_region_support]. *)
Definition support_line (region : string) : string :=
  if Py.list_in region CheckAzureRegion.supported_regions then
    "✅ This region supports the Responses API!"
  else
    match first_mapped CheckAzureRegion.supported_regions
            CheckAzureRegion.region_mappings (Py.str_lower region) with
    | Some mapped_region =>
        "✅ This region (" +:+ mapped_region +:+ ") supports the Responses API!"
    | None => "❌ This region does NOT support the Responses API."
    end.

Definition supports (region : string) : bool :=
  Py.list_in region CheckAzureRegion.supported_regions ||
  bool_decide (is_Some (first_mapped CheckAzureRegion.supported_regions
                          CheckAzureRegion.region_mappings (Py.str_lower region))).
End Regions.

(** *** The contoso scenario *)

Module Contoso.
Import Proc.

Definition endpoint : string := "https://contoso.openai.azure.com".

(** The environment once [load_dotenv(override=True)] has run: the
    bindings of [.env] win over the variables of the process. *)
Definition reloaded (p : proc) : gmap string string :=
  match files p !! ".env" with
  | Some b => b ∪ environ p
  | None => environ p
  end.

(** The command line gives no region: it could not be run, it failed, or
    it printed nothing but blanks. *)
Definition no_region (reply : CheckAzureRegion.run_reply) : Prop :=
  match reply with
  | CheckAzureRegion.RunFailed _ => True
  | CheckAzureRegion.Completed returncode out _ => returncode <> 0 \/ Py.str_strip out = EmptyString
  end.

(** The line [check_with_azure_cli] prints about the command. *)
Definition cli_report (reply : CheckAzureRegion.run_reply) : string :=
  match reply with
  | CheckAzureRegion.RunFailed e => "❌ Error running Azure CLI: " +:+ exn_str e
  | CheckAzureRegion.Completed returncode out err =>
      if returncode =? 0 then "✅ Region: " +:+ Py.str_strip out
      else "❌ Azure CLI error: " +:+ err
  end.

Definition bullet (region : string) : string := "  • " +:+ region.

(** What [check_region.py] prints for the contoso endpoint. *)
Definition checker_output : list string :=
  ["🚀 AZURE OPENAI REGION CHECKER"; Py.str_mul "=" 60;
   "🌍 CHECKING AZURE OPENAI SERVICE REGION"; Py.str_mul "=" 50;
   "Endpoint: https://contoso.openai.azure.com";
   "Service Name: contoso";
   "⚠️  Could not determine region from service name.";
   "Check your Azure portal for the exact region.";
   LF +:+ "📋 RESPONSES API SUPPORTED REGIONS"; Py.str_mul "=" 50;
   "The Responses API is available in these regions:"] ++
  map bullet CheckRegion.supported_regions ++
  [LF +:+ "To use client.responses.create(), you need:";
   "1. Azure OpenAI service in one of the above regions";
   "2. API version 2025-05-01-Preview or later";
   "3. Supported model deployment (gpt-4o, gpt-4o-mini, etc.)";
   LF +:+ Py.str_mul "=" 60;
   "NEXT STEPS:";
   Py.str_mul "=" 60;
   "If your region doesn't support Responses API:";
   "1. Create a new Azure OpenAI service in a supported region";
   "2. Deploy your model in the new service";
   "3. Update your .env file with the new endpoint";
   "4. Test with: python check_responses_api.py"].

(** What [check_azure_region.py] prints for it when the command line
    gave no region. *)
Definition detector_output (reply : CheckAzureRegion.run_reply) : list string :=
  ["🚀 AZURE OPENAI REGION DETECTOR"; Py.str_mul "=" 60;
   "🔍 CHECKING REGION WITH AZURE CLI"; Py.str_mul "=" 50;
   "Service Name: contoso";
   cli_report reply;
   LF +:+ "⚠️  Could not determine region automatically.";
   "Please check manually in Azure Portal:";
   "1. Go to https://portal.azure.com";
   "2. Find your Azure OpenAI service (kor-ai-hub-3)";
   "3. Check the 'Location' field in the Overview";
   "4. Compare with supported regions below:";
   LF +:+ "📋 CHECKING RESPONSES API SUPPORT"; Py.str_mul "=" 50;
   LF +:+ "Supported regions for Responses API:"] ++
  map bullet CheckAzureRegion.supported_regions ++
  [LF +:+ Py.str_mul "=" 60;
   "NEXT STEPS:";
   Py.str_mul "=" 60;
   "If your region doesn't support Responses API:";
   "1. Create new service in North Europe or West Europe";
   "2. Deploy your model in the new service";
   "3. Update your .env file";
   "4. Test with: python check_responses_api.py"].

(** A command line that fails, as [az] does when it is not logged in. *)
Definition az_fails (cmd : string) : CheckAzureRegion.run_reply :=
  CheckAzureRegion.Completed 1 "" "ERROR: Please run 'az login' to setup account.".
End Contoso.

(** *** The Responses API probe *)

Module Probe.
Import Proc.

(** The model and the API version the probe asks for. *)
Definition answer_model (p : proc) : string :=
  match environ p !! "ANSWER_MODEL" with Some v => v | None => "gpt-4o" end.

Definition api_version (p : proc) : string :=
  match environ p !! "AZURE_OPENAI_API_VERSION" with
  | Some v => v
  | None => "2025-05-01-Preview"
  end.

(** What the probe prints before it sends its request. *)
Definition announcement (p : proc) : list string :=
  [LF +:+ "🧪 TESTING RESPONSES API AVAILABILITY"; Py.str_mul "=" 50;
   "Testing with model: " +:+ answer_model p;
   "Testing with API version: " +:+ api_version p].

(** The hints of the [except] clause. *)
Definition troubleshooting_404 : list string :=
  [LF +:+ "🔧 TROUBLESHOOTING 404 ERROR:";
   "1. Check if your Azure OpenAI service is in a supported region:";
   "   - East US, West US 2, North Europe, West Europe";
   "   - UK South, Australia East, Canada East";
   "2. Verify you're using the latest API version: 2025-05-01-Preview";
   "3. Make sure your model deployment supports the Responses API";
   "4. Check if your Azure OpenAI service was created recently"].

Definition troubleshooting_401 : list string :=
  [LF +:+ "🔧 TROUBLESHOOTING 401 ERROR:";
   "1. Check your authentication credentials";
   "2. Verify you have the correct permissions"].

(** A service that refuses the first request with a 404 and would answer
    a second one. *)
Definition not_found_once (sent : nat) (model version : string)
    : CheckResponsesApi.api_reply :=
  match sent with
  | O => CheckResponsesApi.ApiError
           (Exn OtherError "Error code: 404 - {'error': {'code': '404', 'message': 'Resource not found'}}")
  | S _ => CheckResponsesApi.Output "Hello! How can I help you today?"
  end.
End Probe.

(** *** The ADLS sweep *)

Module Sweep.
Import Proc.

(** The texts of one step: its header, the line that ends it when all went
    well, and the start of the line its [except] clause prints. *)
Record step_text := StepText { header : string; success : string; failure : string }.

Definition text5 : step_text :=
  StepText (LF +:+ "--- Step 5: Create 'state-parks' directory ---")
           "'state-parks' directory created."
           "Failed to create 'state-parks' directory: ".
Definition text6 (second_group_id : option string) : step_text :=
  StepText (LF +:+ "--- Step 6: Set ACLs on root directory ---")
           ("Root ACL set for second group: " +:+ str_of second_group_id)
           "Failed to set root ACLs: ".
Definition text7 : step_text :=
  StepText (LF +:+ "--- Step 7: Create and upload to 'oregon' subdirectory ---")
           "'oregon' subdirectory and file created, ACL set."
           "Failed with 'oregon' subdirectory or file: ".
Definition text8 : step_text :=
  StepText (LF +:+ "--- Step 8: Create and upload to 'washington' subdirectory ---")
           "'washington' subdirectory and file created, ACL set."
           "Failed with 'washington' subdirectory or file: ".

(** A step came to its end: its last line is its success line, or the
    line of its [except] clause with the text of an exception. *)
Definition finished (t : step_text) (lines : list string) : Prop :=
  last lines = Some (success t) \/
  exists e : exn, last lines = Some (failure t +:+ exn_str e).

(** [m] ran as a step with the texts [t]: it returned, whatever was
    raised inside, and it printed its header and then came to its end. *)
Definition ran_as (t : step_text) (m : M unit) (q q' : proc) : Prop :=
  m q = (Ret tt, q') /\
  exists lines, stdout q' = (stdout q ++ header t :: lines)%list /\ finished t lines.

(** The value of [second_group_id], [None] when the name is not bound. *)
Definition second_group_id_of (q : proc) : option string :=
  match globals q !! "second_group_id" with Some v => v | None => None end.

(** The operations of step 6. *)
Definition step6_operations (first_group_id second_group_id : string) : list string :=
  ["get_directory_client /";
   "update_access_control_recursive / " +:+
     CheckAdlsPermissions.group_acl (Some first_group_id);
   "update_access_control_recursive / " +:+
     CheckAdlsPermissions.group_acl (Some second_group_id)].

(** A storage account on which the 'state-parks' directory client cannot
    be obtained, and everything else works. *)
Definition no_state_parks (done : list string) (what : string) : option exn :=
  if String.eqb what "get_directory_client state-parks"
  then Some (Exn OtherError "The specified path is invalid.")
  else None.

(** The script after steps 1 to 4: the two group ids are bound. *)
Definition after_step4 : proc :=
  Proc ∅ ∅ {[ "first_group_id" := Some "g1"; "second_group_id" := Some "g2" ]} [] [].

(** One thing a step does inside its [try]: an operation on the SDK or
    the network, or a line it prints. *)
Inductive action :=
| Op (what : string)
| Say (line : string).

(** What came of a list of actions: the operations made, oldest first,
    the lines printed, and the exception that ended it, if any. *)
Record trace := Trace { made : list string; said : list string; raised : option exn }.

(** The actions are taken in order until an operation raises. *)
Fixpoint attempt (raises : list string -> string -> option exn) (done : list string)
    (actions : list action) : trace :=
  match actions with
  | [] => Trace done [] None
  | Say line :: rest =>
      let t := attempt raises done rest in
      Trace (made t) (line :: said t) (raised t)
  | Op what :: rest =>
      match raises done what with
      | Some e => Trace (done ++ [what]) [] (Some e)
      | None => attempt raises (done ++ [what]) rest
      end
  end.

(** What a step prints: its header, the lines of its actions, and the
    line of its [except] clause with the text of the exception raised. *)
Definition step_output (t : step_text) (tr : trace) : list string :=
  header t :: said tr ++
  match raised tr with
  | Some e => [failure t +:+ exn_str e]
  | None => []
  end.

Definition step5_actions : list action :=
  [Op "get_directory_client state-parks";
   Op "create_directory state-parks";
   Say "'state-parks' directory created."].

Definition step6_actions (first_group_id second_group_id : string) : list action :=
  [Op "get_directory_client /";
   Op ("update_access_control_recursive / " +:+
       CheckAdlsPermissions.group_acl (Some first_group_id));
   Say ("Root ACL set for first group: " +:+ first_group_id);
   Op ("update_access_control_recursive / " +:+
       CheckAdlsPermissions.group_acl (Some second_group_id));
   Say ("Root ACL set for second group: " +:+ second_group_id)].

(** The actions of steps 7 and 8 on the directory [parks/state]. *)
Definition upload_actions (parks state csv url : string) (group_id : option string)
    : list action :=
  let dir := parks +:+ "/" +:+ state in
  [Op ("create_sub_directory " +:+ dir);
   Op ("create_directory " +:+ dir);
   Op ("create_file " +:+ dir +:+ "/" +:+ csv);
   Op ("GET " +:+ url);
   Op "decode utf-8";
   Op ("upload_data " +:+ dir +:+ "/" +:+ csv);
   Op ("update_access_control_recursive " +:+ dir +:+ " " +:+
       CheckAdlsPermissions.group_acl group_id);
   Say ("'" +:+ state +:+ "' subdirectory and file created, ACL set.")].
End Sweep.

(** *** The steps of the ADLS script that end it *)

Module AdlsSetup.
Import Proc Config Regions Contoso Probe Sweep.

(** The variables step 1 reads with [os.environ[...]], in the order it
    reads them. *)
Definition required_keys : list string :=
  ["AZURE_SEARCH_ENDPOINT"; "AZURE_STORAGE_CONNECTION_STRING"; "AZURE_STORAGE_RESOURCE_ID"].

(** The first of [keys] that the environment does not bind. *)
Fixpoint first_missing (env : gmap string string) (keys : list string) : option string :=
  match keys with
  | [] => None
  | k :: rest =>
      match env !! k with
      | None => Some k
      | Some _ => first_missing env rest
      end
  end.

(** What step 1 prints after its header. *)
Definition step1_report (env : gmap string string) : list string :=
  match first_missing env required_keys with
  | Some k => ["Failed to load environment variables: '" +:+ k +:+ "'"]
  | None =>
      ["Environment variables loaded successfully.";
       "  endpoint: " +:+ str_of (env !! "AZURE_SEARCH_ENDPOINT");
       "  adls_gen2_account_name: " +:+ str_of (env !! "AZURE_STORAGE_ACCOUNT_NAME");
       "  adls_gen2_container_name: " +:+ str_of (env !! "AZURE_STORAGE_CONTAINER_NAME")]
  end.

(** The operations of steps 2 and 3, in order. *)
Definition sign_in_operations : list string :=
  ["DefaultAzureCredential";
   "get_bearer_token_provider https://search.azure.com/.default";
   "get_token " +:+ CheckAdlsPermissions.graph_scope;
   "GET " +:+ CheckAdlsPermissions.member_of_url;
   "response.json"].

(** The starts of the lines the [except] clauses of steps 1 to 4 print. *)
Definition fatal_prefixes : list string :=
  ["Failed to load environment variables: ";
   "Azure authentication failed: ";
   "Failed to retrieve group IDs: ";
   "Failed to connect to or create container: "].

(** The script left through [sys.exit(1)] of one of the steps 1 to 4: the
    last line printed is the line of that step's [except] clause. *)
Definition exited_at_fatal_step (r : outcome unit * proc) : Prop :=
  fst r = Exit 1 /\
  exists prefix e, prefix ∈ fatal_prefixes /\
    last (stdout (snd r)) = Some (prefix +:+ exn_str e).

(** A step that ends the script on failure either returns or leaves with
    status 1 after the line of its [except] clause. *)
Definition returns_or_exits (prefix : string) (m : M unit) (q : proc) : Prop :=
  exists q',
    m q = (Ret tt, q') \/
    (m q = (Exit 1, q') /\ exists e, last (stdout q') = Some (prefix +:+ exn_str e)).

(** The text of the [NameError] for the directory client of step 5. *)
Definition unbound_directory_client : string :=
  "name 'state_parks_dir_client' is not defined".

(** An environment with the three required variables. *)
Definition adls_env : gmap string string :=
  {[ "AZURE_SEARCH_ENDPOINT" := "https://contoso.search.windows.net";
     "AZURE_STORAGE_CONNECTION_STRING" := "UseDevelopmentStorage=true";
     "AZURE_STORAGE_RESOURCE_ID" := "/subscriptions/0/storage" ]}.

(** An Azure on which every operation succeeds. *)
Definition all_fine (done : list string) (what : string) : option exn := None.
End AdlsSetup.

(** *** The connection validator *)

Module Connection.
Import Proc Config Regions Contoso Probe Sweep.

(** The first line an [except] clause of [validate_connection] prints: the
    clause is chosen by the class of the exception alone. *)
Definition failure_heading (e : exn) : string :=
  match exn_cls e with
  | ServiceRequestError => "❌ Connection failed: "
  | HttpResponseError => "❌ Authentication failed: "
  | _ => "❌ Unexpected error: "
  end +:+ exn_str e.

(** What [validate_connection] prints before its [try] block. *)
Definition preamble (e k : string) : list string :=
  ["🔍 Validating Azure Search connection...";
   "📍 Endpoint: " +:+ e;
   "🔑 API Key: " +:+ SetupEnvironment.masked k].

(** What it prints once the service has listed its indexes. *)
Definition index_report (names : list string) : list string :=
  [LF +:+ "🔄 Testing connection...";
   "✅ Connection successful!";
   "📊 Found " +:+ pretty (length names) +:+ " existing indexes:"] ++
  map (fun name => "   - " +:+ name) names.

(** The configuration of [p] names a service that lists its indexes: both
    keys are set and not empty, the client can be built and the service
    answers with [names]. *)
Definition lists_indexes (new_client : string -> string -> option exn)
    (list_indexes : string -> string -> ValidateConnection.listing)
    (p : proc) (e k : string) (names : list string) : Prop :=
  loaded p !! "SEARCH-ENDPOINT" = Some e /\ loaded p !! "SEARCH-API-KEY" = Some k /\
  e <> EmptyString /\ k <> EmptyString /\
  new_client e k = None /\
  list_indexes e k = ValidateConnection.Indexes names.

(** A service that refuses the key. *)
Definition forbidden (endpoint key : string) : ValidateConnection.listing :=
  ValidateConnection.Failed (Exn HttpResponseError "(Forbidden) 403").

(** A client library that rejects every endpoint. *)
Definition bad_endpoint (endpoint key : string) : option exn :=
  Some (Exn OtherError "Base URL must be a string.").
End Connection.

(** *** The tables of the region scripts *)

Module Tables.
Import Proc Config Regions Contoso Probe Sweep.

(** The regions of [region_patterns] whose token contains a token that
    stands earlier in the table. *)
Definition shadowed : list string := ["East US 2"; "South Central US"].

(** One of the two names occurs in the other: the test of the loop of
    [check_region_support]. *)
Definition overlaps (pattern region_lower : string) : bool :=
  Py.str_in pattern region_lower || Py.str_in region_lower pattern.
End Tables.

(** *** The region detector *)

Module Detector.
Import Proc Config Regions Contoso Probe Sweep.

(** The region [check_with_azure_cli] returns for a reply of the command
    line: the output without its surrounding blanks when the command
    exited with status 0, nothing otherwise. *)
Definition cli_region (reply : CheckAzureRegion.run_reply) : option string :=
  match reply with
  | CheckAzureRegion.Completed returncode out _ =>
      if returncode =? 0 then Some (Py.str_strip out) else None
  | CheckAzureRegion.RunFailed _ => None
  end.

(** What [check_region_support] prints about a region. *)
Definition region_verdict (region : string) : list string :=
  [LF +:+ "📋 CHECKING RESPONSES API SUPPORT"; Py.str_mul "=" 50;
   "Checking region: " +:+ region; support_line region].

(** What [show_european_options] prints. *)
Definition european_options : list string :=
  [LF +:+ "🌍 EUROPEAN REGION OPTIONS"; Py.str_mul "=" 50;
   "European regions that support Responses API:";
   bullet "North Europe"; bullet "West Europe"; bullet "UK South";
   LF +:+ "If you're in a different European region, you can:";
   "1. Create a new Azure OpenAI service in North Europe or West Europe";
   "2. Contact Azure support to request Responses API in your region";
   "3. Use Chat Completions API as an alternative"].

(** The closing lines of [check_azure_region.py]. *)
Definition next_steps : list string :=
  [LF +:+ Py.str_mul "=" 60;
   "NEXT STEPS:";
   Py.str_mul "=" 60;
   "If your region doesn't support Responses API:";
   "1. Create new service in North Europe or West Europe";
   "2. Deploy your model in the new service";
   "3. Update your .env file";
   "4. Test with: python check_responses_api.py"].

(** A command line that answers with a region the allow-list lacks. *)
Definition az_says_france (cmd : string) : CheckAzureRegion.run_reply :=
  CheckAzureRegion.Completed 0 ("francecentral" +:+ LF) "".
End Detector.

(** *** The Responses API diagnostic *)

Module Diagnostic.
Import Proc Config Regions Contoso Probe Sweep.

(** The number of full stops in a string. *)
Fixpoint dots (s : string) : nat :=
  match s with
  | EmptyString => O
  | String c s' => if Ascii.eqb c "." then S (dots s') else dots s'
  end.

(** What [check_azure_openai_service] prints for an Azure OpenAI
    endpoint. *)
Definition service_report (p : proc) (endpoint : string) : list string :=
  ["🔍 DIAGNOSING AZURE OPENAI SERVICE"; Py.str_mul "=" 50;
   "✅ Endpoint: " +:+ endpoint;
   "✅ API Version: " +:+ api_version p;
   "✅ Service Name: " +:+ CheckAzureRegion.service_name endpoint].

(** The probe gets an answer: the endpoint is set, the client can be
    built and the service answers the one request with a text. *)
Definition answered (new_client : string -> option exn)
    (responses_create : nat -> string -> string -> CheckResponsesApi.api_reply)
    (p : proc) : Prop :=
  exists endpoint output_text,
    environ p !! "AZURE_OPENAI_ENDPOINT" = Some endpoint /\
    new_client endpoint = None /\
    responses_create (length (calls p)) (answer_model p) (api_version p)
      = CheckResponsesApi.Output output_text.

End Diagnostic.

(** *** Endpoints *)

Module Hosts.
Import Proc Config Regions Contoso Probe Sweep.

(** An endpoint as the portal shows it: the scheme, the name of the
    service as first label of the host, and the rest of the host. *)
Definition endpoint_of (name domain : string) : string :=
  "https://" +:+ name +:+ "." +:+ domain.
End Hosts.

(** *** The two fix scripts *)

Module Fixes.
Import Proc Config Regions Contoso Probe Sweep.

(** The model the scripts ask for. *)
Definition model_of (env : gmap string string) : string :=
  match env !! "ANSWER_MODEL" with Some v => v | None => "gpt-4o" end.

(** The closing lines of [fix_responses_api.py]. *)
Definition recommendation : list string :=
  [LF +:+ Py.str_mul "=" 50;
   "RECOMMENDATION:";
   "Use the Chat Completions API for maximum compatibility.";
   "Replace client.responses.create() with client.chat.completions.create()";
   "Replace response.output_text with response.choices[0].message.content"].

(** The requests [fix_responses_api.py] sends: the Chat Completions API
    is asked only after the Responses API has failed. *)
Definition fallback_requests (model : string) (reply : CheckResponsesApi.api_reply)
    : list string :=
  ("responses.create " +:+ model) ::
  match reply with
  | CheckResponsesApi.Output _ => []
  | CheckResponsesApi.ApiError _ => ["chat.completions.create " +:+ model]
  end.

(** What [test_chat_completions_api] returns for an answer of the
    service: the content of the first choice. *)
Definition chat_content (reply : FixResponsesApi.chat_reply) : option string :=
  match reply with
  | FixResponsesApi.Choices (content :: _) => content
  | _ => None
  end.

(** The last line of [fix_notebook.py]. *)
Definition solution_line (chat_result : option string) : string :=
  match chat_result with
  | Some (String c s) =>
      LF +:+ "Sample response: " +:+ FixNotebook.str_head 100 (String c s) +:+ "..."
  | _ => "❌ Both APIs failed. Check your configuration."
  end.

(** A service on which both APIs work, the chat API with an empty
    answer. *)
Definition greets (model : string) : CheckResponsesApi.api_reply :=
  CheckResponsesApi.Output "Hello! How can I help you today?".
Definition answers_nothing (model : string) : FixResponsesApi.chat_reply :=
  FixResponsesApi.Choices [Some EmptyString].
(** A service without the Responses API. *)
Definition not_found (model : string) : CheckResponsesApi.api_reply :=
  CheckResponsesApi.ApiError (Exn OtherError "Error code: 404").
Definition chat_greets (model : string) : FixResponsesApi.chat_reply :=
  FixResponsesApi.Choices [Some "Hello!"].
Definition any_client (endpoint : string) : option exn := None.
(** The module level of both scripts binds the same names. *)
Definition configured (version : string) (p : proc) (endpoint : string) : proc :=
  Proc (Contoso.reloaded p) (files p)
    (<["client" := Some endpoint]>
       (<["answer_model" := Some (model_of (Contoso.reloaded p))]>
          (<["azure_openai_api_version" :=
               Some (match Contoso.reloaded p !! "AZURE_OPENAI_API_VERSION" with
                     | Some v => v
                     | None => version
                     end)]>
             (<["azure_openai_endpoint" := Some endpoint]> (globals p)))))
    (stdout p) (calls p).
End Fixes.

(** *** Access checks *)

Module Access.
Import Proc Config Regions Contoso Probe Sweep.

(** The operations of [validate_search_service_access.py] when none
    fails. *)
Definition search_operations (endpoint : string) (index_name : option string)
    : list string :=
  ["DefaultAzureCredential"; "SearchIndexClient " +:+ endpoint; "list_indexes"] ++
  (if Py.truthy_opt index_name then ["get_index " +:+ str_of index_name] else []).

(** A token of three parts. *)
Definition jwt (header payload signature : string) : string :=
  header +:+ "." +:+ payload +:+ "." +:+ signature.

(** An environment that sets the variable the error message names, and
    not the one the script reads. *)
Definition endpoint_named_env : gmap string string :=
  {[ "AZURE_SEARCH_SERVICE_ENDPOINT" := "https://contoso.search.windows.net" ]}.

Definition no_failure (done : list string) (what : string) : option exn := None.
Definition plain_message (e : exn) : string := exn_str e.
End Access.

(** *** Closing lines *)

Module Closing.
Import Proc Config Regions Contoso Probe Sweep.

(** The last line of [validate_connection.py]. *)
Definition validator_last_line (ok : bool) : string :=
  if ok then "You can now run the quickstart notebook."
  else "Please check your configuration and try again.".

(** What [check_region.py] prints after it has looked at the endpoint:
    the supported regions and the closing lines. *)
Definition regions_listing : list string :=
  [LF +:+ "📋 RESPONSES API SUPPORTED REGIONS"; Py.str_mul "=" 50;
   "The Responses API is available in these regions:"] ++
  map bullet CheckRegion.supported_regions ++
  [LF +:+ "To use client.responses.create(), you need:";
   "1. Azure OpenAI service in one of the above regions";
   "2. API version 2025-05-01-Preview or later";
   "3. Supported model deployment (gpt-4o, gpt-4o-mini, etc.)";
   LF +:+ Py.str_mul "=" 60;
   "NEXT STEPS:";
   Py.str_mul "=" 60;
   "If your region doesn't support Responses API:";
   "1. Create a new Azure OpenAI service in a supported region";
   "2. Deploy your model in the new service";
   "3. Update your .env file with the new endpoint";
   "4. Test with: python check_responses_api.py"].
End Closing.

(** ** Running the monad by hand *)

Import Proc Config Regions Contoso Probe Sweep.

Ltac run :=
  cbv beta iota zeta delta
    [mbind M_bind mret M_ret bind ret throw raise sys_exit try_except print
     call_out calls_made getenv getenv_default environ_item path_exists
     load_dotenv shutil_copy assign global
     fst snd negb andb orb Py.truthy_opt is_configured key_report];
  cbn [environ files globals stdout calls].

Ltac assoc := rewrite <- ?app_assoc; cbn [app]; try reflexivity.

(** [run_all] also computes the fields of the process, so that a long
    sequence of [print]s stays small; the process must be given by its
    fields. *)
Ltac run_all :=
  cbv beta iota zeta delta
    [mbind M_bind mret M_ret bind ret throw raise sys_exit try_except print
     call_out calls_made getenv getenv_default environ_item path_exists
     shutil_copy assign global for_each str_of
     environ files globals stdout calls fst snd negb andb orb].

(** The same with the SDK operations of the ADLS script. *)
Ltac run_adls :=
  cbv beta iota zeta delta
    [mbind M_bind mret M_ret bind ret throw raise sys_exit try_except print
     call_out calls_made getenv getenv_default environ_item path_exists
     shutil_copy assign global for_each CheckAdlsPermissions.sdk
     environ files globals stdout calls fst snd negb andb orb].

(** The configuration a process reads depends on its environment and its
    files only: the judgements of a process that differs from [p] in what
    it has printed are those of [p]. *)
Ltac same_config p :=
  repeat match goal with
  | |- context [endpoint_verdict ?q] =>
      lazymatch q with p => fail | _ => change (endpoint_verdict q) with (endpoint_verdict p) end
  | |- context [api_key_verdict ?q] =>
      lazymatch q with p => fail | _ => change (api_key_verdict q) with (api_key_verdict p) end
  | |- context [env_report ?q] =>
      lazymatch q with p => fail | _ => change (env_report q) with (env_report p) end
  | |- context [loaded ?q] =>
      lazymatch q with p => fail | _ => change (loaded q) with (loaded p) end
  end.

Lemma is_Some_true {A} (x : A) : bool_decide (is_Some (Some x)) = true.
Proof. apply bool_decide_eq_true. eauto. Qed.

Lemma is_Some_false {A} : bool_decide (is_Some (@None A)) = false.
Proof. apply bool_decide_eq_false. intros [x Hx]. discriminate. Qed.

Lemma bool_decide_some (x y : string) :
  bool_decide (Some x = Some y) = bool_decide (x = y).
Proof. apply bool_decide_ext. split; congruence. Qed.

Lemma proc_eta (p : proc) :
  Proc (environ p) (files p) (globals p) (stdout p) (calls p) = p.
Proof. destruct p; reflexivity. Qed.

(** ** Quickstart/setup_environment.py *)

Lemma check_env_file_run (p : proc) (b : gmap string string) :
  files p !! ".env" = Some b ->
  SetupEnvironment.check_env_file p =
    (Ret (is_configured (endpoint_verdict p) && is_configured (api_key_verdict p)),
     Proc (loaded p) (files p) (globals p) (stdout p ++ env_report p) (calls p)).
Proof.
  intros Hb.
  unfold SetupEnvironment.check_env_file, env_report, endpoint_verdict,
    api_key_verdict, loaded, classify, SetupEnvironment.masked_opt.
  run. rewrite Hb, is_Some_true. run. rewrite Hb. run.
  destruct ((environ p ∪ b) !! "SEARCH-ENDPOINT") as [e|]; run; [|assoc].
  destruct (Py.truthy e); run; [|assoc].
  rewrite bool_decide_some.
  destruct (bool_decide (e = SetupEnvironment.endpoint_placeholder)); run; [assoc|].
  destruct ((environ p ∪ b) !! "SEARCH-API-KEY") as [k|]; run; [|assoc].
  destruct (Py.truthy k); run; [|assoc].
  rewrite bool_decide_some.
  destruct (bool_decide (k = SetupEnvironment.api_key_placeholder)); run; assoc.
Qed.

Lemma check_env_file_no_env (p : proc) :
  files p !! ".env" = None ->
  SetupEnvironment.check_env_file p =
    (Ret false,
     Proc (environ p) (files p) (globals p) (stdout p ++ no_env_file_help) (calls p)).
Proof.
  intros Hb. unfold SetupEnvironment.check_env_file, no_env_file_help.
  run. rewrite Hb, is_Some_false. run. assoc.
Qed.

Lemma create_env_file_run (os_error : option string) (p : proc) :
  files p !! ".env" = None ->
  exists (ok : bool) (p' : proc),
    SetupEnvironment.create_env_file os_error p = (Ret ok, p') /\
    calls p' = calls p /\ environ p' = environ p /\
    files p' = match files p !! "sample.env", os_error with
               | Some c, None => <[".env" := c]> (files p)
               | _, _ => files p
               end /\
    (ok = true <-> is_Some (files p !! "sample.env") /\ os_error = None).
Proof.
  intros Hb. unfold SetupEnvironment.create_env_file. run.
  destruct (files p !! "sample.env") as [c|] eqn:Hs.
  - rewrite is_Some_true. run. rewrite Hb, is_Some_false. run.
    destruct os_error as [e|]; run.
    + eexists _, _. split; [reflexivity|]. cbn [calls environ files].
      split_and!; try reflexivity. split; [discriminate|]. intros [_ ?]; discriminate.
    + rewrite Hs. run. eexists _, _. split; [reflexivity|]. cbn [calls environ files].
      split_and!; try reflexivity. split; eauto.
  - rewrite is_Some_false. run.
    eexists _, _. split; [reflexivity|]. cbn [calls environ files].
    split_and!; try reflexivity.
    split; [discriminate|]. intros [[? ?] _]; discriminate.
Qed.

Lemma setup_main_run (os_error : option string) (p : proc) :
  exists p' : proc,
    SetupEnvironment.main os_error p = (Ret tt, p') /\
    calls p' = calls p /\
    files p' = setup_files os_error p.
Proof.
  unfold SetupEnvironment.main, setup_files. run.
  destruct (files p !! "azure-search-quickstart.ipynb") as [n|] eqn:Hn.
  2: { rewrite is_Some_false. run. eexists. split; [reflexivity|]. cbn. done. }
  rewrite is_Some_true. run.
  destruct (files p !! ".env") as [b|] eqn:Hb.
  - rewrite is_Some_true. run.
    rewrite (check_env_file_run _ b) by exact Hb. cbn [environ files globals stdout calls].
    destruct (_ && _); run; eexists; (split; [reflexivity|]); cbn; done.
  - rewrite is_Some_false. run.
    set (q := Proc _ _ _ _ _).
    destruct (create_env_file_run os_error q Hb) as (ok & q' & Hrun & Hc & He & Hf & Hok).
    rewrite Hrun. cbn [files] in Hf.
    destruct ok; run.
    + assert (Hs : is_Some (files p !! "sample.env") /\ os_error = None) by (apply Hok; done).
      destruct Hs as [[c Hs] ->]. subst q. cbn [files] in *. rewrite Hs in *.
      assert (Hq : files q' !! ".env" = Some c) by (rewrite Hf; apply lookup_insert_eq).
      rewrite (check_env_file_run _ c) by exact Hq. cbn [environ files globals stdout calls].
      destruct (_ && _); run; eexists; (split; [reflexivity|]); cbn; split; try done.
    + eexists; split; [reflexivity|]. split; [exact Hc|].
      rewrite Hf. subst q; cbn [files].
      destruct (files p !! "sample.env") as [c|] eqn:Hs; [|reflexivity].
      destruct os_error; [reflexivity|].
      assert (false = true) by (apply Hok; eauto). discriminate.
Qed.

(** *** The masked key *)

Lemma append_cons (c : ascii) (s t : string) :
  String c s +:+ t = String c (s +:+ t).
Proof. reflexivity. Qed.

Lemma take_drop (n : nat) (s : string) : s = str_take n s +:+ Py.str_drop n s.
Proof.
  revert s. induction n as [|n IH]; intros s; [reflexivity|].
  destruct s as [|c s]; [reflexivity|].
  cbn [str_take Py.str_drop]. rewrite append_cons. f_equal. apply IH.
Qed.

Lemma length_take (n : nat) (s : string) :
  String.length (str_take n s) = Nat.min n (String.length s).
Proof.
  revert s. induction n as [|n IH]; intros s; [reflexivity|].
  destruct s as [|c s]; [reflexivity|]. simpl. f_equal. apply IH.
Qed.

Lemma length_drop (n : nat) (s : string) :
  String.length (Py.str_drop n s) = (String.length s - n)%nat.
Proof.
  revert s. induction n as [|n IH]; intros s; [cbn; lia|].
  destruct s as [|c s]; [reflexivity|]. cbn. apply IH.
Qed.

Lemma masked_split (k : string) :
  let n := (String.length k - 4)%nat in
  SetupEnvironment.masked k =
    string_of_list_ascii (repeat "*"%char n) +:+ Py.str_drop n k.
Proof.
  unfold SetupEnvironment.masked, Py.str_mul, Py.slice_from, Py.len. cbn zeta.
  replace (Z.to_nat (Z.of_nat (String.length k) - 4)) with (String.length k - 4)%nat by lia.
  replace (-4 <? 0) with true by reflexivity.
  replace (Z.to_nat (Z.max 0 (Z.of_nat (String.length k) + -4))) with (String.length k - 4)%nat by lia.
  reflexivity.
Qed.

(** ** Quickstart/validate_connection.py *)

Section Validate.
Variable new_client : string -> string -> option exn.
Variable list_indexes : string -> string -> ValidateConnection.listing.

Lemma validate_connection_missing (p : proc) :
  both_set p = false ->
  ValidateConnection.validate_connection new_client list_indexes p =
    (Ret false,
     Proc (loaded p) (files p) (globals p) (stdout p ++ missing_variables) (calls p)).
Proof.
  unfold both_set, loaded, ValidateConnection.validate_connection, missing_variables.
  run. destruct (files p !! ".env") as [b|]; run.
  - destruct ((environ p ∪ b) !! "SEARCH-ENDPOINT") as [e|];
      destruct ((environ p ∪ b) !! "SEARCH-API-KEY") as [k|]; run;
      intros H; try (assoc; fail).
    + destruct (Py.truthy e), (Py.truthy k); try discriminate H; run; assoc.
    + destruct (Py.truthy e); run; assoc.
  - destruct (environ p !! "SEARCH-ENDPOINT") as [e|];
      destruct (environ p !! "SEARCH-API-KEY") as [k|]; run;
      intros H; try (assoc; fail).
    + destruct (Py.truthy e), (Py.truthy k); try discriminate H; run; assoc.
    + destruct (Py.truthy e); run; assoc.
Qed.

Lemma validate_connection_probes (p : proc) (e k : string) :
  loaded p !! "SEARCH-ENDPOINT" = Some e ->
  loaded p !! "SEARCH-API-KEY" = Some k ->
  both_set p = true ->
  ValidateConnection.validate_connection new_client list_indexes p =
    try_except (ValidateConnection.probe new_client list_indexes e k)
      ValidateConnection.handler
      (Proc (loaded p) (files p) (globals p)
         (stdout p ++ ["🔍 Validating Azure Search connection...";
                       "📍 Endpoint: " +:+ e;
                       "🔑 API Key: " +:+ SetupEnvironment.masked k])
         (calls p)).
Proof.
  unfold both_set, loaded, ValidateConnection.validate_connection,
    SetupEnvironment.masked_opt.
  run. destruct (files p !! ".env") as [b|]; run.
  - intros -> ->. run. destruct (Py.truthy e), (Py.truthy k); try discriminate; intros _; run.
    cbn [str_of]. rewrite <- !app_assoc. reflexivity.
  - intros -> ->. run. destruct (Py.truthy e), (Py.truthy k); try discriminate; intros _; run.
    cbn [str_of]. rewrite <- !app_assoc. reflexivity.
Qed.



End Validate.

(** ** Claims about the Quickstart configuration check *)




Lemma setup_main_with_env (os_error : option string) (p : proc)
    (n b : gmap string string) :
  files p !! "azure-search-quickstart.ipynb" = Some n ->
  files p !! ".env" = Some b ->
  SetupEnvironment.main os_error p =
    (Ret tt,
     Proc (loaded p) (files p) (globals p)
       (stdout p ++
        ["🚀 Azure AI Search Quickstart Environment Setup"; Py.str_mul "=" 50] ++
        env_report p ++
        (if is_configured (endpoint_verdict p) && is_configured (api_key_verdict p)
         then [LF +:+ "🎉 Environment is properly configured!";
               "You can now run the Azure Search quickstart notebook."]
         else [LF +:+ "❌ Environment is not properly configured.";
               "Please fix the issues above and run this script again."]))
       (calls p)).
Proof.
  intros Hn Hb. unfold SetupEnvironment.main. run.
  rewrite Hn, is_Some_true. run. rewrite Hb, is_Some_true. run.
  rewrite (check_env_file_run _ b) by exact Hb.
  cbn [environ files globals stdout calls].
  same_config p.
  destruct (endpoint_verdict p), (api_key_verdict p); run;
    rewrite <- !app_assoc; reflexivity.
Qed.

Lemma last_of_tail {A} (l1 l2 l3 : list A) (x y : A) :
  last (l1 ++ l2 ++ l3 ++ [x; y]) = Some y.
Proof. rewrite !app_assoc, last_app_cons. reflexivity. Qed.

Lemma placeholder_verdict (p : proc) :
  loaded p !! "SEARCH-API-KEY" = Some SetupEnvironment.api_key_placeholder ->
  api_key_verdict p = Placeholder.
Proof. unfold api_key_verdict. intros ->. reflexivity. Qed.

(** C2, as stated, fails when the endpoint is not configured either: with
    [.env] a plain copy of [sample.env] the check stops at SEARCH-ENDPOINT
    and no line mentions SEARCH-API-KEY. *)
Lemma placeholder_key_not_reported :
  let p := start ∅ {[ ".env" := sample_env ]} in
  let r := SetupEnvironment.check_env_file p in
  loaded p !! "SEARCH-API-KEY" = Some SetupEnvironment.api_key_placeholder /\
  fst r = Ret false /\
  stdout (snd r) =
    ["🔍 Checking environment variables...";
     "❌ SEARCH-ENDPOINT still has the placeholder value"] /\
  forallb (fun line => negb (Py.str_in "SEARCH-API-KEY" line)) (stdout (snd r)) = true.
Proof. vm_compute. repeat split; reflexivity. Qed.

(** C2 (amended).  With SEARCH-API-KEY at its placeholder the check fails
    and the set-up script ends without any call to the outside world.  The
    failure names SEARCH-API-KEY when [.env] exists and SEARCH-ENDPOINT is
    configured, the checks that come first. *)
Theorem placeholder_api_key_stops (os_error : option string) (p : proc) :
  loaded p !! "SEARCH-API-KEY" = Some SetupEnvironment.api_key_placeholder ->
  (exists p',
     SetupEnvironment.check_env_file p = (Ret false, p') /\
     calls p' = calls p /\
     (is_Some (files p !! ".env") -> endpoint_verdict p = Configured ->
      last (stdout p') = Some "❌ SEARCH-API-KEY still has the placeholder value")) /\
  (exists p',
     SetupEnvironment.main os_error p = (Ret tt, p') /\
     calls p' = calls p /\
     (is_Some (files p !! "azure-search-quickstart.ipynb") ->
      is_Some (files p !! ".env") ->
      last (stdout p') = Some "Please fix the issues above and run this script again.")).
Proof.
  intros Hk. pose proof (placeholder_verdict p Hk) as Hv. split.
  - destruct (files p !! ".env") as [b|] eqn:Hb.
    + rewrite (check_env_file_run p b Hb), Hv, andb_false_r.
      eexists. split_and!; [reflexivity..|].
      intros _ He. cbn [stdout]. unfold env_report. rewrite He, Hv.
      cbn [is_configured]. rewrite last_app_cons. reflexivity.
    + rewrite (check_env_file_no_env p Hb).
      eexists. split_and!; [reflexivity..|]. intros [? ?]; discriminate.
  - destruct (files p !! "azure-search-quickstart.ipynb") as [n|] eqn:Hn,
             (files p !! ".env") as [b|] eqn:Hb.
    + rewrite (setup_main_with_env os_error p n b Hn Hb), Hv, andb_false_r.
      eexists. split_and!; [reflexivity..|]. intros _ _. apply last_of_tail.
    + destruct (setup_main_run os_error p) as (p' & Hrun & Hc & _).
      exists p'. split_and!; [exact Hrun|exact Hc|]. intros _ [? ?]; discriminate.
    + destruct (setup_main_run os_error p) as (p' & Hrun & Hc & _).
      exists p'. split_and!; [exact Hrun|exact Hc|]. intros [? ?]; discriminate.
    + destruct (setup_main_run os_error p) as (p' & Hrun & Hc & _).
      exists p'. split_and!; [exact Hrun|exact Hc|]. intros [? ?]; discriminate.
Qed.

Lemma placeholder_api_key_stops_witness :
  let p := start ∅ {[ "azure-search-quickstart.ipynb" := ∅; ".env" := key_left_env ]} in
  exists p',
    SetupEnvironment.check_env_file p = (Ret false, p') /\
    calls p' = calls p /\
    (is_Some (files p !! ".env") -> endpoint_verdict p = Configured ->
     last (stdout p') = Some "❌ SEARCH-API-KEY still has the placeholder value").
Proof.
  cbv zeta.
  exact (proj1 (placeholder_api_key_stops None
                  (start ∅ {[ "azure-search-quickstart.ipynb" := ∅; ".env" := key_left_env ]})
                  eq_refl)).
Defined.

(** C7, as stated, fails on the set-up script: started beside the
    notebook and [sample.env] and without [.env], it creates [.env]. *)
Lemma setup_creates_env_file :
  let p := start ∅ {[ "azure-search-quickstart.ipynb" := ∅; "sample.env" := sample_env ]} in
  let r := SetupEnvironment.main None p in
  fst r = Ret tt /\
  files p !! ".env" = None /\
  files (snd r) !! ".env" = Some sample_env.
Proof.
  cbv zeta. set (p := start _ _).
  destruct (setup_main_run None p) as (p' & -> & _ & Hf).
  cbn [fst snd]. rewrite Hf. unfold setup_files. subst p. cbn [files start].
  assert (H1 : ({[ "azure-search-quickstart.ipynb" := ∅; "sample.env" := sample_env ]}
                : gmap string (gmap string string)) !! ".env" = None) by reflexivity.
  split; [reflexivity|]. split; [exact H1|].
  rewrite H1. simplify_map_eq. reflexivity.
Qed.

(** C7 (amended).  [check_env_file] leaves the files alone and calls
    nothing outside the process; what it changes is the environment of the
    process, which receives the bindings of [.env].  The set-up script
    calls nothing outside either, and the one file it may write is [.env],
    created as a copy of [sample.env] under the conditions of
    [setup_files]. *)
Theorem setup_side_effects (os_error : option string) (p : proc) :
  (exists ok p',
     SetupEnvironment.check_env_file p = (Ret ok, p') /\
     files p' = files p /\
     calls p' = calls p /\
     environ p' = (if bool_decide (is_Some (files p !! ".env")) then loaded p else environ p)) /\
  (exists p',
     SetupEnvironment.main os_error p = (Ret tt, p') /\
     calls p' = calls p /\
     files p' = setup_files os_error p).
Proof.
  split; [|apply setup_main_run].
  destruct (files p !! ".env") as [b|] eqn:Hb.
  - rewrite (check_env_file_run p b Hb), is_Some_true.
    eexists _, _. split_and!; reflexivity.
  - rewrite is_Some_false, (check_env_file_no_env p Hb).
    eexists _, _. split_and!; reflexivity.
Qed.

(** C10.  The key is shown as [hidden] asterisks followed by [shown],
    where [hidden ++ shown] is the key and [shown] is its last four
    characters, all of it when it has no more than four; a key of four
    characters or less is printed as it is.  This is the text of the
    success line of [check_env_file] and of the key line of
    [validate_connection]. *)
Theorem masked_key_display (k : string) :
  (exists hidden shown,
     k = hidden +:+ shown /\
     String.length shown = Nat.min 4 (String.length k) /\
     SetupEnvironment.masked k =
       string_of_list_ascii (repeat "*"%char (String.length hidden)) +:+ shown /\
     ((String.length k <= 4)%nat -> hidden = EmptyString /\ SetupEnvironment.masked k = k)) /\
  (forall p p',
     loaded p !! "SEARCH-API-KEY" = Some k ->
     SetupEnvironment.check_env_file p = (Ret true, p') ->
     last (stdout p') = Some ("✅ SEARCH-API-KEY: " +:+ SetupEnvironment.masked k)) /\
  (forall new_client list_indexes p e,
     loaded p !! "SEARCH-ENDPOINT" = Some e ->
     loaded p !! "SEARCH-API-KEY" = Some k ->
     both_set p = true ->
     exists q,
       ValidateConnection.validate_connection new_client list_indexes p =
         try_except (ValidateConnection.probe new_client list_indexes e k)
           ValidateConnection.handler q /\
       last (stdout q) = Some ("🔑 API Key: " +:+ SetupEnvironment.masked k)).
Proof.
  split_and!.
  - set (n := (String.length k - 4)%nat).
    exists (str_take n k), (Py.str_drop n k).
    assert (Hlen : String.length (str_take n k) = n)
      by (rewrite length_take; subst n; lia).
    split_and!.
    + apply take_drop.
    + rewrite length_drop. subst n. lia.
    + rewrite Hlen. apply masked_split.
    + intros Hle. assert (Hn : n = 0%nat) by (subst n; lia).
      rewrite masked_split. fold n. rewrite Hn. split; reflexivity.
  - intros p p' Hk Hrun.
    destruct (files p !! ".env") as [b|] eqn:Hb.
    2: { rewrite (check_env_file_no_env p Hb) in Hrun. discriminate. }
    rewrite (check_env_file_run p b Hb) in Hrun.
    injection Hrun as Hok <-. cbn [stdout].
    apply andb_true_iff in Hok as [He Ha].
    unfold env_report. rewrite He.
    destruct (api_key_verdict p); try discriminate Ha.
    rewrite Hk. rewrite last_app_cons. reflexivity.
  - intros nc li p e He Hk Hs.
    rewrite (validate_connection_probes nc li p e k He Hk Hs).
    eexists. split; [reflexivity|].
    cbn [stdout]. rewrite last_app_cons. reflexivity.
Qed.

Lemma masked_key_display_witness :
  SetupEnvironment.masked "abcd" = "abcd" /\
  SetupEnvironment.masked "0123456789abcdef" = "************cdef" /\
  exists hidden shown,
    "0123456789abcdef" = hidden +:+ shown /\
    String.length shown = Nat.min 4 (String.length "0123456789abcdef") /\
    SetupEnvironment.masked "0123456789abcdef" =
      string_of_list_ascii (repeat "*"%char (String.length hidden)) +:+ shown /\
    ((String.length "0123456789abcdef" <= 4)%nat ->
     hidden = EmptyString /\ SetupEnvironment.masked "0123456789abcdef" = "0123456789abcdef").
Proof.
  split; [reflexivity|]. split; [reflexivity|].
  exact (proj1 (masked_key_display "0123456789abcdef")).
Defined.

(** ** The region matcher *)

Lemma mapped_loop_run (supported : list string) (items : list (string * string))
    (region_lower : string) (p : proc) :
  CheckAzureRegion.mapped_loop supported items region_lower p =
    match first_mapped supported items region_lower with
    | Some mapped_region =>
        (Ret true,
         Proc (environ p) (files p) (globals p)
           (stdout p ++ ["✅ This region (" +:+ mapped_region +:+ ") supports the Responses API!"])
           (calls p))
    | None => (Ret false, p)
    end.
Proof.
  induction items as [|[pattern mapped_region] rest IH]; [reflexivity|].
  cbn [CheckAzureRegion.mapped_loop first_mapped].
  destruct (Py.str_in pattern region_lower || Py.str_in region_lower pattern);
    cbn [andb]; [|exact IH].
  destruct (Py.list_in mapped_region supported); [reflexivity|exact IH].
Qed.

Lemma check_region_support_run (region : string) (p : proc) :
  CheckAzureRegion.check_region_support region p =
    (Ret (supports region),
     Proc (environ p) (files p) (globals p)
       (stdout p ++
        [LF +:+ "📋 CHECKING RESPONSES API SUPPORT"; Py.str_mul "=" 50;
         "Checking region: " +:+ region; support_line region])
       (calls p)).
Proof.
  unfold CheckAzureRegion.check_region_support, CheckAzureRegion.check_supported_regions,
    supports, support_line.
  run.
  destruct (Py.list_in region CheckAzureRegion.supported_regions); run; [assoc|].
  rewrite mapped_loop_run. cbn [environ files globals stdout calls].
  destruct (first_mapped _ _ _) as [m|]; run.
  - rewrite is_Some_true. assoc.
  - assoc.
Qed.


Lemma first_mapped_none (supported : list string) (items : list (string * string))
    (region_lower pattern mapped_region : string) :
  first_mapped supported items region_lower = None ->
  (pattern, mapped_region) ∈ items ->
  Py.list_in mapped_region supported = true ->
  Py.str_in pattern region_lower = false /\ Py.str_in region_lower pattern = false.
Proof.
  induction items as [|[pat m] rest IH]; intros Hnone Hin Hsup.
  - inversion Hin.
  - cbn [first_mapped] in Hnone.
    destruct ((Py.str_in pat region_lower || Py.str_in region_lower pat)
              && Py.list_in m supported) eqn:Hc; [discriminate|].
    apply elem_of_cons in Hin as [Heq|Hin]; [|exact (IH Hnone Hin Hsup)].
    injection Heq as -> ->. rewrite Hsup, andb_true_r in Hc.
    apply orb_false_iff in Hc. exact Hc.
Qed.

Lemma mappings_supported (pattern mapped_region : string) :
  (pattern, mapped_region) ∈ CheckAzureRegion.region_mappings ->
  Py.list_in mapped_region CheckAzureRegion.supported_regions = true.
Proof.
  unfold CheckAzureRegion.region_mappings. intros Hin.
  repeat (apply elem_of_cons in Hin as [Heq|Hin]; [injection Heq as -> ->; reflexivity|]).
  inversion Hin.
Qed.

Lemma supports_by_mapping (region pattern mapped_region : string) :
  (pattern, mapped_region) ∈ CheckAzureRegion.region_mappings ->
  Py.str_in pattern (Py.str_lower region) = true \/
  Py.str_in (Py.str_lower region) pattern = true ->
  supports region = true.
Proof.
  intros Hin Hocc. unfold supports.
  destruct (Py.list_in region CheckAzureRegion.supported_regions); [reflexivity|].
  cbn [orb].
  destruct (first_mapped _ _ _) as [m|] eqn:Hf; [apply is_Some_true|].
  destruct (first_mapped_none _ _ _ _ _ Hf Hin (mappings_supported _ _ Hin)) as [H1 H2].
  destruct Hocc; congruence.
Qed.

(** C9.  A region whose lowered form occurs inside a mapping token is
    reported as supported, whether or not it names a region. *)
Theorem substring_of_token_supported (region : string) (p : proc) :
  (exists pattern mapped_region,
     (pattern, mapped_region) ∈ CheckAzureRegion.region_mappings /\
     Py.str_in (Py.str_lower region) pattern = true) ->
  fst (CheckAzureRegion.check_region_support region p) = Ret true.
Proof.
  intros (pattern & mapped_region & Hin & Hocc).
  rewrite check_region_support_run. cbn [fst]. f_equal.
  apply (supports_by_mapping region pattern mapped_region Hin). right. exact Hocc.
Qed.

Lemma substring_of_token_supported_witness :
  Py.list_in "us" CheckAzureRegion.supported_regions = false /\
  Py.list_in "us" (CheckAzureRegion.region_mappings.*1) = false /\
  fst (CheckAzureRegion.check_region_support "us" (start ∅ ∅)) = Ret true /\
  fst (CheckAzureRegion.check_region_support "east" (start ∅ ∅)) = Ret true.
Proof.
  split; [reflexivity|]. split; [reflexivity|]. split.
  - apply (substring_of_token_supported "us" (start ∅ ∅)).
    exists "eastus", "East US". split; [apply list_elem_of_here|reflexivity].
  - reflexivity.
Defined.

(** ** check_region.py: the first pattern found in the service name *)

Lemma found_region_first (patterns : list (string * string)) (s token region : string) :
  (token, region) ∈ patterns ->
  Py.str_in token s = true ->
  exists before pattern region' after,
    patterns = (before ++ (pattern, region') :: after)%list /\
    Forall (fun entry => Py.str_in entry.1 s = false) before /\
    Py.str_in pattern s = true /\
    CheckRegion.found_region patterns s = Some region'.
Proof.
  induction patterns as [|[pat r] rest IH]; intros Hin Hocc.
  - inversion Hin.
  - cbn [CheckRegion.found_region].
    destruct (Py.str_in pat s) eqn:Hpat.
    + exists [], pat, r, rest. split_and!; [reflexivity|constructor|exact Hpat|reflexivity].
    + apply elem_of_cons in Hin as [Heq|Hin].
      { injection Heq as -> ->. congruence. }
      destruct (IH Hin Hocc) as (before & pattern & region' & after & -> & Hb & Hp & Hf).
      exists ((pat, r) :: before), pattern, region', after.
      split_and!; [reflexivity|constructor; [exact Hpat|exact Hb]|exact Hp|exact Hf].
Qed.

Lemma check_service_region_found (p : proc) (endpoint region : string) :
  environ p !! "AZURE_OPENAI_ENDPOINT" = Some endpoint ->
  Py.truthy endpoint = true ->
  Py.str_in "openai.azure.com" endpoint = true ->
  CheckRegion.found_region CheckRegion.region_patterns
    (Py.str_lower (CheckAzureRegion.service_name endpoint)) = Some region ->
  CheckRegion.check_service_region p =
    (Ret tt,
     Proc (environ p) (files p) (globals p)
       (stdout p ++
        ["🌍 CHECKING AZURE OPENAI SERVICE REGION"; Py.str_mul "=" 50;
         "Endpoint: " +:+ endpoint;
         "Service Name: " +:+ CheckAzureRegion.service_name endpoint;
         "Detected Region: " +:+ region] ++
        (if Py.list_in region CheckRegion.supported_regions
         then ["✅ This region supports the Responses API!";
               "The issue might be with your service configuration."]
         else ["❌ This region does NOT support the Responses API.";
               "You need to create a new service in a supported region."]))
       (calls p)).
Proof.
  intros He Ht Ho Hf. unfold CheckRegion.check_service_region.
  run. rewrite He. run. rewrite Ht. run. cbn [str_of]. rewrite Ho, Hf. run.
  destruct (Py.list_in region CheckRegion.supported_regions); run; assoc.
Qed.

Lemma first_mapped_first (supported : list string) (items : list (string * string))
    (s token region : string) :
  (forall pattern mapped_region,
     (pattern, mapped_region) ∈ items -> Py.list_in mapped_region supported = true) ->
  (token, region) ∈ items ->
  Py.str_in token s || Py.str_in s token = true ->
  exists before pattern canonical after,
    items = (before ++ (pattern, canonical) :: after)%list /\
    Forall (fun entry => Py.str_in entry.1 s || Py.str_in s entry.1 = false) before /\
    Py.str_in pattern s || Py.str_in s pattern = true /\
    first_mapped supported items s = Some canonical.
Proof.
  induction items as [|[pat m] rest IH]; intros Hsup Hin Hocc.
  - inversion Hin.
  - cbn [first_mapped].
    rewrite (Hsup pat m) by apply list_elem_of_here. rewrite andb_true_r.
    destruct (Py.str_in pat s || Py.str_in s pat) eqn:Hpat.
    + exists [], pat, m, rest. split_and!; [reflexivity|constructor|exact Hpat|reflexivity].
    + apply elem_of_cons in Hin as [Heq|Hin].
      { injection Heq as -> ->. congruence. }
      destruct (IH (fun p0 m0 H => Hsup p0 m0 (list_elem_of_further _ _ _ H)) Hin Hocc)
        as (before & pattern & canonical & after & -> & Hb & Hp & Hf).
      exists ((pat, m) :: before), pattern, canonical, after.
      split_and!; [reflexivity|constructor; [exact Hpat|exact Hb]|exact Hp|exact Hf].
Qed.

(** C4.  When the lowered service name contains a token of the table, the
    region detected is that of the first entry, in the order the table is
    written, whose token occurs in it; the script prints that region and
    whether the allow-list has it.  [check_region_support], given a string
    that contains a token of its mapping, returns [True] and names the
    region of the first entry of the mapping, in the order it is written,
    whose token occurs in the lowered string or contains it; a string that
    is itself a name of the allow-list gets the line of the exact match. *)
Theorem host_token_resolved (name token region : string) :
  (token, region) ∈ CheckRegion.region_patterns ->
  Py.str_in token (Py.str_lower name) = true ->
  exists before pattern region' after,
    CheckRegion.region_patterns = (before ++ (pattern, region') :: after)%list /\
    Forall (fun entry => Py.str_in entry.1 (Py.str_lower name) = false) before /\
    Py.str_in pattern (Py.str_lower name) = true /\
    CheckRegion.found_region CheckRegion.region_patterns (Py.str_lower name) = Some region' /\
    (forall p endpoint,
       environ p !! "AZURE_OPENAI_ENDPOINT" = Some endpoint ->
       Py.truthy endpoint = true ->
       Py.str_in "openai.azure.com" endpoint = true ->
       CheckAzureRegion.service_name endpoint = name ->
       exists p',
         CheckRegion.check_service_region p = (Ret tt, p') /\
         calls p' = calls p /\
         stdout p' =
           (stdout p ++
            ["🌍 CHECKING AZURE OPENAI SERVICE REGION"; Py.str_mul "=" 50;
             "Endpoint: " +:+ endpoint;
             "Service Name: " +:+ name;
             "Detected Region: " +:+ region'] ++
            (if Py.list_in region' CheckRegion.supported_regions
             then ["✅ This region supports the Responses API!";
                   "The issue might be with your service configuration."]
             else ["❌ This region does NOT support the Responses API.";
                   "You need to create a new service in a supported region."]))%list) /\
    (forall p mapped_region,
       (token, mapped_region) ∈ CheckAzureRegion.region_mappings ->
       exists first_entries entry_token canonical later_entries p',
         CheckAzureRegion.region_mappings =
           (first_entries ++ (entry_token, canonical) :: later_entries)%list /\
         Forall (fun entry => Py.str_in entry.1 (Py.str_lower name)
                              || Py.str_in (Py.str_lower name) entry.1 = false)
           first_entries /\
         Py.str_in entry_token (Py.str_lower name)
         || Py.str_in (Py.str_lower name) entry_token = true /\
         CheckAzureRegion.check_region_support name p = (Ret true, p') /\
         calls p' = calls p /\
         stdout p' =
           (stdout p ++
            [LF +:+ "📋 CHECKING RESPONSES API SUPPORT"; Py.str_mul "=" 50;
             "Checking region: " +:+ name;
             if Py.list_in name CheckAzureRegion.supported_regions
             then "✅ This region supports the Responses API!"
             else "✅ This region (" +:+ canonical +:+ ") supports the Responses API!"])%list).
Proof.
  intros Hin Hocc.
  destruct (found_region_first _ _ _ _ Hin Hocc)
    as (before & pattern & region' & after & Hsplit & Hb & Hp & Hf).
  exists before, pattern, region', after.
  split_and!; [exact Hsplit|exact Hb|exact Hp|exact Hf| |].
  - intros p endpoint He Ht Ho Hname. subst name.
    rewrite (check_service_region_found p endpoint region' He Ht Ho Hf).
    eexists. split_and!; reflexivity.
  - intros p mapped_region Hm.
    assert (Hov : Py.str_in token (Py.str_lower name)
                  || Py.str_in (Py.str_lower name) token = true)
      by (rewrite Hocc; reflexivity).
    destruct (first_mapped_first CheckAzureRegion.supported_regions
                CheckAzureRegion.region_mappings (Py.str_lower name) token mapped_region
                mappings_supported Hm Hov)
      as (first_entries & entry_token & canonical & later_entries & Hs & Hfe & He & Hfm).
    exists first_entries, entry_token, canonical, later_entries.
    rewrite check_region_support_run.
    rewrite (supports_by_mapping name token mapped_region Hm (or_introl Hocc)).
    eexists. split_and!; [exact Hs|exact Hfe|exact He|reflexivity|reflexivity|].
    cbn [stdout]. unfold support_line. rewrite Hfm. reflexivity.
Qed.

(** A name that contains two tokens: "eastus" stands before "eastus2" in
    the table, so it is the one that is found. *)
Example eastus2_resolves_to_east_us :
  CheckRegion.found_region CheckRegion.region_patterns (Py.str_lower "my-EastUS2-service")
  = Some "East US".
Proof. reflexivity. Qed.

Lemma host_token_resolved_witness :
  ("eastus2", "East US 2") ∈ CheckRegion.region_patterns /\
  Py.str_in "eastus2" (Py.str_lower "my-EastUS2-service") = true /\
  (exists before pattern region' after,
     CheckRegion.region_patterns = (before ++ (pattern, region') :: after)%list /\
     Forall (fun entry => Py.str_in entry.1 (Py.str_lower "my-EastUS2-service") = false) before /\
     Py.str_in pattern (Py.str_lower "my-EastUS2-service") = true /\
     CheckRegion.found_region CheckRegion.region_patterns
       (Py.str_lower "my-EastUS2-service") = Some region') /\
  (exists p',
     CheckAzureRegion.check_region_support "my-WestUS2-service" (start ∅ ∅) = (Ret true, p') /\
     stdout p' =
       [LF +:+ "📋 CHECKING RESPONSES API SUPPORT"; Py.str_mul "=" 50;
        "Checking region: my-WestUS2-service";
        "✅ This region (West US 2) supports the Responses API!"]).
Proof.
  assert (Hin : ("eastus2", "East US 2") ∈ CheckRegion.region_patterns).
  { unfold CheckRegion.region_patterns. do 10 apply list_elem_of_further. apply list_elem_of_here. }
  split; [exact Hin|]. split; [reflexivity|]. split.
  - destruct (host_token_resolved "my-EastUS2-service" "eastus2" "East US 2" Hin eq_refl)
      as (before & pattern & region' & after & H1 & H2 & H3 & H4 & _).
    exists before, pattern, region', after. split_and!; assumption.
  - assert (Hw : ("westus2", "West US 2") ∈ CheckRegion.region_patterns).
    { unfold CheckRegion.region_patterns. apply list_elem_of_further, list_elem_of_here. }
    destruct (host_token_resolved "my-WestUS2-service" "westus2" "West US 2" Hw eq_refl)
      as (_ & _ & _ & _ & _ & _ & _ & _ & _ & Hsup).
    destruct (Hsup (start ∅ ∅) "West US 2")
      as (fe & et & canonical & le & p' & Hs & Hfe & He & Hrun & _ & Hout).
    { unfold CheckAzureRegion.region_mappings. apply list_elem_of_further, list_elem_of_here. }
    exists p'. split; [exact Hrun|].
    rewrite Hout. cbn [stdout start app].
    assert (Hc : canonical = "West US 2").
    { unfold CheckAzureRegion.region_mappings in Hs.
      destruct fe as [|[t0 r0] fe].
      - injection Hs as <- <- _. discriminate He.
      - injection Hs as <- <- Hs. destruct fe as [|[t1 r1] fe].
        + injection Hs as <- <- _. reflexivity.
        + injection Hs as <- <- _. apply Forall_inv_tail, Forall_inv in Hfe.
          discriminate Hfe. }
    rewrite Hc. reflexivity.
Defined.

(** ** The contoso scenario *)

Lemma load_dotenv_override (p : proc) :
  load_dotenv true p =
    (Ret tt, Proc (reloaded p) (files p) (globals p) (stdout p) (calls p)).
Proof.
  unfold load_dotenv, reloaded. destruct (files p !! ".env"); [reflexivity|].
  rewrite proc_eta. reflexivity.
Qed.

Lemma contoso_truthy : Py.truthy_opt (Some Contoso.endpoint) = true.
Proof. reflexivity. Qed.

Lemma contoso_is_openai : Py.str_in "openai.azure.com" Contoso.endpoint = true.
Proof. reflexivity. Qed.

Lemma contoso_service_name : CheckAzureRegion.service_name Contoso.endpoint = "contoso".
Proof. reflexivity. Qed.

Lemma contoso_no_pattern :
  CheckRegion.found_region CheckRegion.region_patterns (Py.str_lower "contoso") = None.
Proof. reflexivity. Qed.

Lemma checker_main_contoso (p : proc) :
  reloaded p !! "AZURE_OPENAI_ENDPOINT" = Some Contoso.endpoint ->
  CheckRegion.main p =
    (Ret tt,
     Proc (reloaded p) (files p) (globals p) (stdout p ++ checker_output) (calls p)).
Proof.
  intros He. unfold CheckRegion.main, CheckRegion.check_service_region,
    CheckRegion.show_supported_regions, CheckRegion.supported_regions.
  cbv beta iota zeta delta [mbind M_bind bind]. rewrite load_dotenv_override.
  destruct p as [env fs gl out cs]. run_all. rewrite He, contoso_truthy. run_all.
  rewrite contoso_is_openai, contoso_service_name, contoso_no_pattern. run_all.
  rewrite <- !app_assoc. reflexivity.
Qed.

Lemma detector_main_contoso (subprocess_run : string -> CheckAzureRegion.run_reply)
    (p : proc) :
  reloaded p !! "AZURE_OPENAI_ENDPOINT" = Some Contoso.endpoint ->
  no_region (subprocess_run (CheckAzureRegion.az_command "contoso")) ->
  CheckAzureRegion.main subprocess_run p =
    (Ret tt,
     Proc (reloaded p) (files p) (globals p)
       (stdout p ++ detector_output (subprocess_run (CheckAzureRegion.az_command "contoso")))
       (calls p ++ [CheckAzureRegion.az_command "contoso"])).
Proof.
  intros He Hno. unfold CheckAzureRegion.main, CheckAzureRegion.check_with_azure_cli,
    CheckAzureRegion.check_supported_regions, CheckAzureRegion.supported_regions,
    detector_output, cli_report.
  cbv beta iota zeta delta [mbind M_bind bind]. rewrite load_dotenv_override.
  destruct p as [env fs gl out cs]. run_all. rewrite He, contoso_truthy. run_all.
  rewrite contoso_service_name.
  destruct (subprocess_run (CheckAzureRegion.az_command "contoso")) as [rc out' err|e];
    run_all.
  - destruct (rc =? 0) eqn:Hrc; run_all.
    + destruct Hno as [Hne|Hblank]; [apply Z.eqb_eq in Hrc; contradiction|].
      rewrite Hblank. cbn [Py.truthy_opt Py.truthy]. run_all.
      rewrite <- !app_assoc. reflexivity.
    + cbn [Py.truthy_opt]. run_all. rewrite <- !app_assoc. reflexivity.
  - cbn [Py.truthy_opt]. run_all. rewrite <- !app_assoc. reflexivity.
Qed.

(** C5.  For the endpoint https://contoso.openai.azure.com no pattern of
    the table occurs in the service name, so no region is derived from the
    host; [check_region.py] says so and lists the supported regions, and
    [check_azure_region.py], when the command line gives no region either,
    prints that it could not determine the region automatically and then
    the whole allow-list. *)
Theorem contoso_region_not_determined
    (subprocess_run : string -> CheckAzureRegion.run_reply) (p : proc) :
  reloaded p !! "AZURE_OPENAI_ENDPOINT" = Some Contoso.endpoint ->
  no_region (subprocess_run (CheckAzureRegion.az_command "contoso")) ->
  CheckRegion.found_region CheckRegion.region_patterns
    (Py.str_lower (CheckAzureRegion.service_name Contoso.endpoint)) = None /\
  (exists p',
     CheckRegion.main p = (Ret tt, p') /\
     stdout p' = (stdout p ++ checker_output)%list /\
     calls p' = calls p) /\
  (exists p',
     CheckAzureRegion.main subprocess_run p = (Ret tt, p') /\
     stdout p' =
       (stdout p ++
        detector_output (subprocess_run (CheckAzureRegion.az_command "contoso")))%list /\
     calls p' = (calls p ++ [CheckAzureRegion.az_command "contoso"])%list).
Proof.
  intros He Hno. split_and!.
  - reflexivity.
  - rewrite (checker_main_contoso p He). eexists. split_and!; reflexivity.
  - rewrite (detector_main_contoso subprocess_run p He Hno). eexists. split_and!; reflexivity.
Qed.

Lemma contoso_region_not_determined_witness :
  let p := start {[ "AZURE_OPENAI_ENDPOINT" := Contoso.endpoint ]} ∅ in
  exists p',
    CheckAzureRegion.main az_fails p = (Ret tt, p') /\
    stdout p' =
      (stdout p ++ detector_output (az_fails (CheckAzureRegion.az_command "contoso")))%list /\
    calls p' = (calls p ++ [CheckAzureRegion.az_command "contoso"])%list.
Proof.
  cbv zeta.
  refine (proj2 (proj2 (contoso_region_not_determined az_fails
                          (start {[ "AZURE_OPENAI_ENDPOINT" := Contoso.endpoint ]} ∅)
                          eq_refl _))).
  left. discriminate.
Defined.

(** ** check_responses_api.py: one attempt, one hint per error *)

Section Responses.
Variable new_client : string -> option exn.
Variable responses_create : nat -> string -> string -> CheckResponsesApi.api_reply.

Lemma guidance_404 (e : exn) (q : proc) :
  Py.str_in "404" (exn_str e) = true ->
  CheckResponsesApi.guidance e q =
    (Ret false,
     Proc (environ q) (files q) (globals q)
       (stdout q ++ ("❌ Responses API failed: " +:+ exn_str e) :: troubleshooting_404)
       (calls q)).
Proof.
  intros H. unfold CheckResponsesApi.guidance, troubleshooting_404.
  destruct q as [env fs gl out cs]. run_all. rewrite H. run_all.
  rewrite <- !app_assoc. reflexivity.
Qed.

Lemma guidance_401 (e : exn) (q : proc) :
  Py.str_in "404" (exn_str e) = false ->
  Py.str_in "401" (exn_str e) = true ->
  CheckResponsesApi.guidance e q =
    (Ret false,
     Proc (environ q) (files q) (globals q)
       (stdout q ++ ("❌ Responses API failed: " +:+ exn_str e) :: troubleshooting_401)
       (calls q)).
Proof.
  intros H4 H1. unfold CheckResponsesApi.guidance, troubleshooting_401.
  destruct q as [env fs gl out cs]. run_all. rewrite H4, H1. run_all.
  rewrite <- !app_assoc. reflexivity.
Qed.

Lemma probe_fails (p : proc) (endpoint : string) (e : exn) :
  environ p !! "AZURE_OPENAI_ENDPOINT" = Some endpoint ->
  new_client endpoint = None ->
  responses_create (length (calls p)) (answer_model p) (api_version p)
    = CheckResponsesApi.ApiError e ->
  CheckResponsesApi.test_responses_api_availability new_client responses_create p =
    CheckResponsesApi.guidance e
      (Proc (environ p) (files p) (globals p) (stdout p ++ announcement p)
         (calls p ++ ["responses.create " +:+ answer_model p])).
Proof.
  intros He Hn Hr.
  unfold CheckResponsesApi.test_responses_api_availability, announcement,
    answer_model, api_version in *.
  destruct p as [env fs gl out cs]. cbn [environ calls] in He, Hr.
  run_all. rewrite He. run_all. rewrite Hn. run_all. rewrite Hr. run_all.
  rewrite <- !app_assoc. reflexivity.
Qed.

Lemma check_azure_openai_service_run (p : proc) (endpoint : string) :
  environ p !! "AZURE_OPENAI_ENDPOINT" = Some endpoint ->
  Py.truthy endpoint = true ->
  exists lines,
    CheckResponsesApi.check_azure_openai_service p =
      (Ret true,
       Proc (environ p) (files p) (globals p) (stdout p ++ lines) (calls p)).
Proof.
  intros He Ht. unfold CheckResponsesApi.check_azure_openai_service.
  destruct p as [env fs gl out cs]. cbn [environ] in He.
  run_all. rewrite He. cbn [Py.truthy_opt]. rewrite Ht. run_all.
  destruct (Py.str_in "openai.azure.com" endpoint); run_all.
  - destruct (2 <=? _); run_all; eexists; rewrite <- !app_assoc; reflexivity.
  - eexists; rewrite <- !app_assoc; reflexivity.
Qed.

Lemma responses_main_fails (p : proc) (endpoint : string) (e : exn) :
  let q := Proc (reloaded p) (files p) (globals p) (stdout p) (calls p) in
  reloaded p !! "AZURE_OPENAI_ENDPOINT" = Some endpoint ->
  Py.truthy endpoint = true ->
  new_client endpoint = None ->
  responses_create (length (calls p)) (answer_model q) (api_version q)
    = CheckResponsesApi.ApiError e ->
  Py.str_in "404" (exn_str e) = true ->
  exists p',
    CheckResponsesApi.main new_client responses_create p = (Ret tt, p') /\
    calls p' = (calls p ++ ["responses.create " +:+ answer_model q])%list.
Proof.
  intros q He Ht Hn Hr H404. unfold CheckResponsesApi.main.
  cbv beta iota zeta delta [mbind M_bind bind]. rewrite load_dotenv_override.
  destruct p as [env fs gl out cs]. cbn [files globals stdout calls] in *.
  run_all.
  match goal with
  | |- context [CheckResponsesApi.check_azure_openai_service ?q0] =>
      destruct (check_azure_openai_service_run q0 endpoint He Ht) as (lines & ->)
  end.
  run_all.
  match goal with
  | |- context [CheckResponsesApi.test_responses_api_availability _ _ ?q1] =>
      rewrite (probe_fails q1 endpoint e He Hn Hr)
  end.
  rewrite (guidance_404 e _ H404).
  unfold CheckResponsesApi.check_alternative_solutions. run_all.
  eexists. split; reflexivity.
Qed.

End Responses.

(** C6.  When the request is refused with an error whose text has "404",
    the probe has sent exactly one request, returns [False] and prints the
    404 hint; it does so even against a service that would have answered a
    second request.  The 401 hint, printed for an error with "401" and
    without "404", has no line in common with the 404 hint. *)
Theorem not_found_is_not_retried
    (new_client : string -> option exn)
    (responses_create : nat -> string -> string -> CheckResponsesApi.api_reply)
    (p : proc) (endpoint : string) (e : exn) :
  environ p !! "AZURE_OPENAI_ENDPOINT" = Some endpoint ->
  new_client endpoint = None ->
  responses_create (length (calls p)) (answer_model p) (api_version p)
    = CheckResponsesApi.ApiError e ->
  Py.str_in "404" (exn_str e) = true ->
  (exists p',
     CheckResponsesApi.test_responses_api_availability new_client responses_create p
       = (Ret false, p') /\
     calls p' = (calls p ++ ["responses.create " +:+ answer_model p])%list /\
     stdout p' =
       (stdout p ++ announcement p ++
        ("❌ Responses API failed: " +:+ exn_str e) :: troubleshooting_404)%list) /\
  (forall e' q,
     Py.str_in "404" (exn_str e') = false ->
     Py.str_in "401" (exn_str e') = true ->
     exists q',
       CheckResponsesApi.guidance e' q = (Ret false, q') /\
       stdout q' =
         (stdout q ++ ("❌ Responses API failed: " +:+ exn_str e') :: troubleshooting_401)%list) /\
  (forall line, line ∈ troubleshooting_404 -> line ∉ troubleshooting_401) /\
  (files p !! ".env" = None ->
   Py.truthy endpoint = true ->
   exists p',
     CheckResponsesApi.main new_client responses_create p = (Ret tt, p') /\
     calls p' = (calls p ++ ["responses.create " +:+ answer_model p])%list).
Proof.
  intros He Hn Hr H404. split_and!.
  - rewrite (probe_fails new_client responses_create p endpoint e He Hn Hr).
    rewrite (guidance_404 e _ H404). cbn [environ files globals stdout calls].
    eexists. split_and!; [reflexivity..|]. rewrite <- app_assoc. reflexivity.
  - intros e' q H4 H1. rewrite (guidance_401 e' q H4 H1). eexists. split; reflexivity.
  - intros line H4 H1. unfold troubleshooting_404 in H4. unfold troubleshooting_401 in H1.
    repeat (apply elem_of_cons in H4 as [->|H4];
            [repeat (apply elem_of_cons in H1 as [H1|H1]; [discriminate H1|]); inversion H1|]).
    inversion H4.
  - intros Hf Ht.
    assert (Hre : reloaded p = environ p) by (unfold reloaded; rewrite Hf; reflexivity).
    pose proof (responses_main_fails new_client responses_create p endpoint e) as H.
    cbv zeta in H. unfold answer_model, api_version in *. cbn [environ] in H.
    rewrite Hre in H. exact (H He Ht Hn Hr H404).
Qed.

Lemma not_found_is_not_retried_witness :
  let p := start {[ "AZURE_OPENAI_ENDPOINT" := Contoso.endpoint ]} ∅ in
  exists p',
    CheckResponsesApi.test_responses_api_availability (fun _ => None) not_found_once p
      = (Ret false, p') /\
    calls p' = ["responses.create gpt-4o"] /\
    stdout p' =
      (announcement p ++
       "❌ Responses API failed: Error code: 404 - {'error': {'code': '404', 'message': 'Resource not found'}}"
       :: troubleshooting_404)%list.
Proof.
  cbv zeta.
  exact (proj1 (not_found_is_not_retried (fun _ => None) not_found_once
                  (start {[ "AZURE_OPENAI_ENDPOINT" := Contoso.endpoint ]} ∅)
                  Contoso.endpoint
                  (Exn OtherError "Error code: 404 - {'error': {'code': '404', 'message': 'Resource not found'}}")
                  eq_refl eq_refl eq_refl eq_refl)).
Defined.

(** ** check_adls_permissions.py: the sweep of steps 5 to 8 *)

Section Adls.
Variable raises : list string -> string -> option exn.

Ltac case_op :=
  match goal with
  | |- context [raises ?done ?what] =>
      let e := fresh "e" in destruct (raises done what) as [e|]
  end.

Lemma step5_runs (q : proc) :
  exists q',
    ran_as text5 (CheckAdlsPermissions.step5 raises) q q' /\
    (forall k, k <> "state_parks_dir_client" -> globals q' !! k = globals q !! k) /\
    (forall e, raises (calls q) "get_directory_client state-parks" = Some e ->
       stdout q' = (stdout q ++ [header text5; failure text5 +:+ exn_str e])%list /\
       globals q' = globals q).
Proof.
  unfold ran_as, CheckAdlsPermissions.step5. destruct q as [env fs gl out cs].
  run_adls.
  destruct (raises cs "get_directory_client state-parks") as [e|] eqn:H1; run_adls.
  - eexists. split_and!.
    + reflexivity.
    + eexists. split; [cbn [stdout]; rewrite <- ?app_assoc; reflexivity|].
      right. eexists. reflexivity.
    + intros k _. reflexivity.
    + intros e' [= <-]. split; [|reflexivity]. rewrite <- app_assoc. reflexivity.
  - case_op; run_adls.
    + eexists. split_and!.
      * reflexivity.
      * eexists. split; [cbn [stdout]; rewrite <- ?app_assoc; reflexivity|].
        right. eexists. reflexivity.
      * intros k Hk. apply lookup_insert_ne. congruence.
      * intros e' [=].
    + eexists. split_and!.
      * reflexivity.
      * eexists. split; [cbn [stdout]; rewrite <- ?app_assoc; reflexivity|].
        left. reflexivity.
      * intros k Hk. apply lookup_insert_ne. congruence.
      * intros e' [=].
Qed.

Lemma step6_runs (q : proc) :
  exists q',
    ran_as (text6 (second_group_id_of q)) (CheckAdlsPermissions.step6 raises) q q' /\
    globals q' = globals q /\
    (forall g1 g2,
       globals q !! "first_group_id" = Some (Some g1) ->
       globals q !! "second_group_id" = Some (Some g2) ->
       (forall done what, what ∈ step6_operations g1 g2 -> raises done what = None) ->
       stdout q' =
         (stdout q ++
          [header (text6 (Some g2));
           "Root ACL set for first group: " +:+ g1;
           "Root ACL set for second group: " +:+ g2])%list).
Proof.
  unfold ran_as, CheckAdlsPermissions.step6, second_group_id_of, step6_operations.
  destruct q as [env fs gl out cs]. run_adls.
  destruct (raises cs "get_directory_client /") as [e|] eqn:H1; run_adls.
  { eexists. split; [split; [reflexivity|]|split; [reflexivity|]].
    - eexists. split; [cbn [stdout]; rewrite <- ?app_assoc; reflexivity|].
      right. eexists. reflexivity.
    - intros g1 g2 _ _ Hok. rewrite Hok in H1; [discriminate|]. apply list_elem_of_here. }
  destruct (gl !! "first_group_id") as [v1|] eqn:Hg1; run_adls.
  2: { eexists. split; [split; [reflexivity|]|split; [reflexivity|]].
       - eexists. split; [cbn [stdout]; rewrite <- ?app_assoc; reflexivity|].
         right. eexists. reflexivity.
       - intros g1 g2 ? _ _. discriminate. }
  match goal with
  | |- context [raises ?done ?what] => destruct (raises done what) as [e|] eqn:H2
  end; run_adls.
  { eexists. split; [split; [reflexivity|]|split; [reflexivity|]].
    - eexists. split; [cbn [stdout]; rewrite <- ?app_assoc; reflexivity|].
      right. eexists. reflexivity.
    - intros g1 g2 Hv1 _ Hok. injection Hv1 as ->. rewrite Hok in H2; [discriminate|].
      apply list_elem_of_further, list_elem_of_here. }
  destruct (gl !! "second_group_id") as [v2|] eqn:Hg2; run_adls.
  2: { eexists. split; [split; [reflexivity|]|split; [reflexivity|]].
       - eexists. split; [cbn [stdout]; rewrite <- ?app_assoc; reflexivity|].
         right. eexists. reflexivity.
       - intros g1 g2 _ ? _. discriminate. }
  match goal with
  | |- context [raises ?done ?what] => destruct (raises done what) as [e|] eqn:H3
  end; run_adls.
  { eexists. split; [split; [reflexivity|]|split; [reflexivity|]].
    - eexists. split; [cbn [stdout]; rewrite <- ?app_assoc; reflexivity|].
      right. eexists. reflexivity.
    - intros g1 g2 _ Hv2 Hok. injection Hv2 as ->. rewrite Hok in H3; [discriminate|].
      do 2 apply list_elem_of_further. apply list_elem_of_here. }
  eexists. split; [split; [reflexivity|]|split; [reflexivity|]].
  - eexists. split; [cbn [stdout]; rewrite <- ?app_assoc; reflexivity|].
    left. reflexivity.
  - intros g1 g2 Hv1 Hv2 _. injection Hv1 as ->. injection Hv2 as ->.
    cbn [stdout]. rewrite <- !app_assoc. reflexivity.
Qed.

Lemma upload_step_runs (t : step_text) (state csv url group_var : string)
    (handler : exn -> M unit) (q : proc) :
  success t = "'" +:+ state +:+ "' subdirectory and file created, ACL set." ->
  (forall e q0, handler e q0 =
     (Ret tt, Proc (environ q0) (files q0) (globals q0)
                (stdout q0 ++ [failure t +:+ exn_str e]) (calls q0))) ->
  exists q',
    ran_as t
      (print (header t);;
       try_except (CheckAdlsPermissions.upload_step raises state csv url group_var) handler)
      q q' /\
    (forall k, k <> "file_client" -> globals q' !! k = globals q !! k).
Proof.
  intros Hs Hh. unfold ran_as, CheckAdlsPermissions.upload_step.
  destruct q as [env fs gl out cs]. run_adls.
  destruct (gl !! "state_parks_dir_client") as [parks|]; run_adls.
  2: { rewrite Hh. eexists. split; [split; [reflexivity|]|].
       - eexists. split; [cbn [stdout]; rewrite <- ?app_assoc; reflexivity|].
         right. eexists. reflexivity.
       - intros k _. reflexivity. }
  do 3 (case_op; run_adls;
        [rewrite Hh; eexists; (split; [split; [reflexivity|]|]);
         [eexists; split; [cbn [stdout]; rewrite <- ?app_assoc; reflexivity|];
          right; eexists; reflexivity
         |intros k Hk; cbn [globals]; first [reflexivity|apply lookup_insert_ne; congruence]]|]).
  do 3 (case_op; run_adls;
        [rewrite Hh; eexists; (split; [split; [reflexivity|]|]);
         [eexists; split; [cbn [stdout]; rewrite <- ?app_assoc; reflexivity|];
          right; eexists; reflexivity
         |intros k Hk; cbn [globals]; first [reflexivity|apply lookup_insert_ne; congruence]]|]).
  match goal with
  | |- context [(<[?f := ?v]> gl) !! group_var] =>
      destruct ((<[f := v]> gl) !! group_var) as [g|]
  end; run_adls.
  2: { rewrite Hh. eexists. split; [split; [reflexivity|]|].
       - eexists. split; [cbn [stdout]; rewrite <- ?app_assoc; reflexivity|].
         right. eexists. reflexivity.
       - intros k Hk. cbn [globals]. apply lookup_insert_ne. congruence. }
  case_op; run_adls.
  { rewrite Hh. eexists. split; [split; [reflexivity|]|].
    - eexists. split; [cbn [stdout]; rewrite <- ?app_assoc; reflexivity|].
      right. eexists. reflexivity.
    - intros k Hk. cbn [globals]. apply lookup_insert_ne. congruence. }
  eexists. split; [split; [reflexivity|]|].
  - eexists. split; [cbn [stdout]; rewrite <- ?app_assoc; reflexivity|].
    left. rewrite Hs. reflexivity.
  - intros k Hk. cbn [globals]. apply lookup_insert_ne. congruence.
Qed.

Lemma step7_runs (q : proc) :
  exists q',
    ran_as text7 (CheckAdlsPermissions.step7 raises) q q' /\
    (forall k, k <> "file_client" -> globals q' !! k = globals q !! k).
Proof.
  refine (upload_step_runs text7 "oregon" "oregon_state_parks.csv"
            CheckAdlsPermissions.oregon_url "first_group_id"
            (fun e => print (failure text7 +:+ exn_str e)) q eq_refl _).
  intros e q0. reflexivity.
Qed.

Lemma step8_runs (q : proc) :
  exists q',
    ran_as text8 (CheckAdlsPermissions.step8 raises) q q' /\
    (forall k, k <> "file_client" -> globals q' !! k = globals q !! k).
Proof.
  refine (upload_step_runs text8 "washington" "washington_state_parks.csv"
            CheckAdlsPermissions.washington_url "second_group_id"
            (fun e => print (failure text8 +:+ exn_str e)) q eq_refl _).
  intros e q0. reflexivity.
Qed.

(** *** What each step does, operation by operation *)

Ltac traced :=
  cbn [made said raised app]; eexists;
  split_and!; try reflexivity; cbn [stdout]; rewrite <- ?app_assoc; try reflexivity.

Lemma step5_trace (q : proc) :
  let t := attempt raises (calls q) step5_actions in
  exists q',
    CheckAdlsPermissions.step5 raises q = (Ret tt, q') /\
    calls q' = made t /\
    stdout q' = (stdout q ++ step_output text5 t)%list /\
    (raises (calls q) "get_directory_client state-parks" = None ->
     globals q' !! "state_parks_dir_client" = Some (Some "state-parks")).
Proof.
  cbv zeta. unfold CheckAdlsPermissions.step5, step_output, step5_actions.
  cbn [attempt]. destruct q as [env fs gl out cs]. run_adls.
  destruct (raises cs "get_directory_client state-parks") as [e|]; run_adls.
  { traced. intros; discriminate. }
  case_op; run_adls; traced; intros _; cbn [globals]; apply lookup_insert_eq.
Qed.

Lemma step6_trace (q : proc) (g1 g2 : string) :
  globals q !! "first_group_id" = Some (Some g1) ->
  globals q !! "second_group_id" = Some (Some g2) ->
  let t := attempt raises (calls q) (step6_actions g1 g2) in
  exists q',
    CheckAdlsPermissions.step6 raises q = (Ret tt, q') /\
    calls q' = made t /\
    stdout q' = (stdout q ++ step_output (text6 (Some g2)) t)%list.
Proof.
  intros H1 H2. cbv zeta. unfold CheckAdlsPermissions.step6, step_output, step6_actions.
  cbn [attempt]. destruct q as [env fs gl out cs]. cbn [globals] in H1, H2. run_adls.
  case_op; run_adls; [traced|]. rewrite H1. run_adls. cbn [str_of].
  case_op; run_adls; [traced|]. rewrite H2. run_adls. cbn [str_of].
  case_op; run_adls; traced.
Qed.

Lemma upload_trace (t : step_text) (parks state csv url group_var : string)
    (group_id : option string) (handler : exn -> M unit) (q : proc) :
  (forall e q0, handler e q0 =
     (Ret tt, Proc (environ q0) (files q0) (globals q0)
                (stdout q0 ++ [failure t +:+ exn_str e]) (calls q0))) ->
  group_var <> "file_client" ->
  globals q !! "state_parks_dir_client" = Some (Some parks) ->
  globals q !! group_var = Some group_id ->
  let tr := attempt raises (calls q) (upload_actions parks state csv url group_id) in
  exists q',
    (print (header t);;
     try_except (CheckAdlsPermissions.upload_step raises state csv url group_var) handler) q
      = (Ret tt, q') /\
    calls q' = made tr /\
    stdout q' = (stdout q ++ step_output t tr)%list.
Proof.
  intros Hh Hne Hp Hg. cbv zeta.
  unfold CheckAdlsPermissions.upload_step, step_output, upload_actions.
  cbn [attempt]. destruct q as [env fs gl out cs]. cbn [globals] in Hp, Hg. run_adls.
  rewrite Hp. run_adls. cbn [str_of].
  do 6 (case_op; run_adls; [rewrite Hh; traced|]).
  rewrite lookup_insert_ne by congruence. rewrite Hg. run_adls.
  case_op; run_adls; [rewrite Hh; traced|]. traced.
Qed.

Lemma step7_trace (q : proc) (parks : string) (group_id : option string) :
  globals q !! "state_parks_dir_client" = Some (Some parks) ->
  globals q !! "first_group_id" = Some group_id ->
  let tr := attempt raises (calls q)
              (upload_actions parks "oregon" "oregon_state_parks.csv"
                 CheckAdlsPermissions.oregon_url group_id) in
  exists q',
    CheckAdlsPermissions.step7 raises q = (Ret tt, q') /\
    calls q' = made tr /\
    stdout q' = (stdout q ++ step_output text7 tr)%list.
Proof.
  intros Hp Hg.
  refine (upload_trace text7 parks "oregon" "oregon_state_parks.csv"
            CheckAdlsPermissions.oregon_url "first_group_id" group_id
            (fun e => print (failure text7 +:+ exn_str e)) q _ _ Hp Hg).
  - intros e q0. reflexivity.
  - discriminate.
Qed.

Lemma step8_trace (q : proc) (parks : string) (group_id : option string) :
  globals q !! "state_parks_dir_client" = Some (Some parks) ->
  globals q !! "second_group_id" = Some group_id ->
  let tr := attempt raises (calls q)
              (upload_actions parks "washington" "washington_state_parks.csv"
                 CheckAdlsPermissions.washington_url group_id) in
  exists q',
    CheckAdlsPermissions.step8 raises q = (Ret tt, q') /\
    calls q' = made tr /\
    stdout q' = (stdout q ++ step_output text8 tr)%list.
Proof.
  intros Hp Hg.
  refine (upload_trace text8 parks "washington" "washington_state_parks.csv"
            CheckAdlsPermissions.washington_url "second_group_id" group_id
            (fun e => print (failure text8 +:+ exn_str e)) q _ _ Hp Hg).
  - intros e q0. reflexivity.
  - discriminate.
Qed.

End Adls.

(** C8.  Whatever the SDK raises, each of the steps 5 to 8 returns: it
    prints its header and ends with its success line or with the line of
    its own [except] clause, and the next step starts from there; so the
    sweep runs all four.  What a step does is fixed by its own actions
    and by what the SDK answers to them, not by an exception of an
    earlier step: its operations are made in order up to the first one
    that raises, the lines in between are printed, and the line of the
    [except] clause carries the text of that very exception.  This holds
    for step 5 in every state, for step 6 once the two group ids are
    bound, and for steps 7 and 8 once the directory client of step 5 is
    bound as well, that is, when the first operation of step 5 did not
    raise. *)
Theorem sweep_survives_failures (raises : list string -> string -> option exn) (q : proc) :
  exists q5 q6 q7 q8,
    ran_as text5 (CheckAdlsPermissions.step5 raises) q q5 /\
    ran_as (text6 (second_group_id_of q5)) (CheckAdlsPermissions.step6 raises) q5 q6 /\
    ran_as text7 (CheckAdlsPermissions.step7 raises) q6 q7 /\
    ran_as text8 (CheckAdlsPermissions.step8 raises) q7 q8 /\
    CheckAdlsPermissions.sweep raises q = (Ret tt, q8) /\
    (forall e, raises (calls q) "get_directory_client state-parks" = Some e ->
       stdout q5 = (stdout q ++ [header text5; failure text5 +:+ exn_str e])%list) /\
    (forall g1 g2,
       globals q !! "first_group_id" = Some (Some g1) ->
       globals q !! "second_group_id" = Some (Some g2) ->
       (forall done what, what ∈ step6_operations g1 g2 -> raises done what = None) ->
       stdout q6 =
         (stdout q5 ++
          [header (text6 (Some g2));
           "Root ACL set for first group: " +:+ g1;
           "Root ACL set for second group: " +:+ g2])%list) /\
    (calls q5 = made (attempt raises (calls q) step5_actions) /\
     stdout q5 = (stdout q ++ step_output text5 (attempt raises (calls q) step5_actions))%list) /\
    (forall g1 g2,
       globals q !! "first_group_id" = Some (Some g1) ->
       globals q !! "second_group_id" = Some (Some g2) ->
       let t6 := attempt raises (calls q5) (step6_actions g1 g2) in
       calls q6 = made t6 /\
       stdout q6 = (stdout q5 ++ step_output (text6 (Some g2)) t6)%list /\
       (raises (calls q) "get_directory_client state-parks" = None ->
        let t7 := attempt raises (calls q6)
                    (upload_actions "state-parks" "oregon" "oregon_state_parks.csv"
                       CheckAdlsPermissions.oregon_url (Some g1)) in
        let t8 := attempt raises (calls q7)
                    (upload_actions "state-parks" "washington" "washington_state_parks.csv"
                       CheckAdlsPermissions.washington_url (Some g2)) in
        calls q7 = made t7 /\
        stdout q7 = (stdout q6 ++ step_output text7 t7)%list /\
        calls q8 = made t8 /\
        stdout q8 = (stdout q7 ++ step_output text8 t8)%list)).
Proof.
  destruct (step5_runs raises q) as (q5 & H5 & Hg5 & He5).
  destruct (step6_runs raises q5) as (q6 & H6 & Hg6 & Hok6).
  destruct (step7_runs raises q6) as (q7 & H7 & Hg7).
  destruct (step8_runs raises q7) as (q8 & H8 & _).
  destruct (step5_trace raises q) as (q5' & R5 & C5 & S5 & G5).
  assert (q5' = q5) by (pose proof (proj1 H5); congruence). subst q5'.
  exists q5, q6, q7, q8. split_and!; try assumption.
  - unfold CheckAdlsPermissions.sweep, mbind, M_bind, bind.
    rewrite (proj1 H5), (proj1 H6), (proj1 H7). exact (proj1 H8).
  - intros e He. exact (proj1 (He5 e He)).
  - intros g1 g2 Hv1 Hv2 Hnone. apply Hok6; [| |exact Hnone].
    + rewrite Hg5 by discriminate. exact Hv1.
    + rewrite Hg5 by discriminate. exact Hv2.
  - intros g1 g2 Hv1 Hv2.
    assert (Hv1' : globals q5 !! "first_group_id" = Some (Some g1))
      by (rewrite Hg5 by discriminate; exact Hv1).
    assert (Hv2' : globals q5 !! "second_group_id" = Some (Some g2))
      by (rewrite Hg5 by discriminate; exact Hv2).
    destruct (step6_trace raises q5 g1 g2 Hv1' Hv2') as (q6' & R6 & C6 & S6).
    assert (q6' = q6) by (pose proof (proj1 H6); congruence). subst q6'.
    cbv zeta. split_and!; [exact C6|exact S6|].
    intros Hfirst. specialize (G5 Hfirst).
    assert (Hp6 : globals q6 !! "state_parks_dir_client" = Some (Some "state-parks"))
      by (rewrite Hg6; exact G5).
    assert (Hf6 : globals q6 !! "first_group_id" = Some (Some g1))
      by (rewrite Hg6; exact Hv1').
    destruct (step7_trace raises q6 "state-parks" (Some g1) Hp6 Hf6) as (q7' & R7 & C7 & S7).
    assert (q7' = q7) by (pose proof (proj1 H7); congruence). subst q7'.
    assert (Hp7 : globals q7 !! "state_parks_dir_client" = Some (Some "state-parks"))
      by (rewrite Hg7 by discriminate; exact Hp6).
    assert (Hs7 : globals q7 !! "second_group_id" = Some (Some g2))
      by (rewrite Hg7 by discriminate; rewrite Hg6; exact Hv2').
    destruct (step8_trace raises q7 "state-parks" (Some g2) Hp7 Hs7) as (q8' & R8 & C8 & S8).
    assert (q8' = q8) by (pose proof (proj1 H8); congruence). subst q8'.
    split_and!; assumption.
Qed.

Lemma sweep_survives_failures_witness :
  (exists q5 q6,
     CheckAdlsPermissions.step5 no_state_parks after_step4 = (Ret tt, q5) /\
     stdout q5 =
       [header text5; failure text5 +:+ "The specified path is invalid."] /\
     CheckAdlsPermissions.step6 no_state_parks q5 = (Ret tt, q6) /\
     stdout q6 =
       (stdout q5 ++
        [header (text6 (Some "g2"));
         "Root ACL set for first group: g1";
         "Root ACL set for second group: g2"])%list) /\
  (exists q8,
     CheckAdlsPermissions.sweep AdlsSetup.all_fine after_step4 = (Ret tt, q8) /\
     calls q8 =
       ["get_directory_client state-parks"; "create_directory state-parks";
        "get_directory_client /";
        "update_access_control_recursive / group:g1:rwx";
        "update_access_control_recursive / group:g2:rwx";
        "create_sub_directory state-parks/oregon";
        "create_directory state-parks/oregon";
        "create_file state-parks/oregon/oregon_state_parks.csv";
        "GET " +:+ CheckAdlsPermissions.oregon_url;
        "decode utf-8";
        "upload_data state-parks/oregon/oregon_state_parks.csv";
        "update_access_control_recursive state-parks/oregon group:g1:rwx";
        "create_sub_directory state-parks/washington";
        "create_directory state-parks/washington";
        "create_file state-parks/washington/washington_state_parks.csv";
        "GET " +:+ CheckAdlsPermissions.washington_url;
        "decode utf-8";
        "upload_data state-parks/washington/washington_state_parks.csv";
        "update_access_control_recursive state-parks/washington group:g2:rwx"] /\
     last (stdout q8) = Some (success text8)).
Proof.
  split.
  - destruct (sweep_survives_failures no_state_parks after_step4)
      as (q5 & q6 & q7 & q8 & [H5 _] & [H6 _] & _ & _ & _ & Hfail & Hind & _).
    exists q5, q6. split_and!; [exact H5| |exact H6|].
    + exact (Hfail (Exn OtherError "The specified path is invalid.") eq_refl).
    + apply (Hind "g1" "g2"); [reflexivity|reflexivity|].
      intros done what Hin. unfold step6_operations in Hin.
      repeat (apply elem_of_cons in Hin as [->|Hin]; [reflexivity|]).
      inversion Hin.
  - destruct (sweep_survives_failures AdlsSetup.all_fine after_step4)
      as (q5 & q6 & q7 & q8 & _ & _ & _ & _ & Hrun & _ & _ & [C5 _] & Htrace).
    destruct (Htrace "g1" "g2" eq_refl eq_refl) as (C6 & _ & Hup).
    destruct (Hup eq_refl) as (C7 & _ & C8 & S8).
    exists q8. split_and!; [exact Hrun| |].
    + rewrite C8, C7, C6, C5. reflexivity.
    + rewrite S8. unfold step_output.
      cbv beta iota zeta delta [attempt AdlsSetup.all_fine upload_actions made said raised].
      cbn [app]. rewrite last_app_cons. reflexivity.
Defined.

(** The whole script against that storage account: step 5 fails, step 6
    goes through, and steps 7 and 8, which need the directory client of
    step 5, fail on the unbound name, each inside its own [try]. *)
Example script_sweeps_past_step5 :
  let env : gmap string string :=
    {[ "AZURE_SEARCH_ENDPOINT" := "https://contoso.search.windows.net";
       "AZURE_STORAGE_CONNECTION_STRING" := "UseDevelopmentStorage=true";
       "AZURE_STORAGE_CONTAINER_NAME" := "parks";
       "AZURE_STORAGE_RESOURCE_ID" := "/subscriptions/0/storage" ]} in
  let r := CheckAdlsPermissions.script no_state_parks ["g1"; "g2"] true (start env ∅) in
  fst r = Ret tt /\
  drop 12 (stdout (snd r)) =
    [header text5; failure text5 +:+ "The specified path is invalid.";
     header (text6 (Some "g2"));
     "Root ACL set for first group: g1";
     "Root ACL set for second group: g2";
     header text7;
     failure text7 +:+ "name 'state_parks_dir_client' is not defined";
     header text8;
     failure text8 +:+ "name 'state_parks_dir_client' is not defined"].
Proof. cbv zeta. split; vm_compute; reflexivity. Qed.

(** * Further properties

    What follows covers the parts of the scripts the statements above
    leave aside, and the remaining scripts of the repository. *)

Import AdlsSetup Connection Tables Detector Diagnostic Hosts Fixes Access Closing.

(** ** check_adls_permissions.py: the steps that end the script *)

Lemma step1_run (p : proc) :
  exists g,
    CheckAdlsPermissions.step1 p =
      (match first_missing (reloaded p) required_keys with
       | Some _ => Exit 1
       | None => Ret tt
       end,
       Proc (reloaded p) (files p) g
         (stdout p ++ "--- Step 1: Load environment variables ---"
                      :: step1_report (reloaded p))
         (calls p)).
Proof.
  unfold CheckAdlsPermissions.step1, step1_report, required_keys.
  destruct p as [env fs gl out cs].
  cbv beta iota zeta delta [mbind M_bind bind print environ files globals stdout calls].
  rewrite load_dotenv_override. cbn [environ files globals stdout calls].
  change (reloaded _) with (reloaded (Proc env fs gl out cs)).
  set (env' := reloaded _). cbn [first_missing].
  run_adls. unfold repr_key.
  destruct (env' !! "AZURE_SEARCH_ENDPOINT") as [v1|]; run_adls.
  2: { eexists. rewrite <- !app_assoc. reflexivity. }
  destruct (env' !! "AZURE_STORAGE_CONNECTION_STRING") as [v2|]; run_adls.
  2: { eexists. rewrite <- !app_assoc. reflexivity. }
  destruct (env' !! "AZURE_STORAGE_RESOURCE_ID") as [v3|]; run_adls.
  2: { eexists. rewrite <- !app_assoc. reflexivity. }
  eexists. rewrite <- !app_assoc. reflexivity.
Qed.

Section AdlsFatal.
Variable raises : list string -> string -> option exn.
Variable groups : list string.
Variable container_exists : bool.

Ltac case_raise :=
  match goal with
  | |- context [raises ?done ?what] =>
      let e := fresh "e" in destruct (raises done what) as [e|]
  end.

Lemma step2_fatal (q : proc) :
  returns_or_exits "Azure authentication failed: " (CheckAdlsPermissions.step2 raises) q.
Proof.
  unfold returns_or_exits, CheckAdlsPermissions.step2. destruct q as [env fs gl out cs].
  run_adls.
  do 2 (case_raise; run_adls;
        [eexists; right; split; [reflexivity|]; eexists; cbn [stdout];
         rewrite last_snoc; reflexivity|]).
  eexists. left. reflexivity.
Qed.

Lemma step3_fatal (q : proc) :
  returns_or_exits "Failed to retrieve group IDs: "
    (CheckAdlsPermissions.step3 raises groups) q.
Proof.
  unfold returns_or_exits, CheckAdlsPermissions.step3. destruct q as [env fs gl out cs].
  run_adls.
  do 3 (case_raise; run_adls;
        [eexists; right; split; [reflexivity|]; eexists; cbn [stdout];
         rewrite last_snoc; reflexivity|]).
  destruct groups as [|first [|second rest]]; run_adls.
  - eexists; right; split; [reflexivity|]. exists (Exn OtherError "list index out of range").
    cbn [stdout]. rewrite last_snoc. reflexivity.
  - eexists; right; split; [reflexivity|]. exists (Exn OtherError "list index out of range").
    cbn [stdout]. rewrite last_snoc. reflexivity.
  - eexists. left. reflexivity.
Qed.

Lemma step4_fatal (q : proc) :
  returns_or_exits "Failed to connect to or create container: "
    (CheckAdlsPermissions.step4 raises container_exists) q.
Proof.
  unfold returns_or_exits, CheckAdlsPermissions.step4. destruct q as [env fs gl out cs].
  run_adls.
  case_raise; run_adls;
    [eexists; right; split; [reflexivity|]; eexists; cbn [stdout];
     rewrite last_snoc; reflexivity|].
  destruct (gl !! "adls_gen2_container_name") as [name|]; run_adls.
  2: { eexists; right; split; [reflexivity|]. eexists. cbn [stdout].
       rewrite last_snoc. reflexivity. }
  do 2 (case_raise; run_adls;
        [eexists; right; split; [reflexivity|]; eexists; cbn [stdout];
         rewrite last_snoc; reflexivity|]).
  destruct container_exists; run_adls.
  - eexists. left. reflexivity.
  - case_raise; run_adls;
      [eexists; right; split; [reflexivity|]; eexists; cbn [stdout];
       rewrite last_snoc; reflexivity|].
    eexists. left. reflexivity.
Qed.

End AdlsFatal.

Lemma first_missing_none (env : gmap string string) (keys : list string) :
  first_missing env keys = None <-> Forall (fun k => is_Some (env !! k)) keys.
Proof.
  induction keys as [|k rest IH]; cbn [first_missing].
  - split; [constructor|reflexivity].
  - destruct (env !! k) as [v|] eqn:Hk.
    + rewrite IH. split.
      * intros H. constructor; [rewrite Hk; eauto|exact H].
      * intros H. inversion H; assumption.
    + split; [discriminate|]. intros H. inversion H as [|? ? [v Hv] ?]. congruence.
Qed.

Lemma upload_unbound (raises : list string -> string -> option exn)
    (state csv url group_var : string) (q : proc) :
  globals q !! "state_parks_dir_client" = None ->
  CheckAdlsPermissions.upload_step raises state csv url group_var q =
    (Raise (Exn NameError unbound_directory_client), q).
Proof.
  intros H. unfold CheckAdlsPermissions.upload_step, unbound_directory_client.
  destruct q as [env fs gl out cs]. cbn [globals] in H. run_adls. rewrite H. reflexivity.
Qed.

(** X1.  Step 1 of the ADLS script needs the three variables it reads with
    [os.environ[...]].  When one is missing after [.env] is loaded, the
    script ends with status 1 after one line that names the first missing
    variable, and nothing has been asked of Azure; when all three are
    there, step 1 returns after the success line and the lines that show
    the endpoint, the account name and the container name, the last two
    printed as [None] when they are not set. *)
Theorem adls_required_environment
    (raises : list string -> string -> option exn) (groups : list string)
    (container_exists : bool) (p : proc) :
  (forall k, first_missing (reloaded p) required_keys = Some k ->
     exists p',
       CheckAdlsPermissions.script raises groups container_exists p = (Exit 1, p') /\
       calls p' = calls p /\
       stdout p' =
         (stdout p ++
          ["--- Step 1: Load environment variables ---";
           "Failed to load environment variables: '" +:+ k +:+ "'"])%list) /\
  (Forall (fun k => is_Some (reloaded p !! k)) required_keys ->
     exists p',
       CheckAdlsPermissions.step1 p = (Ret tt, p') /\
       environ p' = reloaded p /\
       calls p' = calls p /\
       stdout p' =
         (stdout p ++
          ["--- Step 1: Load environment variables ---";
           "Environment variables loaded successfully.";
           "  endpoint: " +:+ str_of (reloaded p !! "AZURE_SEARCH_ENDPOINT");
           "  adls_gen2_account_name: " +:+ str_of (reloaded p !! "AZURE_STORAGE_ACCOUNT_NAME");
           "  adls_gen2_container_name: " +:+
             str_of (reloaded p !! "AZURE_STORAGE_CONTAINER_NAME")])%list).
Proof.
  destruct (step1_run p) as [g H1]. split.
  - intros k Hk. unfold CheckAdlsPermissions.script, mbind, M_bind, bind.
    rewrite H1. unfold step1_report. rewrite Hk.
    eexists. split_and!; reflexivity.
  - intros Hall. apply first_missing_none in Hall.
    rewrite H1. unfold step1_report. rewrite Hall.
    eexists. split_and!; reflexivity.
Qed.

Lemma adls_required_environment_witness :
  let p := start (delete "AZURE_STORAGE_RESOURCE_ID" adls_env) ∅ in
  exists p',
    CheckAdlsPermissions.script all_fine ["g1"; "g2"] true p = (Exit 1, p') /\
    calls p' = calls p /\
    stdout p' =
      (stdout p ++
       ["--- Step 1: Load environment variables ---";
        "Failed to load environment variables: '" +:+ "AZURE_STORAGE_RESOURCE_ID" +:+ "'"])%list.
Proof.
  cbv zeta.
  exact (proj1 (adls_required_environment all_fine ["g1"; "g2"] true
                  (start (delete "AZURE_STORAGE_RESOURCE_ID" adls_env) ∅))
           "AZURE_STORAGE_RESOURCE_ID" eq_refl).
Defined.

(** X2.  The script takes the first two groups of the signed-in user.
    When the environment is complete and sign-in and the Graph request
    succeed, a user with fewer than two groups ends the script in step 3:
    status 1, the five operations of steps 2 and 3 and no other, and the
    text of the [IndexError] on the last line. *)
Theorem adls_needs_two_groups
    (raises : list string -> string -> option exn) (groups : list string)
    (container_exists : bool) (p : proc) :
  Forall (fun k => is_Some (reloaded p !! k)) required_keys ->
  (forall done what, what ∈ sign_in_operations -> raises done what = None) ->
  (length groups < 2)%nat ->
  exists p',
    CheckAdlsPermissions.script raises groups container_exists p = (Exit 1, p') /\
    calls p' = (calls p ++ sign_in_operations)%list /\
    last (stdout p') = Some "Failed to retrieve group IDs: list index out of range".
Proof.
  intros Hall Hops Hlen. apply first_missing_none in Hall.
  destruct (step1_run p) as [g H1].
  unfold CheckAdlsPermissions.script, mbind, M_bind, bind.
  rewrite H1, Hall.
  unfold CheckAdlsPermissions.step2, CheckAdlsPermissions.step3, sign_in_operations in *.
  destruct p as [env fs gl out cs]. cbn [files stdout calls].
  assert (Ho : forall done i what,
             [ "DefaultAzureCredential";
               "get_bearer_token_provider https://search.azure.com/.default";
               "get_token " +:+ CheckAdlsPermissions.graph_scope;
               "GET " +:+ CheckAdlsPermissions.member_of_url;
               "response.json" ] !! i = Some what -> raises done what = None).
  { intros done i what Hi. apply Hops. eapply list_elem_of_lookup_2. exact Hi. }
  run_adls.
  rewrite (Ho _ 0%nat _ eq_refl). run_adls.
  rewrite (Ho _ 1%nat _ eq_refl). run_adls.
  rewrite (Ho _ 2%nat _ eq_refl). run_adls.
  rewrite (Ho _ 3%nat _ eq_refl). run_adls.
  rewrite (Ho _ 4%nat _ eq_refl). run_adls.
  destruct groups as [|first [|second rest]]; [| |cbn [length] in Hlen; lia]; run_adls.
  - eexists. split_and!; [reflexivity|cbn [calls]; rewrite <- !app_assoc; reflexivity|].
    cbn [stdout]. apply last_snoc.
  - eexists. split_and!; [reflexivity|cbn [calls]; rewrite <- !app_assoc; reflexivity|].
    cbn [stdout]. apply last_snoc.
Qed.

Lemma adls_needs_two_groups_witness :
  let p := start adls_env ∅ in
  exists p',
    CheckAdlsPermissions.script all_fine ["only-group"] true p = (Exit 1, p') /\
    calls p' = (calls p ++ sign_in_operations)%list /\
    last (stdout p') = Some "Failed to retrieve group IDs: list index out of range".
Proof.
  cbv zeta. apply (adls_needs_two_groups all_fine ["only-group"] true (start adls_env ∅)).
  - unfold required_keys. repeat constructor; eexists; reflexivity.
  - intros done what _. reflexivity.
  - cbn. lia.
Defined.

Lemma sweep_returns (raises : list string -> string -> option exn) (q : proc) :
  exists q', CheckAdlsPermissions.sweep raises q = (Ret tt, q').
Proof.
  destruct (step5_runs raises q) as (q5 & [H5 _] & _).
  destruct (step6_runs raises q5) as (q6 & [H6 _] & _).
  destruct (step7_runs raises q6) as (q7 & [H7 _] & _).
  destruct (step8_runs raises q7) as (q8 & [H8 _] & _).
  exists q8. unfold CheckAdlsPermissions.sweep, mbind, M_bind, bind.
  rewrite H5, H6, H7. exact H8.
Qed.

(** X3.  The ADLS script never ends on an exception.  Either it leaves
    through [sys.exit(1)] in one of the steps 1 to 4, right after the line
    of that step's [except] clause, or the four steps return and the
    script ends normally with the sweep of steps 5 to 8. *)
Theorem adls_script_returns_or_exits
    (raises : list string -> string -> option exn) (groups : list string)
    (container_exists : bool) (p : proc) :
  let r := CheckAdlsPermissions.script raises groups container_exists p in
  exited_at_fatal_step r \/
  (fst r = Ret tt /\
   exists q1 q2 q3 q4,
     CheckAdlsPermissions.step1 p = (Ret tt, q1) /\
     CheckAdlsPermissions.step2 raises q1 = (Ret tt, q2) /\
     CheckAdlsPermissions.step3 raises groups q2 = (Ret tt, q3) /\
     CheckAdlsPermissions.step4 raises container_exists q3 = (Ret tt, q4) /\
     r = CheckAdlsPermissions.sweep raises q4).
Proof.
  intros r. unfold exited_at_fatal_step, fatal_prefixes.
  assert (Hr : r = CheckAdlsPermissions.script raises groups container_exists p)
    by reflexivity.
  clearbody r. unfold CheckAdlsPermissions.script, mbind, M_bind in Hr.
  unfold bind at 1 in Hr. destruct (step1_run p) as [g H1]. rewrite H1 in Hr.
  destruct (first_missing (reloaded p) required_keys) as [k|] eqn:Hk.
  { left. subst r. split; [reflexivity|].
    exists "Failed to load environment variables: ", (Exn KeyError ("'" +:+ k +:+ "'")).
    split; [apply list_elem_of_here|].
    cbn [snd stdout]. unfold step1_report. rewrite Hk. rewrite last_app_cons. reflexivity. }
  set (q1 := Proc _ _ _ _ _) in *.
  unfold bind at 1 in Hr.
  destruct (step2_fatal raises q1) as [q2 [H2|[H2 [e He]]]]; rewrite H2 in Hr.
  2: { left. subst r. split; [reflexivity|].
       exists "Azure authentication failed: ", e.
       split; [apply list_elem_of_further, list_elem_of_here|exact He]. }
  unfold bind at 1 in Hr.
  destruct (step3_fatal raises groups q2) as [q3 [H3|[H3 [e He]]]]; rewrite H3 in Hr.
  2: { left. subst r. split; [reflexivity|].
       exists "Failed to retrieve group IDs: ", e.
       split; [do 2 apply list_elem_of_further; apply list_elem_of_here|exact He]. }
  unfold bind at 1 in Hr.
  destruct (step4_fatal raises container_exists q3) as [q4 [H4|[H4 [e He]]]];
    rewrite H4 in Hr.
  2: { left. subst r. split; [reflexivity|].
       exists "Failed to connect to or create container: ", e.
       split; [do 3 apply list_elem_of_further; apply list_elem_of_here|exact He]. }
  right. destruct (sweep_returns raises q4) as [q8 Hs].
  split; [rewrite Hr, Hs; reflexivity|].
  exists q1, q2, q3, q4. split_and!; reflexivity || assumption.
Qed.

(** X4.  Steps 7 and 8 use the directory client that step 5 binds.  When
    the first operation of step 5 raises, the name stays unbound: step 6
    runs as usual, and steps 7 and 8 each print their header and the
    [NameError], without a single operation on the storage account. *)
Theorem uploads_need_directory_client
    (raises : list string -> string -> option exn) (q : proc) (e : exn) :
  globals q !! "state_parks_dir_client" = None ->
  raises (calls q) "get_directory_client state-parks" = Some e ->
  exists q5 q6 q8,
    CheckAdlsPermissions.step5 raises q = (Ret tt, q5) /\
    CheckAdlsPermissions.step6 raises q5 = (Ret tt, q6) /\
    CheckAdlsPermissions.sweep raises q = (Ret tt, q8) /\
    calls q8 = calls q6 /\
    stdout q8 =
      (stdout q6 ++
       [header text7; failure text7 +:+ unbound_directory_client;
        header text8; failure text8 +:+ unbound_directory_client])%list.
Proof.
  intros Hg He.
  destruct (step5_runs raises q) as (q5 & [H5 _] & _ & Hfail).
  destruct (Hfail e He) as [_ Hg5].
  destruct (step6_runs raises q5) as (q6 & [H6 _] & Hg6 & _).
  assert (Hq6 : globals q6 !! "state_parks_dir_client" = None)
    by (rewrite Hg6, Hg5; exact Hg).
  exists q5, q6. eexists. split_and!; [exact H5|exact H6| | |].
  - unfold CheckAdlsPermissions.sweep, mbind, M_bind, bind. rewrite H5, H6.
    unfold CheckAdlsPermissions.step7, CheckAdlsPermissions.step8, mbind, M_bind, bind.
    unfold try_except, print at 1. rewrite upload_unbound by exact Hq6.
    unfold print at 1. cbn [environ files globals stdout calls].
    unfold print at 1. cbn [environ files globals stdout calls].
    rewrite upload_unbound by exact Hq6.
    unfold print. cbn [environ files globals stdout calls]. reflexivity.
  - reflexivity.
  - cbn [stdout exn_str]. rewrite <- !app_assoc. reflexivity.
Qed.

Lemma uploads_need_directory_client_witness :
  exists q5 q6 q8,
    CheckAdlsPermissions.step5 no_state_parks after_step4 = (Ret tt, q5) /\
    CheckAdlsPermissions.step6 no_state_parks q5 = (Ret tt, q6) /\
    CheckAdlsPermissions.sweep no_state_parks after_step4 = (Ret tt, q8) /\
    calls q8 = calls q6 /\
    stdout q8 =
      (stdout q6 ++
       [header text7; failure text7 +:+ unbound_directory_client;
        header text8; failure text8 +:+ unbound_directory_client])%list.
Proof.
  exact (uploads_need_directory_client no_state_parks after_step4
           (Exn OtherError "The specified path is invalid.") eq_refl eq_refl).
Defined.

(** ** validate_connection.py: the verdict and the error classes *)

Lemma for_each_lines {A} (body : A -> M unit) (f : A -> string) (xs : list A) :
  (forall x q,
     body x q =
       (Ret tt, Proc (environ q) (files q) (globals q) (stdout q ++ [f x])%list (calls q))) ->
  forall q,
    for_each xs body q =
      (Ret tt, Proc (environ q) (files q) (globals q) (stdout q ++ map f xs)%list (calls q)).
Proof.
  intros Hbody. induction xs as [|x xs IH]; intros q.
  - cbn [for_each map]. unfold ret. rewrite app_nil_r, proc_eta. reflexivity.
  - cbn [for_each map]. unfold bind. rewrite Hbody, IH.
    cbn [environ files globals stdout calls]. rewrite <- app_assoc. reflexivity.
Qed.

Section Verdict.
Variable new_client : string -> string -> option exn.
Variable list_indexes : string -> string -> ValidateConnection.listing.

Lemma handler_run (ex : exn) (q : proc) :
  exists rest,
    ValidateConnection.handler ex q =
      (Ret false,
       Proc (environ q) (files q) (globals q)
         (stdout q ++ failure_heading ex :: rest)%list (calls q)).
Proof.
  unfold ValidateConnection.handler, failure_heading.
  destruct (exn_cls ex); run; eexists; rewrite <- ?app_assoc; reflexivity.
Qed.

Lemma probe_run (e k : string) (q : proc) :
  try_except (ValidateConnection.probe new_client list_indexes e k)
    ValidateConnection.handler q =
  match new_client e k with
  | Some ex => ValidateConnection.handler ex q
  | None =>
      match list_indexes e k with
      | ValidateConnection.Indexes names =>
          (Ret true,
           Proc (environ q) (files q) (globals q)
             (stdout q ++ index_report names)%list
             (calls q ++ ["list_indexes " +:+ e])%list)
      | ValidateConnection.Failed ex =>
          ValidateConnection.handler ex
            (Proc (environ q) (files q) (globals q)
               (stdout q ++ [LF +:+ "🔄 Testing connection..."])%list
               (calls q ++ ["list_indexes " +:+ e])%list)
      end
  end.
Proof.
  unfold ValidateConnection.probe, index_report.
  destruct (new_client e k) as [ex|]; run; [reflexivity|].
  destruct (list_indexes e k) as [names|ex]; run; [|reflexivity].
  rewrite (for_each_lines _ (fun name => "   - " +:+ name)) by (intros; reflexivity).
  run. rewrite <- !app_assoc. reflexivity.
Qed.

End Verdict.

Lemma both_set_values (p : proc) :
  both_set p = true <->
  exists e k,
    loaded p !! "SEARCH-ENDPOINT" = Some e /\ loaded p !! "SEARCH-API-KEY" = Some k /\
    e <> EmptyString /\ k <> EmptyString.
Proof.
  unfold both_set. split.
  - intros H. apply andb_true_iff in H as [He Hk].
    destruct (loaded p !! "SEARCH-ENDPOINT") as [e|]; [|discriminate].
    destruct (loaded p !! "SEARCH-API-KEY") as [k|]; [|discriminate].
    exists e, k. split_and!; try reflexivity.
    + intros ->. discriminate.
    + intros ->. discriminate.
  - intros (e & k & -> & -> & He & Hk).
    destruct e; [congruence|]. destruct k; [congruence|]. reflexivity.
Qed.

Lemma connection_verdict
    (new_client : string -> string -> option exn)
    (list_indexes : string -> string -> ValidateConnection.listing) (p : proc) :
  exists ok p',
    ValidateConnection.validate_connection new_client list_indexes p = (Ret ok, p') /\
    files p' = files p /\
    (ok = true <-> exists e k names, lists_indexes new_client list_indexes p e k names) /\
    (forall e k names,
       lists_indexes new_client list_indexes p e k names ->
       calls p' = (calls p ++ ["list_indexes " +:+ e])%list /\
       stdout p' = (stdout p ++ preamble e k ++ index_report names)%list).
Proof.
  unfold lists_indexes.
  destruct (both_set p) eqn:Hb.
  - pose proof (proj1 (both_set_values p) Hb) as (e & k & He & Hk & Hne & Hnk).
    rewrite (validate_connection_probes new_client list_indexes p e k He Hk Hb).
    rewrite probe_run.
    destruct (new_client e k) as [ex|] eqn:Hn.
    { destruct (handler_run ex (Proc (loaded p) (files p) (globals p)
         (stdout p ++ ["🔍 Validating Azure Search connection...";
                       "📍 Endpoint: " +:+ e;
                       "🔑 API Key: " +:+ SetupEnvironment.masked k]) (calls p)))
        as [rest ->].
      eexists _, _. split_and!; [reflexivity..| |].
      - split; [discriminate|]. intros (e' & k' & names & He' & Hk' & _ & _ & Hn' & _).
        congruence.
      - intros e' k' names (He' & Hk' & _ & _ & Hn' & _). congruence. }
    destruct (list_indexes e k) as [names|ex] eqn:Hl.
    + eexists _, _. split_and!; [reflexivity..| |].
      * split; [|reflexivity]. intros _. exists e, k, names. split_and!; assumption.
      * intros e' k' names' (He' & Hk' & _ & _ & _ & Hl').
        assert (e' = e) by congruence. assert (k' = k) by congruence. subst e' k'.
        assert (names' = names) by congruence. subst names'.
        split; [reflexivity|]. cbn [stdout]. unfold preamble.
        rewrite <- !app_assoc. reflexivity.
    + match goal with |- context [ValidateConnection.handler ex ?q] =>
        destruct (handler_run ex q) as [rest ->] end.
      eexists _, _. split_and!; [reflexivity..| |].
      * split; [discriminate|].
        intros (e' & k' & names & He' & Hk' & _ & _ & _ & Hl'). congruence.
      * intros e' k' names (He' & Hk' & _ & _ & _ & Hl'). congruence.
  - rewrite (validate_connection_missing new_client list_indexes p Hb).
    assert (Hno : forall e k, loaded p !! "SEARCH-ENDPOINT" = Some e ->
                    loaded p !! "SEARCH-API-KEY" = Some k ->
                    e <> EmptyString -> k <> EmptyString -> False).
    { intros e k He Hk Hne Hnk.
      assert (both_set p = true) by (apply both_set_values; eauto 6). congruence. }
    eexists _, _. split_and!; [reflexivity..| |].
    + split; [discriminate|]. intros (e & k & names & He & Hk & Hne & Hnk & _).
      exfalso; eauto.
    + intros e k names (He & Hk & Hne & Hnk & _). exfalso; eauto.
Qed.

(** X5.  [validate_connection] always returns a boolean and leaves the
    files alone.  It returns [True] exactly when both keys are set and not
    empty, the client can be built and the service lists its indexes; it
    has then sent one request and printed the endpoint, the masked key,
    the number of indexes and one line for each index. *)
Theorem validate_connection_verdict
    (new_client : string -> string -> option exn)
    (list_indexes : string -> string -> ValidateConnection.listing) (p : proc) :
  exists ok p',
    ValidateConnection.validate_connection new_client list_indexes p = (Ret ok, p') /\
    files p' = files p /\
    (ok = true <-> exists e k names, lists_indexes new_client list_indexes p e k names) /\
    (forall e k names,
       lists_indexes new_client list_indexes p e k names ->
       calls p' = (calls p ++ ["list_indexes " +:+ e])%list /\
       stdout p' = (stdout p ++ preamble e k ++ index_report names)%list).
Proof. exact (connection_verdict new_client list_indexes p). Qed.

(** X6.  A failure inside the [try] block of [validate_connection] is
    reported under the heading of the class of the exception and the
    function returns [False].  When the client cannot be built the
    function has called nothing outside the process; when [list_indexes]
    raises, that one invocation of [list_indexes] is the only call the
    function has made: there is no second attempt in the script. *)
Theorem connection_failure_reported
    (new_client : string -> string -> option exn)
    (list_indexes : string -> string -> ValidateConnection.listing)
    (p : proc) (e k : string) :
  loaded p !! "SEARCH-ENDPOINT" = Some e ->
  loaded p !! "SEARCH-API-KEY" = Some k ->
  both_set p = true ->
  (forall ex, new_client e k = Some ex ->
     exists p' rest,
       ValidateConnection.validate_connection new_client list_indexes p = (Ret false, p') /\
       calls p' = calls p /\
       stdout p' = (stdout p ++ preamble e k ++ failure_heading ex :: rest)%list) /\
  (forall ex, new_client e k = None ->
     list_indexes e k = ValidateConnection.Failed ex ->
     exists p' rest,
       ValidateConnection.validate_connection new_client list_indexes p = (Ret false, p') /\
       calls p' = (calls p ++ ["list_indexes " +:+ e])%list /\
       stdout p' =
         (stdout p ++ preamble e k ++
          (LF +:+ "🔄 Testing connection...") :: failure_heading ex :: rest)%list).
Proof.
  intros He Hk Hb.
  rewrite (validate_connection_probes new_client list_indexes p e k He Hk Hb).
  rewrite probe_run. split.
  - intros ex ->.
    match goal with |- context [ValidateConnection.handler ex ?q] =>
      destruct (handler_run ex q) as [rest ->] end.
    eexists _, rest. split_and!; [reflexivity..|].
    cbn [stdout]. unfold preamble. rewrite <- !app_assoc. reflexivity.
  - intros ex -> ->.
    match goal with |- context [ValidateConnection.handler ex ?q] =>
      destruct (handler_run ex q) as [rest ->] end.
    eexists _, rest. split_and!; [reflexivity..|].
    cbn [stdout]. unfold preamble. rewrite <- !app_assoc. reflexivity.
Qed.

Lemma connection_failure_reported_witness :
  let p := start ∅ {[ ".env" := filled_env ]} in
  exists p' rest,
    ValidateConnection.validate_connection no_client_error forbidden p = (Ret false, p') /\
    calls p' = (calls p ++ ["list_indexes " +:+ "https://contoso.search.windows.net"])%list /\
    stdout p' =
      (stdout p ++ preamble "https://contoso.search.windows.net" "0123456789abcdef" ++
       (LF +:+ "🔄 Testing connection...") ::
       failure_heading (Exn HttpResponseError "(Forbidden) 403") :: rest)%list.
Proof.
  cbv zeta.
  exact (proj2 (connection_failure_reported no_client_error forbidden
                  (start ∅ {[ ".env" := filled_env ]})
                  "https://contoso.search.windows.net" "0123456789abcdef"
                  eq_refl eq_refl eq_refl)
           (Exn HttpResponseError "(Forbidden) 403") eq_refl eq_refl).
Defined.

(** ** The region tables *)

(** *** Occurrences *)

Lemma startswith_app (a b s : string) :
  Py.startswith (a +:+ b) s = true ->
  Py.startswith a s = true /\ Py.startswith b (Py.str_drop (String.length a) s) = true.
Proof.
  revert s. induction a as [|c a IH]; intros s H.
  - split; [destruct s; reflexivity|exact H].
  - rewrite append_cons in H. destruct s as [|d s]; [discriminate|].
    cbn [Py.startswith] in *. destruct (Ascii.eqb c d); [|discriminate].
    cbn [String.length Py.str_drop]. apply IH. exact H.
Qed.

Lemma str_in_drop (b s : string) (n : nat) :
  Py.str_in b (Py.str_drop n s) = true -> Py.str_in b s = true.
Proof.
  revert s. induction n as [|n IH]; intros s H; [exact H|].
  destruct s as [|c s]; [exact H|].
  cbn [Py.str_drop] in H. cbn [Py.str_in]. rewrite (IH s H). apply orb_true_r.
Qed.

Lemma startswith_in (b s : string) : Py.startswith b s = true -> Py.str_in b s = true.
Proof. intros H. destruct s; cbn [Py.str_in]; rewrite H; reflexivity. Qed.

Lemma str_in_app (a b s : string) :
  Py.str_in (a +:+ b) s = true -> Py.str_in a s = true /\ Py.str_in b s = true.
Proof.
  induction s as [|c s IH]; cbn [Py.str_in]; intros H.
  - rewrite orb_false_r in H. destruct (startswith_app a b _ H) as [Ha Hb].
    rewrite Ha. split; [reflexivity|].
    apply (str_in_drop b EmptyString (String.length a)), startswith_in, Hb.
  - apply orb_true_iff in H as [H|H].
    + destruct (startswith_app a b _ H) as [Ha Hb]. rewrite Ha. split; [reflexivity|].
      apply (str_in_drop b (String c s) (String.length a)), startswith_in, Hb.
    + destruct (IH H) as [Ha Hb]. rewrite Ha, Hb, !orb_true_r. split; reflexivity.
Qed.

Lemma first_mapped_some (supported : list string) (items : list (string * string))
    (region_lower mapped_region : string) :
  first_mapped supported items region_lower = Some mapped_region ->
  exists pattern,
    (pattern, mapped_region) ∈ items /\ overlaps pattern region_lower = true.
Proof.
  unfold overlaps.
  induction items as [|[pat m] rest IH]; cbn [first_mapped]; intros H; [discriminate|].
  destruct ((Py.str_in pat region_lower || Py.str_in region_lower pat)
            && Py.list_in m supported) eqn:Hc.
  - injection H as ->. apply andb_true_iff in Hc as [Hc _].
    exists pat. split; [apply list_elem_of_here|exact Hc].
  - destruct (IH H) as (pattern & Hin & Ho).
    exists pattern. split; [apply list_elem_of_further; exact Hin|exact Ho].
Qed.

(** X7.  [check_region_support] returns [True] exactly when the region is
    a name of the allow-list, or its lowered form contains a token of the
    mapping or occurs inside one.  The test on the mapped region never
    decides: every region of the mapping is in the allow-list. *)
Theorem region_support_decided (region : string) (p : proc) :
  fst (CheckAzureRegion.check_region_support region p) = Ret true <->
  region ∈ CheckAzureRegion.supported_regions \/
  exists pattern mapped_region,
    (pattern, mapped_region) ∈ CheckAzureRegion.region_mappings /\
    overlaps pattern (Py.str_lower region) = true.
Proof.
  rewrite check_region_support_run. cbn [fst]. split.
  - intros H. injection H as H. unfold supports, Py.list_in in H.
    apply orb_true_iff in H as [H|H].
    + left. apply bool_decide_eq_true in H. exact H.
    + right. apply bool_decide_eq_true in H. destruct H as [m Hm].
      destruct (first_mapped_some _ _ _ _ Hm) as (pattern & Hin & Ho).
      exists pattern, m. split; assumption.
  - intros [H|(pattern & m & Hin & Ho)]; f_equal.
    + unfold supports, Py.list_in. rewrite (bool_decide_eq_true_2 _ H). reflexivity.
    + apply (supports_by_mapping region pattern m Hin).
      unfold overlaps in Ho. apply orb_true_iff in Ho. exact Ho.
Qed.

Lemma region_support_decided_witness :
  fst (CheckAzureRegion.check_region_support "WestEurope" (start ∅ ∅)) = Ret true.
Proof.
  apply (proj2 (region_support_decided "WestEurope" (start ∅ ∅))).
  right. exists "westeurope", "West Europe".
  split; [do 3 apply list_elem_of_further; apply list_elem_of_here|reflexivity].
Defined.

(** X8.  The loop of [check_region.py] stops at the first pattern that
    occurs in the service name, so the entries "eastus2" and
    "southcentralus", each of which contains a pattern that stands before
    it, are never the one found: no service name is resolved to
    "East US 2" or to "South Central US".  Every other entry is found for
    its own token. *)
Theorem shadowed_patterns_never_found :
  (forall service_lower region,
     CheckRegion.found_region CheckRegion.region_patterns service_lower = Some region ->
     region ∉ shadowed) /\
  (forall token region,
     (token, region) ∈ CheckRegion.region_patterns ->
     region ∉ shadowed ->
     CheckRegion.found_region CheckRegion.region_patterns token = Some region).
Proof.
  split.
  - intros s region. unfold CheckRegion.region_patterns, shadowed.
    cbn [CheckRegion.found_region].
    repeat match goal with
    | |- context [if Py.str_in ?t s then _ else _] =>
        let H := fresh "H" in destruct (Py.str_in t s) eqn:H
    end; intros Heq; try discriminate Heq; injection Heq as <-;
    try (intros Hin; repeat (apply elem_of_cons in Hin as [Hin|Hin]; [discriminate Hin|]);
         inversion Hin; fail).
    + destruct (str_in_app "south" "centralus" s) as [_ Hc]; [assumption|]. congruence.
    + destruct (str_in_app "eastus" "2" s) as [Hc _]; [assumption|]. congruence.
  - intros token region Hin Hns. unfold CheckRegion.region_patterns in Hin.
    repeat (apply elem_of_cons in Hin as [Heq|Hin];
            [injection Heq as -> ->;
             first [reflexivity
                   | exfalso; apply Hns; unfold shadowed;
                     first [apply list_elem_of_here
                           | apply list_elem_of_further, list_elem_of_here]]|]).
    inversion Hin.
Qed.

Lemma shadowed_patterns_never_found_witness :
  CheckRegion.found_region CheckRegion.region_patterns "westus" = Some "West US".
Proof.
  apply (proj2 shadowed_patterns_never_found "westus" "West US").
  - do 9 apply list_elem_of_further. apply list_elem_of_here.
  - unfold shadowed. intros Hin.
    repeat (apply elem_of_cons in Hin as [Hin|Hin]; [discriminate Hin|]).
    inversion Hin.
Defined.

(** ** check_azure_region.py: the region read from the command line *)

Lemma truthy_nonempty (s : string) : s <> EmptyString -> Py.truthy s = true.
Proof. destruct s; [congruence|reflexivity]. Qed.

Lemma cli_run (subprocess_run : string -> CheckAzureRegion.run_reply) (p : proc) (e : string) :
  environ p !! "AZURE_OPENAI_ENDPOINT" = Some e ->
  e <> EmptyString ->
  let name := CheckAzureRegion.service_name e in
  let reply := subprocess_run (CheckAzureRegion.az_command name) in
  CheckAzureRegion.check_with_azure_cli subprocess_run p =
    (Ret (cli_region reply),
     Proc (environ p) (files p) (globals p)
       (stdout p ++ ["🔍 CHECKING REGION WITH AZURE CLI"; Py.str_mul "=" 50;
                     "Service Name: " +:+ name; cli_report reply])%list
       (calls p ++ [CheckAzureRegion.az_command name])%list).
Proof.
  intros He Hne name reply. subst name reply.
  unfold CheckAzureRegion.check_with_azure_cli, cli_region, cli_report.
  destruct p as [env fs gl out cs]. cbn [environ] in He. run_all.
  rewrite He. cbn [Py.truthy_opt]. rewrite (truthy_nonempty e Hne). run_all.
  destruct (subprocess_run _) as [rc out' err|ex]; run_all.
  - destruct (rc =? 0); run_all; rewrite <- !app_assoc; reflexivity.
  - rewrite <- !app_assoc; reflexivity.
Qed.

(** X9.  [check_with_azure_cli] never raises.  Without an endpoint it
    returns [None] and runs no command.  With one it runs a single [az]
    command for the service name and returns the output, stripped of its
    blanks, when the command exited with status 0, and [None] when it
    exited with another status or could not be run; its last line reports
    which of these happened. *)
Theorem cli_region_read (subprocess_run : string -> CheckAzureRegion.run_reply) (p : proc) :
  (Py.truthy_opt (environ p !! "AZURE_OPENAI_ENDPOINT") = false ->
   exists p',
     CheckAzureRegion.check_with_azure_cli subprocess_run p = (Ret None, p') /\
     calls p' = calls p /\
     last (stdout p') = Some "❌ AZURE_OPENAI_ENDPOINT not found") /\
  (forall e,
     environ p !! "AZURE_OPENAI_ENDPOINT" = Some e ->
     e <> EmptyString ->
     let cmd := CheckAzureRegion.az_command (CheckAzureRegion.service_name e) in
     exists p',
       CheckAzureRegion.check_with_azure_cli subprocess_run p =
         (Ret (cli_region (subprocess_run cmd)), p') /\
       calls p' = (calls p ++ [cmd])%list /\
       last (stdout p') = Some (cli_report (subprocess_run cmd))).
Proof.
  split.
  - intros Hf. unfold CheckAzureRegion.check_with_azure_cli.
    destruct p as [env fs gl out cs]. cbn [environ] in Hf. run_all.
    rewrite Hf. run_all. eexists. split_and!; [reflexivity..|].
    cbn [stdout]. rewrite last_snoc. reflexivity.
  - intros e He Hne cmd. subst cmd. rewrite (cli_run subprocess_run p e He Hne).
    eexists. split_and!; [reflexivity..|].
    cbn [stdout]. rewrite last_app_cons. reflexivity.
Qed.

Lemma cli_region_read_witness :
  let p := start {[ "AZURE_OPENAI_ENDPOINT" := Contoso.endpoint ]} ∅ in
  exists p',
    CheckAzureRegion.check_with_azure_cli az_says_france p = (Ret (Some "francecentral"), p') /\
    calls p' = (calls p ++ [CheckAzureRegion.az_command "contoso"])%list /\
    last (stdout p') = Some "✅ Region: francecentral".
Proof.
  cbv zeta.
  refine (proj2 (cli_region_read az_says_france
                   (start {[ "AZURE_OPENAI_ENDPOINT" := Contoso.endpoint ]} ∅))
            Contoso.endpoint eq_refl _).
  discriminate.
Defined.

Lemma european_options_run (q : proc) :
  CheckAzureRegion.show_european_options q =
    (Ret tt,
     Proc (environ q) (files q) (globals q) (stdout q ++ european_options)%list (calls q)).
Proof.
  unfold CheckAzureRegion.show_european_options, european_options, bullet.
  destruct q as [env fs gl out cs]. run_all. rewrite <- !app_assoc. reflexivity.
Qed.

(** X10.  When the command line names a region, [check_azure_region.py]
    prints the verdict of [check_region_support] for it, then the European
    options exactly when the region is not supported, then the closing
    lines; it has run one command. *)
Theorem detected_region_advice
    (subprocess_run : string -> CheckAzureRegion.run_reply) (p : proc) (e region : string) :
  reloaded p !! "AZURE_OPENAI_ENDPOINT" = Some e ->
  e <> EmptyString ->
  cli_region (subprocess_run (CheckAzureRegion.az_command (CheckAzureRegion.service_name e)))
    = Some region ->
  region <> EmptyString ->
  exists p',
    CheckAzureRegion.main subprocess_run p = (Ret tt, p') /\
    calls p' =
      (calls p ++ [CheckAzureRegion.az_command (CheckAzureRegion.service_name e)])%list /\
    stdout p' =
      (stdout p ++
       ["🚀 AZURE OPENAI REGION DETECTOR"; Py.str_mul "=" 60;
        "🔍 CHECKING REGION WITH AZURE CLI"; Py.str_mul "=" 50;
        "Service Name: " +:+ CheckAzureRegion.service_name e;
        "✅ Region: " +:+ region] ++
       region_verdict region ++
       (if supports region then [] else european_options) ++
       next_steps)%list.
Proof.
  intros He Hne Hr Hnr. unfold CheckAzureRegion.main.
  cbv beta iota zeta delta [mbind M_bind]. unfold bind at 1.
  rewrite load_dotenv_override. unfold bind at 1, print at 1. unfold bind at 1, print at 1.
  cbn [environ files globals stdout calls]. unfold bind at 1.
  rewrite (cli_run subprocess_run _ e) by assumption.
  cbn [environ files globals stdout calls]. rewrite Hr.
  assert (Hrep : cli_report (subprocess_run
                   (CheckAzureRegion.az_command (CheckAzureRegion.service_name e)))
                 = "✅ Region: " +:+ region).
  { unfold cli_region in Hr. unfold cli_report.
    destruct (subprocess_run _) as [rc out' err|ex]; [|discriminate].
    destruct (rc =? 0); [|discriminate]. injection Hr as ->. reflexivity. }
  rewrite Hrep. cbn [Py.truthy_opt]. rewrite (truthy_nonempty region Hnr).
  cbn [str_of]. unfold bind at 1. unfold bind at 1.
  rewrite check_region_support_run. cbn [environ files globals stdout calls].
  destruct (supports region); cbn [negb].
  - destruct p as [env fs gl out cs]. run_all. eexists. split_and!; [reflexivity..|].
    unfold region_verdict, next_steps. rewrite <- !app_assoc. reflexivity.
  - rewrite european_options_run.
    destruct p as [env fs gl out cs]. run_all. eexists. split_and!; [reflexivity..|].
    unfold region_verdict, next_steps. rewrite <- !app_assoc. reflexivity.
Qed.

Lemma detected_region_advice_witness :
  let p := start {[ "AZURE_OPENAI_ENDPOINT" := Contoso.endpoint ]} ∅ in
  exists p',
    CheckAzureRegion.main az_says_france p = (Ret tt, p') /\
    calls p' =
      (calls p ++ [CheckAzureRegion.az_command (CheckAzureRegion.service_name Contoso.endpoint)])%list /\
    stdout p' =
      (stdout p ++
       ["🚀 AZURE OPENAI REGION DETECTOR"; Py.str_mul "=" 60;
        "🔍 CHECKING REGION WITH AZURE CLI"; Py.str_mul "=" 50;
        "Service Name: " +:+ CheckAzureRegion.service_name Contoso.endpoint;
        "✅ Region: " +:+ "francecentral"] ++
       region_verdict "francecentral" ++
       (if supports "francecentral" then [] else european_options) ++
       next_steps)%list.
Proof.
  cbv zeta.
  refine (detected_region_advice az_says_france
            (start {[ "AZURE_OPENAI_ENDPOINT" := Contoso.endpoint ]} ∅)
            Contoso.endpoint "francecentral" eq_refl _ eq_refl _); discriminate.
Defined.

(** ** check_responses_api.py: the probe and the script *)

Section Probing.
Variable new_client : string -> option exn.
Variable responses_create : nat -> string -> string -> CheckResponsesApi.api_reply.

Lemma guidance_run (e : exn) (q : proc) :
  exists lines,
    CheckResponsesApi.guidance e q =
      (Ret false, Proc (environ q) (files q) (globals q) (stdout q ++ lines)%list (calls q)).
Proof.
  unfold CheckResponsesApi.guidance. destruct q as [env fs gl out cs]. run_all.
  destruct (Py.str_in "404" (exn_str e)); run_all;
    [eexists; rewrite <- ?app_assoc; reflexivity|].
  destruct (Py.str_in "401" (exn_str e)); run_all;
    [eexists; rewrite <- ?app_assoc; reflexivity|].
  destruct (Py.str_in "400" (exn_str e)); run_all;
    eexists; rewrite <- ?app_assoc; reflexivity.
Qed.

Lemma probe_verdict (p : proc) :
  exists ok p',
    CheckResponsesApi.test_responses_api_availability new_client responses_create p
      = (Ret ok, p') /\
    environ p' = environ p /\ files p' = files p /\
    (calls p' = calls p \/
     calls p' = (calls p ++ ["responses.create " +:+ answer_model p])%list) /\
    (ok = true <-> answered new_client responses_create p) /\
    ((forall endpoint, environ p !! "AZURE_OPENAI_ENDPOINT" = Some endpoint ->
        is_Some (new_client endpoint)) ->
     calls p' = calls p).
Proof.
  unfold CheckResponsesApi.test_responses_api_availability, answered, answer_model,
    api_version.
  destruct p as [env fs gl out cs]. run_all.
  destruct (env !! "AZURE_OPENAI_ENDPOINT") as [endpoint|] eqn:He; run_all.
  2: { match goal with |- context [CheckResponsesApi.guidance ?e ?q] =>
         destruct (guidance_run e q) as [lines ->] end.
       eexists _, _. split_and!; [reflexivity..|left; reflexivity| |reflexivity].
       split; [discriminate|]. intros (e' & t & H & _). discriminate. }
  destruct (new_client endpoint) as [ex|] eqn:Hn; run_all.
  { match goal with |- context [CheckResponsesApi.guidance ?e ?q] =>
      destruct (guidance_run e q) as [lines ->] end.
    eexists _, _. split_and!; [reflexivity..|left; reflexivity| |reflexivity].
    split; [discriminate|]. intros (e' & t & [= <-] & Hn' & _). congruence. }
  match goal with |- context [responses_create ?n ?m ?v] =>
    destruct (responses_create n m v) as [text|ex] eqn:Hr end; run_all.
  - eexists _, _. split_and!; [reflexivity..|right; reflexivity| |].
    + split; [|reflexivity]. intros _. exists endpoint, text. split_and!; done.
    + intros Hall. destruct (Hall endpoint eq_refl) as [ex Hex]. congruence.
  - match goal with |- context [CheckResponsesApi.guidance ?e ?q] =>
      destruct (guidance_run e q) as [lines ->] end.
    eexists _, _. split_and!; [reflexivity..|right; reflexivity| |].
    + split; [discriminate|]. intros (e' & t & [= <-] & _ & Hr'). congruence.
    + intros Hall. destruct (Hall endpoint eq_refl) as [ex' Hex]. congruence.
Qed.

End Probing.

(** X11.  [test_responses_api_availability] always returns a boolean.  It
    returns [True] exactly when the endpoint is set, the client can be
    built and [client.responses.create] returns a text.  The function
    invokes [client.responses.create] at most once and calls nothing else
    outside the process; it does not invoke it at all when the endpoint
    is not set or the client cannot be built. *)
Theorem responses_probe_verdict
    (new_client : string -> option exn)
    (responses_create : nat -> string -> string -> CheckResponsesApi.api_reply)
    (p : proc) :
  exists ok p',
    CheckResponsesApi.test_responses_api_availability new_client responses_create p
      = (Ret ok, p') /\
    (ok = true <-> answered new_client responses_create p) /\
    (calls p' = calls p \/
     calls p' = (calls p ++ ["responses.create " +:+ answer_model p])%list) /\
    ((forall endpoint, environ p !! "AZURE_OPENAI_ENDPOINT" = Some endpoint ->
        is_Some (new_client endpoint)) ->
     calls p' = calls p).
Proof.
  destruct (probe_verdict new_client responses_create p)
    as (ok & p' & Hrun & _ & _ & Hc & Hok & Hnone).
  exists ok, p'. split_and!; assumption.
Qed.

(** *** The service name can always be extracted *)

Lemma split_length (s : string) : length (Py.str_split "." s) = S (dots s).
Proof.
  induction s as [|c s IH]; [reflexivity|].
  cbn [Py.str_split dots]. destruct (Ascii.eqb c "."); cbn zeta.
  - cbn [length]. rewrite IH. reflexivity.
  - destruct (Py.str_split "." s) as [|h t]; [discriminate IH|exact IH].
Qed.

Lemma dots_startswith (needle hay : string) :
  Py.startswith needle hay = true -> (dots needle <= dots hay)%nat.
Proof.
  revert hay. induction needle as [|a needle IH]; intros hay H; [cbn; lia|].
  destruct hay as [|b hay]; [discriminate|]. cbn [Py.startswith] in H.
  destruct (Ascii.eqb a b) eqn:Hab; [|discriminate].
  apply Ascii.eqb_eq in Hab as ->. specialize (IH hay H).
  cbn [dots]. destruct (Ascii.eqb b "."); lia.
Qed.

Lemma dots_in (needle hay : string) :
  Py.str_in needle hay = true -> (dots needle <= dots hay)%nat.
Proof.
  induction hay as [|b hay IH]; cbn [Py.str_in]; intros H.
  - rewrite orb_false_r in H. apply (dots_startswith _ _ H).
  - apply orb_true_iff in H as [H|H]; [apply (dots_startswith _ _ H)|].
    specialize (IH H). cbn [dots]. destruct (Ascii.eqb b "."); lia.
Qed.

(** Removing the scheme removes no full stop: [skip] characters of an
    occurrence of the scheme are still to be dropped, and the string goes
    on with them. *)
Lemma dots_replace_scheme (s : string) (skip : nat) :
  (skip <= 7)%nat ->
  Py.startswith (Py.str_drop (8 - skip) "https://") s = true ->
  dots (Py.replace_from "https://" "" skip s) = dots s.
Proof.
  revert skip. induction s as [|c s IH]; intros skip Hle H; [reflexivity|].
  cbn [Py.replace_from].
  destruct skip as [|k].
  - destruct (Py.startswith "https://" (String c s)) eqn:Hs.
    + cbn [Py.startswith] in Hs. destruct (Ascii.eqb "h" c) eqn:Hc; [|discriminate].
      apply Ascii.eqb_eq in Hc as <-.
      change ("" +:+ ?x) with x. cbn [String.length Nat.pred dots Ascii.eqb Bool.eqb].
      apply (IH 7%nat); [lia|exact Hs].
    + cbn [dots]. rewrite (IH 0%nat); [reflexivity|lia|destruct s; reflexivity].
  - do 7 (destruct k as [|k];
          [cbn [Py.startswith Py.str_drop Nat.sub] in H; match type of H with
           | (if Ascii.eqb ?a c then _ else _) = true =>
               destruct (Ascii.eqb a c) eqn:Hc; [|discriminate];
               apply Ascii.eqb_eq in Hc as <-
           end;
           cbn [dots Ascii.eqb Bool.eqb];
           apply IH; [lia|first [exact H|destruct s; reflexivity]]|]).
    lia.
Qed.

Lemma service_parts (endpoint : string) :
  Py.str_in "openai.azure.com" endpoint = true ->
  (2 <=? Z.of_nat (length (Py.str_split "." (Py.str_replace "https://" "" endpoint)))) = true.
Proof.
  intros H. apply Z.leb_le. rewrite split_length. unfold Py.str_replace.
  rewrite dots_replace_scheme; [|lia|destruct endpoint; reflexivity].
  pose proof (dots_in _ _ H) as Hd. cbn in Hd. lia.
Qed.

(** X12.  For an endpoint that contains "openai.azure.com",
    [check_azure_openai_service] always prints the service name: the
    endpoint contains a full stop, removing the scheme removes none, so
    the split has at least two parts and the branch that warns that the
    name could not be extracted is never taken. *)
Theorem service_name_always_extracted (p : proc) (endpoint : string) :
  environ p !! "AZURE_OPENAI_ENDPOINT" = Some endpoint ->
  Py.str_in "openai.azure.com" endpoint = true ->
  exists p',
    CheckResponsesApi.check_azure_openai_service p = (Ret true, p') /\
    calls p' = calls p /\
    stdout p' = (stdout p ++ service_report p endpoint)%list.
Proof.
  intros He Ho. unfold CheckResponsesApi.check_azure_openai_service, service_report,
    api_version, CheckAzureRegion.service_name.
  destruct p as [env fs gl out cs]. cbn [environ] in He. run_all. rewrite He.
  assert (Ht : Py.truthy endpoint = true) by (destruct endpoint; [discriminate Ho|reflexivity]).
  cbn [Py.truthy_opt]. rewrite Ht. run_all. rewrite Ho. run_all.
  rewrite (service_parts endpoint Ho). run_all.
  eexists. split_and!; [reflexivity..|]. rewrite <- !app_assoc. reflexivity.
Qed.

Lemma service_name_always_extracted_witness :
  let p := start {[ "AZURE_OPENAI_ENDPOINT" := Contoso.endpoint ]} ∅ in
  exists p',
    CheckResponsesApi.check_azure_openai_service p = (Ret true, p') /\
    calls p' = calls p /\
    stdout p' = (stdout p ++ service_report p Contoso.endpoint)%list.
Proof.
  cbv zeta.
  exact (service_name_always_extracted
           (start {[ "AZURE_OPENAI_ENDPOINT" := Contoso.endpoint ]} ∅)
           Contoso.endpoint eq_refl eq_refl).
Defined.

(** *** The script *)

Lemma service_unset (p : proc) :
  Py.truthy_opt (environ p !! "AZURE_OPENAI_ENDPOINT") = false ->
  CheckResponsesApi.check_azure_openai_service p =
    (Ret false,
     Proc (environ p) (files p) (globals p)
       (stdout p ++ ["🔍 DIAGNOSING AZURE OPENAI SERVICE"; Py.str_mul "=" 50;
                     "❌ AZURE_OPENAI_ENDPOINT not found in .env file"])%list
       (calls p)).
Proof.
  intros H. unfold CheckResponsesApi.check_azure_openai_service.
  destruct p as [env fs gl out cs]. cbn [environ] in H. run_all. rewrite H. run_all.
  rewrite <- !app_assoc. reflexivity.
Qed.

(** X13.  [check_responses_api.py] always ends normally, writes no file
    and makes at most one call outside the process, the invocation of
    [client.responses.create] of its probe.  Without an endpoint, or with
    an empty one, it stops after the line that says so: it makes no call
    and prints no summary. *)
Theorem responses_diagnostic_requests
    (new_client : string -> option exn)
    (responses_create : nat -> string -> string -> CheckResponsesApi.api_reply)
    (p : proc) :
  exists p',
    CheckResponsesApi.main new_client responses_create p = (Ret tt, p') /\
    files p' = files p /\
    (length (calls p') <= length (calls p) + 1)%nat /\
    (Py.truthy_opt (reloaded p !! "AZURE_OPENAI_ENDPOINT") = false ->
     calls p' = calls p /\
     stdout p' =
       (stdout p ++
        ["🚀 AZURE OPENAI RESPONSES API DIAGNOSTIC"; Py.str_mul "=" 60;
         "🔍 DIAGNOSING AZURE OPENAI SERVICE"; Py.str_mul "=" 50;
         "❌ AZURE_OPENAI_ENDPOINT not found in .env file"])%list).
Proof.
  unfold CheckResponsesApi.main.
  cbv beta iota zeta delta [mbind M_bind]. unfold bind at 1.
  rewrite load_dotenv_override. unfold bind at 1, print at 1. unfold bind at 1, print at 1.
  cbn [environ files globals stdout calls]. unfold bind at 1.
  destruct (Py.truthy_opt (reloaded p !! "AZURE_OPENAI_ENDPOINT")) eqn:Ht.
  - destruct (reloaded p !! "AZURE_OPENAI_ENDPOINT") as [endpoint|] eqn:He; [|discriminate].
    match goal with |- context [CheckResponsesApi.check_azure_openai_service ?q] =>
      destruct (check_azure_openai_service_run q endpoint He Ht) as [lines ->] end.
    cbn [negb]. unfold bind at 1.
    match goal with
    | |- context [CheckResponsesApi.test_responses_api_availability _ _ ?q] =>
        destruct (probe_verdict new_client responses_create q)
          as (ok & q' & -> & _ & Hf & Hc & _)
    end.
    cbn [files calls] in Hf, Hc.
    assert (Hlen : (length (calls q') <= length (calls p) + 1)%nat).
    { destruct Hc as [->| ->]; [lia|]. rewrite length_app. cbn. lia. }
    unfold CheckResponsesApi.check_alternative_solutions.
    destruct q' as [env' fs' gl' out' cs']. cbn [files calls] in *.
    destruct ok; run_all; eexists; (split_and!; [reflexivity|exact Hf|exact Hlen|]);
      discriminate.
  - rewrite service_unset by exact Ht. cbn [negb].
    cbv beta iota zeta delta [mret M_ret ret negb].
    eexists. split_and!; [reflexivity|reflexivity|cbn [calls]; lia|].
    intros _. split; [reflexivity|]. cbn [stdout]. rewrite <- !app_assoc. reflexivity.
Qed.

(** ** Endpoints, masked keys and a second run of the set-up script *)

(** *** The service name of an endpoint *)

Lemma replace_absent (old new s : string) :
  Py.str_in old s = false -> Py.replace_from old new 0 s = s.
Proof.
  induction s as [|c s IH]; [reflexivity|].
  cbn [Py.str_in Py.replace_from]. intros H. apply orb_false_iff in H as [Hs Hin].
  rewrite Hs. f_equal. apply IH. exact Hin.
Qed.

Lemma first_label (name rest : string) :
  Py.str_in "." name = false ->
  Py.first_part (Py.str_split "." (name +:+ "." +:+ rest)) = name.
Proof.
  induction name as [|c name IH]; intros H; [reflexivity|].
  cbn [Py.str_in Py.startswith] in H. apply orb_false_iff in H as [Hc Hin].
  rewrite append_cons. cbn [Py.str_split].
  assert (Hne : Ascii.eqb c "." = false).
  { rewrite Ascii.eqb_sym. destruct (Ascii.eqb "." c); [|reflexivity].
    destruct name; discriminate Hc. }
  rewrite Hne. cbn zeta. specialize (IH Hin).
  destruct (Py.str_split "." (name +:+ "." +:+ rest)) as [|h t]; cbn [Py.first_part] in *;
    congruence.
Qed.

(** X14.  For an endpoint made of the scheme, a name without a full stop
    and a domain, where the scheme does not occur a second time, the
    service name the region scripts derive is that name. *)
Theorem service_name_is_first_label (name domain : string) :
  Py.str_in "." name = false ->
  Py.str_in "https://" (name +:+ "." +:+ domain) = false ->
  CheckAzureRegion.service_name (endpoint_of name domain) = name.
Proof.
  intros Hdot Hscheme. unfold CheckAzureRegion.service_name, endpoint_of, Py.str_replace.
  change (Py.replace_from "https://" "" 0 ("https://" +:+ name +:+ "." +:+ domain))
    with (Py.replace_from "https://" "" 0 (name +:+ "." +:+ domain)).
  rewrite (replace_absent _ _ _ Hscheme). apply first_label. exact Hdot.
Qed.

Lemma service_name_is_first_label_witness :
  CheckAzureRegion.service_name (endpoint_of "kor-ai-hub-3" "openai.azure.com") = "kor-ai-hub-3".
Proof.
  apply (service_name_is_first_label "kor-ai-hub-3" "openai.azure.com"); reflexivity.
Defined.

(** *** The length of the masked key *)

Lemma length_append (s t : string) :
  String.length (s +:+ t) = (String.length s + String.length t)%nat.
Proof. induction s as [|c s IH]; [reflexivity|]. rewrite append_cons. cbn. lia. Qed.

Lemma length_stars (c : ascii) (n : nat) :
  String.length (string_of_list_ascii (repeat c n)) = n.
Proof. induction n as [|n IH]; [reflexivity|]. cbn. lia. Qed.

(** X15.  The masked key has the length of the key. *)
Theorem masked_keeps_length (k : string) :
  Py.len (SetupEnvironment.masked k) = Py.len k.
Proof.
  unfold Py.len. f_equal. rewrite masked_split. cbv zeta.
  rewrite length_append, length_stars, length_drop. lia.
Qed.

(** *** Running the set-up script again *)

(** X16.  Running the set-up script a second time changes no file, and a
    run never touches a [.env] that is already there. *)
Theorem setup_runs_once (os_error : option string) (p : proc) :
  exists p1 p2,
    SetupEnvironment.main os_error p = (Ret tt, p1) /\
    SetupEnvironment.main os_error p1 = (Ret tt, p2) /\
    files p2 = files p1 /\
    (forall b, files p !! ".env" = Some b -> files p1 = files p).
Proof.
  destruct (setup_main_run os_error p) as (p1 & H1 & _ & Hf1).
  destruct (setup_main_run os_error p1) as (p2 & H2 & _ & Hf2).
  exists p1, p2. split_and!; [exact H1|exact H2| |].
  - rewrite Hf2. unfold setup_files. rewrite Hf1. unfold setup_files.
    destruct (files p !! "azure-search-quickstart.ipynb") as [n|] eqn:Hn.
    2: { rewrite Hn. reflexivity. }
    destruct (files p !! ".env") as [b|] eqn:Hb.
    { rewrite Hn, Hb. reflexivity. }
    destruct (files p !! "sample.env") as [c|] eqn:Hs.
    2: { rewrite Hn, Hb, Hs. reflexivity. }
    destruct os_error as [e|].
    { rewrite Hn, Hb, Hs. reflexivity. }
    rewrite lookup_insert_ne by discriminate. rewrite Hn.
    rewrite lookup_insert_eq. reflexivity.
  - intros b Hb. rewrite Hf1. unfold setup_files. rewrite Hb.
    destruct (files p !! "azure-search-quickstart.ipynb"); reflexivity.
Qed.

(** ** fix_responses_api.py and fix_notebook.py *)

(** The lines printed end with [tail]. *)
Ltac ends_with_tail :=
  rewrite <- ?app_assoc; cbn [app];
  repeat first [reflexivity | apply suffix_app_r | apply suffix_cons_r].

Ltac globals_lookup :=
  repeat first
    [ rewrite lookup_insert_eq
    | rewrite lookup_insert_ne by discriminate ].


Section FixScripts.
Variable new_client : string -> option exn.
Variable responses_create : string -> CheckResponsesApi.api_reply.
Variable chat_create : string -> FixResponsesApi.chat_reply.

Lemma fix_responses_module_level (p : proc) (endpoint : string) :
  reloaded p !! "AZURE_OPENAI_ENDPOINT" = Some endpoint ->
  new_client endpoint = None ->
  FixResponsesApi.module_level new_client p =
    (Ret tt, configured "2025-03-01-preview" p endpoint).
Proof.
  intros He Hn. unfold FixResponsesApi.module_level, configured, model_of.
  cbv beta iota zeta delta [mbind M_bind]. unfold bind at 1. rewrite load_dotenv_override.
  set (env := reloaded p) in *. destruct p as [env0 fs gl out cs].
  cbn [files globals stdout calls]. run_all. rewrite He. run_all. rewrite Hn. reflexivity.
Qed.

Lemma fix_notebook_module_level (p : proc) (endpoint : string) :
  reloaded p !! "AZURE_OPENAI_ENDPOINT" = Some endpoint ->
  new_client endpoint = None ->
  FixNotebook.module_level new_client p =
    (Ret tt, configured "2025-05-01-Preview" p endpoint).
Proof.
  intros He Hn. unfold FixNotebook.module_level, configured, model_of.
  cbv beta iota zeta delta [mbind M_bind]. unfold bind at 1. rewrite load_dotenv_override.
  set (env := reloaded p) in *. destruct p as [env0 fs gl out cs].
  cbn [files globals stdout calls]. run_all. rewrite He. run_all. rewrite Hn. reflexivity.
Qed.

Lemma module_level_unset (p : proc) :
  reloaded p !! "AZURE_OPENAI_ENDPOINT" = None ->
  FixResponsesApi.module_level new_client p =
    (Raise (Exn KeyError "'AZURE_OPENAI_ENDPOINT'"),
     Proc (reloaded p) (files p) (globals p) (stdout p) (calls p)) /\
  FixNotebook.module_level new_client p =
    (Raise (Exn KeyError "'AZURE_OPENAI_ENDPOINT'"),
     Proc (reloaded p) (files p) (globals p) (stdout p) (calls p)).
Proof.
  intros He. split.
  - unfold FixResponsesApi.module_level.
    cbv beta iota zeta delta [mbind M_bind]. unfold bind at 1. rewrite load_dotenv_override.
    set (env := reloaded p) in *. destruct p as [env0 fs gl out cs].
    cbn [files globals stdout calls]. run_all. rewrite He. reflexivity.
  - unfold FixNotebook.module_level.
    cbv beta iota zeta delta [mbind M_bind]. unfold bind at 1. rewrite load_dotenv_override.
    set (env := reloaded p) in *. destruct p as [env0 fs gl out cs].
    cbn [files globals stdout calls]. run_all. rewrite He. reflexivity.
Qed.

Lemma fix_responses_main (version : string) (p : proc) (endpoint : string) :
  let model := model_of (reloaded p) in
  exists p',
    FixResponsesApi.main responses_create chat_create (configured version p endpoint)
      = (Ret tt, p') /\
    calls p' = (calls p ++ fallback_requests model (responses_create model))%list /\
    recommendation `suffix_of` stdout p'.
Proof.
  intros model. subst model.
  unfold FixResponsesApi.main, FixResponsesApi.try_responses_api,
    FixResponsesApi.use_chat_completions_api, configured, fallback_requests, recommendation.
  set (env := reloaded p). destruct p as [env0 fs gl out cs].
  cbn [files globals stdout calls]. run_all. globals_lookup. run_all.
  destruct (responses_create (model_of env)) as [text|ex]; run_all.
  { eexists. split_and!; [reflexivity..|]. cbn [stdout]. ends_with_tail. }
  globals_lookup. run_all.
  destruct (chat_create (model_of env)) as [[|content rest]|ex']; run_all;
    (eexists; split_and!;
     [reflexivity|cbn [calls]; rewrite <- !app_assoc; reflexivity
     |cbn [stdout]; ends_with_tail]).
Qed.

Lemma fix_notebook_main (version : string) (p : proc) (endpoint : string) :
  let model := model_of (reloaded p) in
  exists p',
    FixNotebook.main responses_create chat_create (configured version p endpoint)
      = (Ret tt, p') /\
    calls p' =
      (calls p ++ ["responses.create " +:+ model; "chat.completions.create " +:+ model])%list /\
    last (stdout p') = Some (solution_line (chat_content (chat_create model))).
Proof.
  intros model. subst model.
  unfold FixNotebook.main, FixNotebook.test_responses_api,
    FixNotebook.test_chat_completions_api, configured, solution_line, chat_content.
  set (env := reloaded p). destruct p as [env0 fs gl out cs].
  cbn [files globals stdout calls]. run_all. globals_lookup. run_all.
  destruct (responses_create (model_of env)) as [text|ex]; run_all;
    globals_lookup; run_all;
    (destruct (chat_create (model_of env)) as [[|[[|c content]|] rest]|ex']; run_all;
     cbn [Py.truthy_opt Py.truthy]; run_all;
     (eexists; split_and!;
      [reflexivity|cbn [calls]; rewrite <- !app_assoc; reflexivity
      |cbn [stdout]; rewrite last_snoc; reflexivity])).
Qed.

End FixScripts.

(** X17.  With the endpoint set and the client built, [fix_responses_api.py]
    ends normally.  It asks the Responses API once, and the Chat
    Completions API once more exactly when that request failed; the
    recommendation closes the output in every case. *)
Theorem fallback_only_on_failure
    (new_client : string -> option exn)
    (responses_create : string -> CheckResponsesApi.api_reply)
    (chat_create : string -> FixResponsesApi.chat_reply)
    (p : proc) (endpoint : string) :
  reloaded p !! "AZURE_OPENAI_ENDPOINT" = Some endpoint ->
  new_client endpoint = None ->
  let model := model_of (reloaded p) in
  exists p',
    FixResponsesApi.script new_client responses_create chat_create p = (Ret tt, p') /\
    calls p' = (calls p ++ fallback_requests model (responses_create model))%list /\
    recommendation `suffix_of` stdout p'.
Proof.
  intros He Hn model. unfold FixResponsesApi.script, mbind, M_bind, bind.
  rewrite (fix_responses_module_level new_client p endpoint He Hn).
  apply fix_responses_main.
Qed.

Lemma fallback_only_on_failure_witness :
  let p := start {[ "AZURE_OPENAI_ENDPOINT" := Contoso.endpoint ]} ∅ in
  (exists p',
     FixResponsesApi.script any_client greets chat_greets p = (Ret tt, p') /\
     calls p' = (calls p ++ ["responses.create gpt-4o"])%list /\
     recommendation `suffix_of` stdout p') /\
  (exists p',
     FixResponsesApi.script any_client not_found chat_greets p = (Ret tt, p') /\
     calls p' = (calls p ++ ["responses.create gpt-4o"; "chat.completions.create gpt-4o"])%list /\
     recommendation `suffix_of` stdout p').
Proof.
  cbv zeta. split.
  - exact (fallback_only_on_failure any_client greets chat_greets
             (start {[ "AZURE_OPENAI_ENDPOINT" := Contoso.endpoint ]} ∅)
             Contoso.endpoint eq_refl eq_refl).
  - exact (fallback_only_on_failure any_client not_found chat_greets
             (start {[ "AZURE_OPENAI_ENDPOINT" := Contoso.endpoint ]} ∅)
             Contoso.endpoint eq_refl eq_refl).
Defined.

(** X18.  The two fix scripts read the endpoint with [os.environ[...]] at
    module level and outside any [try]: without AZURE_OPENAI_ENDPOINT both
    end on a [KeyError] before they print a line or send a request. *)
Theorem fix_scripts_need_endpoint
    (new_client : string -> option exn)
    (responses_create : string -> CheckResponsesApi.api_reply)
    (chat_create : string -> FixResponsesApi.chat_reply) (p : proc) :
  reloaded p !! "AZURE_OPENAI_ENDPOINT" = None ->
  exists p1 p2,
    FixResponsesApi.script new_client responses_create chat_create p
      = (Raise (Exn KeyError "'AZURE_OPENAI_ENDPOINT'"), p1) /\
    FixNotebook.script new_client responses_create chat_create p
      = (Raise (Exn KeyError "'AZURE_OPENAI_ENDPOINT'"), p2) /\
    stdout p1 = stdout p /\ calls p1 = calls p /\
    stdout p2 = stdout p /\ calls p2 = calls p.
Proof.
  intros He. destruct (module_level_unset new_client p He) as [H1 H2].
  unfold FixResponsesApi.script, FixNotebook.script, mbind, M_bind, bind.
  rewrite H1, H2. eexists _, _. split_and!; reflexivity.
Qed.

Lemma fix_scripts_need_endpoint_witness :
  let p := start {[ "ANSWER_MODEL" := "gpt-4o-mini" ]} ∅ in
  exists p1 p2,
    FixResponsesApi.script any_client greets chat_greets p
      = (Raise (Exn KeyError "'AZURE_OPENAI_ENDPOINT'"), p1) /\
    FixNotebook.script any_client greets chat_greets p
      = (Raise (Exn KeyError "'AZURE_OPENAI_ENDPOINT'"), p2) /\
    stdout p1 = stdout p /\ calls p1 = calls p /\
    stdout p2 = stdout p /\ calls p2 = calls p.
Proof.
  cbv zeta.
  exact (fix_scripts_need_endpoint any_client greets chat_greets
           (start {[ "ANSWER_MODEL" := "gpt-4o-mini" ]} ∅) eq_refl).
Defined.

(** X19.  With the endpoint set and the client built, [fix_notebook.py]
    ends normally and asks both APIs, once each and in that order,
    whatever the first one answers.  Its last line depends on the answer
    of the chat API alone: the sample response, cut to a hundred
    characters, when the first choice has a non-empty content, and the
    line that says both APIs failed otherwise. *)
Theorem both_apis_tested
    (new_client : string -> option exn)
    (responses_create : string -> CheckResponsesApi.api_reply)
    (chat_create : string -> FixResponsesApi.chat_reply)
    (p : proc) (endpoint : string) :
  reloaded p !! "AZURE_OPENAI_ENDPOINT" = Some endpoint ->
  new_client endpoint = None ->
  let model := model_of (reloaded p) in
  exists p',
    FixNotebook.script new_client responses_create chat_create p = (Ret tt, p') /\
    calls p' =
      (calls p ++ ["responses.create " +:+ model; "chat.completions.create " +:+ model])%list /\
    last (stdout p') = Some (solution_line (chat_content (chat_create model))).
Proof.
  intros He Hn model. unfold FixNotebook.script, mbind, M_bind, bind.
  rewrite (fix_notebook_module_level new_client p endpoint He Hn).
  apply fix_notebook_main.
Qed.

Lemma both_apis_tested_witness :
  let p := start {[ "AZURE_OPENAI_ENDPOINT" := Contoso.endpoint ]} ∅ in
  exists p',
    FixNotebook.script any_client greets answers_nothing p = (Ret tt, p') /\
    calls p' =
      (calls p ++ ["responses.create " +:+ "gpt-4o"; "chat.completions.create " +:+ "gpt-4o"])%list /\
    last (stdout p') = Some "❌ Both APIs failed. Check your configuration.".
Proof.
  cbv zeta.
  exact (both_apis_tested any_client greets answers_nothing
           (start {[ "AZURE_OPENAI_ENDPOINT" := Contoso.endpoint ]} ∅)
           Contoso.endpoint eq_refl eq_refl).
Defined.

(** ** validate_search_service_access.py and the access token *)

Lemma load_dotenv_keep (p : proc) :
  load_dotenv false p =
    (Ret tt, Proc (loaded p) (files p) (globals p) (stdout p) (calls p)).
Proof.
  unfold load_dotenv, loaded. destruct (files p !! ".env"); [reflexivity|].
  rewrite proc_eta. reflexivity.
Qed.


Ltac run_quiet :=
  cbv beta iota zeta delta
    [mbind M_bind mret M_ret bind ret throw raise sys_exit try_except print
     call_out calls_made getenv getenv_default environ_item path_exists
     shutil_copy assign global CheckAdlsPermissions.sdk
     environ files globals stdout calls fst snd negb andb orb].

(** X20.  [validate_search_service_access.py] reads the endpoint from
    AZURE_SEARCH_SERVICE.  When that variable is not set, or empty, the
    script ends with status 1 before any operation, and its last line
    names the variable AZURE_SEARCH_SERVICE_ENDPOINT, which it never
    reads. *)
Theorem search_service_variable
    (raises : list string -> string -> option exn) (indexes : list string)
    (message : exn -> string) (p : proc) :
  Py.truthy_opt (loaded p !! "AZURE_SEARCH_SERVICE") = false ->
  exists p',
    ValidateSearchServiceAccess.script raises indexes message p = (Exit 1, p') /\
    calls p' = calls p /\
    last (stdout p') =
      Some "ERROR: AZURE_SEARCH_SERVICE_ENDPOINT is not set in the .env file.".
Proof.
  intros Hf. unfold ValidateSearchServiceAccess.script.
  cbv beta iota zeta delta [mbind M_bind]. unfold bind at 1. rewrite load_dotenv_keep.
  set (env := loaded p) in *. destruct p as [env0 fs gl out cs].
  cbn [files globals stdout calls]. run_quiet. rewrite Hf. run_quiet.
  eexists. split_and!; [reflexivity..|]. cbn [stdout]. rewrite last_snoc. reflexivity.
Qed.

Lemma search_service_variable_witness :
  let p := start endpoint_named_env ∅ in
  loaded p !! "AZURE_SEARCH_SERVICE_ENDPOINT" = Some "https://contoso.search.windows.net" /\
  exists p',
    ValidateSearchServiceAccess.script no_failure ["hotels"] plain_message p = (Exit 1, p') /\
    calls p' = calls p /\
    last (stdout p') =
      Some "ERROR: AZURE_SEARCH_SERVICE_ENDPOINT is not set in the .env file.".
Proof.
  cbv zeta. split; [reflexivity|].
  exact (search_service_variable no_failure ["hotels"] plain_message
           (start endpoint_named_env ∅) eq_refl).
Defined.

(** X21.  With AZURE_SEARCH_SERVICE set and the credential built,
    [validate_search_service_access.py] ends normally whatever the later
    operations raise.  When none raises, it has built the client, listed
    the indexes and, exactly when AZURE_SEARCH_INDEX_NAME is set and not
    empty, fetched that index; its last line says the validation
    succeeded. *)
Theorem search_access_validated
    (raises : list string -> string -> option exn) (indexes : list string)
    (message : exn -> string) (p : proc) (endpoint : string) :
  loaded p !! "AZURE_SEARCH_SERVICE" = Some endpoint ->
  endpoint <> EmptyString ->
  raises (calls p) "DefaultAzureCredential" = None ->
  exists p',
    ValidateSearchServiceAccess.script raises indexes message p = (Ret tt, p') /\
    ((forall done what,
        what ∈ search_operations endpoint (loaded p !! "AZURE_SEARCH_INDEX_NAME") ->
        raises done what = None) ->
     calls p' =
       (calls p ++ search_operations endpoint (loaded p !! "AZURE_SEARCH_INDEX_NAME"))%list /\
     last (stdout p') =
       Some "Validation successful: Access to Azure AI Search service is working!").
Proof.
  intros He Hne Hcred. unfold ValidateSearchServiceAccess.script, search_operations.
  cbv beta iota zeta delta [mbind M_bind]. unfold bind at 1. rewrite load_dotenv_keep.
  set (env := loaded p) in *. destruct p as [env0 fs gl out cs].
  cbn [files globals stdout calls] in *. run_quiet. rewrite He.
  assert (Ht : Py.truthy endpoint = true) by (destruct endpoint; [congruence|reflexivity]).
  cbn [Py.truthy_opt]. rewrite Ht. run_quiet. rewrite Hcred. run_quiet.
  cbn [str_of].
  destruct (raises (cs ++ ["DefaultAzureCredential"])%list ("SearchIndexClient " +:+ endpoint))
    as [ex|] eqn:H1; run_quiet.
  { unfold ValidateSearchServiceAccess.handler. destruct (exn_cls ex); run_quiet;
      (eexists; split; [reflexivity|]); intros Hok; rewrite Hok in H1;
      first [discriminate H1 | apply list_elem_of_further, list_elem_of_here]. }
  match goal with |- context [raises ?done "list_indexes"] =>
    destruct (raises done "list_indexes") as [ex|] eqn:H2 end; run_quiet.
  { unfold ValidateSearchServiceAccess.handler. destruct (exn_cls ex); run_quiet;
      (eexists; split; [reflexivity|]); intros Hok; rewrite Hok in H2;
      first [discriminate H2
            | do 2 apply list_elem_of_further; apply list_elem_of_here]. }
  rewrite (for_each_lines _ (fun name => " - " +:+ name)) by (intros; reflexivity).
  run_quiet.
  destruct (env !! "AZURE_SEARCH_INDEX_NAME") as [name|] eqn:Hname;
    cbn [Py.truthy_opt]; [destruct (Py.truthy name) eqn:Htn|]; run_quiet.
  - cbn [str_of].
    match goal with |- context [raises ?done ("get_index " +:+ name)] =>
      destruct (raises done ("get_index " +:+ name)) as [ex|] eqn:H3 end; run_quiet.
    { unfold ValidateSearchServiceAccess.handler. destruct (exn_cls ex); run_quiet;
        (eexists; split; [reflexivity|]); intros Hok; rewrite Hok in H3;
        first [discriminate H3
              | do 3 apply list_elem_of_further; apply list_elem_of_here]. }
    eexists. split; [reflexivity|]. intros _. cbn [calls stdout].
    split; [rewrite <- !app_assoc; reflexivity|rewrite last_snoc; reflexivity].
  - eexists. split; [reflexivity|]. intros _. cbn [calls stdout].
    split; [rewrite <- !app_assoc, app_nil_r; reflexivity|rewrite last_snoc; reflexivity].
  - eexists. split; [reflexivity|]. intros _. cbn [calls stdout].
    split; [rewrite <- !app_assoc, app_nil_r; reflexivity|rewrite last_snoc; reflexivity].
Qed.

Lemma search_access_validated_witness :
  let p := start {[ "AZURE_SEARCH_SERVICE" := "https://contoso.search.windows.net" ]} ∅ in
  exists p',
    ValidateSearchServiceAccess.script no_failure ["hotels"] plain_message p = (Ret tt, p') /\
    calls p' =
      ["DefaultAzureCredential"; "SearchIndexClient https://contoso.search.windows.net";
       "list_indexes"] /\
    last (stdout p') =
      Some "Validation successful: Access to Azure AI Search service is working!".
Proof.
  cbv zeta.
  destruct (search_access_validated no_failure ["hotels"] plain_message
              (start {[ "AZURE_SEARCH_SERVICE" := "https://contoso.search.windows.net" ]} ∅)
              "https://contoso.search.windows.net")
    as (p' & Hrun & Hok); [reflexivity|discriminate|reflexivity|].
  exists p'. split; [exact Hrun|]. apply Hok. intros done what _. reflexivity.
Defined.

(** *** The payload of an access token *)

Lemma split_label (name rest : string) :
  Py.str_in "." name = false ->
  Py.str_split "." (name +:+ "." +:+ rest) = name :: Py.str_split "." rest.
Proof.
  induction name as [|c name IH]; intros H; [reflexivity|].
  cbn [Py.str_in Py.startswith] in H. apply orb_false_iff in H as [Hc Hin].
  rewrite append_cons. cbn [Py.str_split].
  assert (Hne : Ascii.eqb c "." = false).
  { rewrite Ascii.eqb_sym. destruct (Ascii.eqb "." c); [|reflexivity].
    destruct name; discriminate Hc. }
  rewrite Hne. cbn zeta. rewrite (IH Hin). reflexivity.
Qed.

Lemma split_whole (s : string) :
  Py.str_in "." s = false -> Py.str_split "." s = [s].
Proof.
  induction s as [|c s IH]; intros H; [reflexivity|].
  cbn [Py.str_in Py.startswith] in H. apply orb_false_iff in H as [Hc Hin].
  cbn [Py.str_split].
  assert (Hne : Ascii.eqb c "." = false).
  { rewrite Ascii.eqb_sym. destruct (Ascii.eqb "." c); [|reflexivity].
    destruct s; discriminate Hc. }
  rewrite Hne. cbn zeta. rewrite (IH Hin). reflexivity.
Qed.

(** X22.  The payload [verify_storage_permissions.py] decodes is the
    second part of the token: for a token of three parts it is the middle
    one, and a token without a full stop has none (the [IndexError] of the
    script). *)
Theorem token_payload_read (header payload signature token : string) :
  (Py.str_in "." header = false ->
   Py.str_in "." payload = false ->
   VerifyStoragePermissions.token_payload (jwt header payload signature) = Some payload) /\
  (Py.str_in "." token = false ->
   VerifyStoragePermissions.token_payload token = None).
Proof.
  unfold VerifyStoragePermissions.token_payload, jwt. split.
  - intros Hh Hp. rewrite (split_label header _ Hh), (split_label payload _ Hp). reflexivity.
  - intros Ht. rewrite (split_whole token Ht). reflexivity.
Qed.

Lemma token_payload_read_witness :
  VerifyStoragePermissions.token_payload (jwt "eyJhbGciOiJSUzI1NiJ9" "eyJvaWQiOiI0MiJ9" "c2ln")
    = Some "eyJvaWQiOiI0MiJ9" /\
  VerifyStoragePermissions.token_payload "opaque-token" = None.
Proof.
  split.
  - apply (proj1 (token_payload_read "eyJhbGciOiJSUzI1NiJ9" "eyJvaWQiOiI0MiJ9" "c2ln" ""));
      reflexivity.
  - apply (proj2 (token_payload_read "" "" "" "opaque-token")); reflexivity.
Defined.



Lemma len_append (s t : string) : Py.len (s +:+ t) = Py.len s + Py.len t.
Proof. unfold Py.len. rewrite length_append. lia. Qed.

Lemma len_mul (c : ascii) (n : Z) : 0 <= n -> Py.len (Py.str_mul c n) = n.
Proof. intros Hn. unfold Py.len, Py.str_mul. rewrite length_stars. lia. Qed.

Lemma append_empty (s : string) : s +:+ "" = s.
Proof. induction s as [|c s IH]; [reflexivity|]. rewrite append_cons. f_equal. exact IH. Qed.

(** X23.  The padding added before the payload is decoded brings its
    length to a multiple of four with fewer than four characters, and
    leaves a payload whose length already is one unchanged. *)
Theorem padded_payload (payload : string) :
  let padded := payload +:+ VerifyStoragePermissions.padding payload in
  Py.len padded mod 4 = 0 /\
  0 <= Py.len (VerifyStoragePermissions.padding payload) < 4 /\
  (Py.len payload mod 4 = 0 -> padded = payload).
Proof.
  cbv zeta. unfold VerifyStoragePermissions.padding.
  assert (Hm : 0 <= (- Py.len payload) mod 4 < 4) by (apply Z.mod_pos_bound; lia).
  rewrite len_append, len_mul by lia. split_and!.
  - rewrite Zplus_mod_idemp_r. replace (Py.len payload + - Py.len payload) with 0 by lia.
    reflexivity.
  - lia.
  - lia.
  - intros H0. assert (Hz : (- Py.len payload) mod 4 = 0).
    { apply Z.mod_opp_l_z; [lia|exact H0]. }
    rewrite Hz. unfold Py.str_mul. cbn [Z.to_nat repeat string_of_list_ascii].
    apply append_empty.
Qed.

(** ** The closing lines of validate_connection.py and check_region.py *)

(** X24.  [validate_connection.py] always ends normally and writes no
    file; its last line invites to run the notebook exactly when the
    service listed its indexes, and asks to check the configuration in
    every other case. *)
Theorem validator_closing_lines
    (new_client : string -> string -> option exn)
    (list_indexes : string -> string -> ValidateConnection.listing) (p : proc) :
  exists ok p',
    ValidateConnection.main new_client list_indexes p = (Ret tt, p') /\
    files p' = files p /\
    (ok = true <-> exists e k names, lists_indexes new_client list_indexes p e k names) /\
    last (stdout p') = Some (validator_last_line ok).
Proof.
  unfold ValidateConnection.main.
  cbv beta iota zeta delta [mbind M_bind]. unfold bind at 1, print at 1.
  unfold bind at 1, print at 1. cbn [environ files globals stdout calls]. unfold bind at 1.
  match goal with
  | |- context [ValidateConnection.validate_connection _ _ ?q] =>
      destruct (connection_verdict new_client list_indexes q)
        as (ok & q' & -> & Hf & Hok & _)
  end.
  cbn [files] in Hf. exists ok.
  destruct q' as [env' fs' gl' out' cs']. cbn [files] in Hf.
  destruct ok; run_all; eexists; (split_and!; [reflexivity|exact Hf|exact Hok|]);
    cbn [stdout]; rewrite last_snoc; reflexivity.
Qed.

Lemma check_service_region_run (q : proc) :
  exists lines,
    CheckRegion.check_service_region q =
      (Ret tt, Proc (environ q) (files q) (globals q) (stdout q ++ lines)%list (calls q)).
Proof.
  unfold CheckRegion.check_service_region. destruct q as [env fs gl out cs]. run_all.
  destruct (Py.truthy_opt (env !! "AZURE_OPENAI_ENDPOINT")); run_all;
    [|eexists; rewrite <- ?app_assoc; reflexivity].
  match goal with |- context [Py.str_in "openai.azure.com" ?e] =>
    destruct (Py.str_in "openai.azure.com" e) end; run_all;
    [|eexists; rewrite <- ?app_assoc; reflexivity].
  match goal with |- context [CheckRegion.found_region ?t ?s] =>
    destruct (CheckRegion.found_region t s) as [region|] end; run_all;
    [|eexists; rewrite <- ?app_assoc; reflexivity].
  destruct (Py.list_in region CheckRegion.supported_regions); run_all;
    eexists; rewrite <- ?app_assoc; reflexivity.
Qed.

(** X25.  [check_region.py] works from the endpoint alone: whatever the
    environment holds, it ends normally without a call outside the
    process and without writing a file, and its output ends with the list
    of the supported regions and the closing lines. *)
Theorem region_checker_offline (p : proc) :
  exists p',
    CheckRegion.main p = (Ret tt, p') /\
    calls p' = calls p /\
    files p' = files p /\
    regions_listing `suffix_of` stdout p'.
Proof.
  unfold CheckRegion.main.
  cbv beta iota zeta delta [mbind M_bind]. unfold bind at 1.
  rewrite load_dotenv_override. unfold bind at 1, print at 1. unfold bind at 1, print at 1.
  cbn [environ files globals stdout calls]. unfold bind at 1.
  match goal with |- context [CheckRegion.check_service_region ?q] =>
    destruct (check_service_region_run q) as [lines ->] end.
  unfold CheckRegion.show_supported_regions, CheckRegion.supported_regions,
    regions_listing, bullet.
  destruct p as [env fs gl out cs]. run_all.
  eexists. split_and!; [reflexivity..|]. cbn [stdout map]. ends_with_tail.
Qed.
